(* ===== verification/_CoqProject ===== *)
-Q . S2P
Prelude.v
PyLib.v
FileTree.v
Storage.v
Ledger.v
Refinement.v
Librarian.v
Protocol.v
RoundTrip.v
SelfTest.v
