(* ===== verification/Prelude.v ===== *)
(** * A verification development for librarian

    librarian (src/librarian/) is a Python 2 command-line client that keeps a
    catalogue of data submissions.  It has three parts:
    - [storage_s3.py], class [StorageS3]: walks a local file or directory
      ([_list_files]) and uploads every file to an S3 bucket under
      [project/dataset/timestamp/relative-path] ([upload]), returning one
      public URL and one (empty) checksum per file;
    - [dbconn.py], class [DBConn]: the MySQL ledger with the tables
      [Engagements], [IncomingData] and [OutgoingData] ([Schema]); it lists
      projects ([projectLs]) and submissions ([ls]), creates projects
      ([createProject]), records a submission ([addInOrOut]) and replays a
      submission into a local directory ([fetch]: every URL of every
      matching row is downloaded with [urllib.urlretrieve]);
    - [librarian.py]: the command-line front end; a global configuration
      dictionary loaded from and saved to [~/.librarian] ([loadConfig],
      [saveConfig], [configInit], [addCredentials]), the connections built
      from it ([get_db_access], [get_s3_access]) and the commands [publish],
      [get], [projectLs], [ls], [create], dispatched by [main].
    [publish] calls [StorageS3.upload] and then [DBConn.addInOrOut]; [get]
    calls [DBConn.fetch], which reads the rows [addInOrOut] wrote and
    downloads the URLs [upload] returned.

    ** Files of the development
    - [Prelude] (this file): Python exceptions ([exn]), the result of a
      Python call ([outcome]), the state-and-exception monad [PyM] in which
      every stateful routine is written (a raised exception keeps the state
      changes made before it, as Python does), loops ([py_for], [py_map]),
      generators ([gen]: what a Python generator yields before it stops,
      and the exception it stops with), [focus] (running a computation on
      one field of a larger state), the invariant combinators
      ([preserves], [ensures] for postconditions, [leads] for one
      transition) with the hint database [librarian], and the tactics
      [py_preserves], [py_leads] and [eval_decide].
    - [PyLib]: the Python library calls the code makes on strings and
      times: [sep.join], [str.split()], [str.rindex], slicing, [datetime]
      and [strftime], [urllib.quote] and the percent-decoding of an HTTP
      server, [int()].  Each is mapped to the line of the code that calls it.
    - [FileTree]: the local file system as a tree ([node]); path
      resolution ([resolve]); [os.path.exists/isfile/isdir]; [os.listdir];
      the file write of [urlretrieve]; [StorageS3._list_files] as a fuelled
      walk ([list_files]) that re-resolves every path string as the code
      does.
    - [Storage]: the S3 service ([s3]: buckets of objects with a
      public-read flag, accepted credentials, keys whose transfer fails),
      [StorageS3.__init__], [get_bucket], the object operations,
      [generate_url], the HTTP GET of a URL ([http_get]), and
      [StorageS3.upload] ([upload], one [upload_one] per walked file).
    - [Ledger]: the MySQL database ([db]: the three tables as lists of
      records in row order, their auto-increment counters), and
      [DBConn.__init__], [projectLs], [ls], [_getTableSignature],
      [createProject], [addInOrOut] and [fetch].  SQL's string comparison
      ([sql_eq], the column collation) is a section parameter; the
      theorems say which of them need it to be exact.
    - [Librarian]: the world ([world]: file system, config file, the global
      [configDict], database, S3 service, clock and standard output) and
      every function of [librarian.py], [main] included; each command is
      composed from the [Ledger] and [Storage] operations with [focus].
    - [Refinement]: the catalogue of the specification (project names and
      the records of each direction, keyed by project name), its
      operations [CreateProject], [RecordSubmission], the lookup of
      [ResolveManifest] and the listing [ListSubmissions] ([spec_list]),
      its one-step relation [spec_step], and the abstraction [abs] of a
      ledger to it; [record_all] is a client loop of [addInOrOut] calls.
    - [Protocol]: runs of the client ([step]: one run of the script,
      [librarian_script], which resets [configDict] and calls [main], or one
      change the environment makes: files, clock, config file, failing
      transfers), the invariant [inv] of reachable worlds and the
      refinement of runs into the catalogue's steps.
    - [RoundTrip]: [publish] composed with [get] over one world.
    - [SelfTest]: the [__main__] block of [dbconn.py], with the Python
      [repr] of the lists it prints (in [PyLib]).

    ** What the theorems show (claim ids C1-C34)
    - Runs (Protocol): in every world reached from a consistent one, every
      URL recorded in the ledger is a public object and a GET of it returns
      the object's data (C1), and the ledger stays well formed: unique
      project names and ids, every row pointing at a project (C2).  The
      proof carries what [upload] returned to [addInOrOut] with the
      postcondition combinator [ensures].  Seen through [abs], every run
      is a sequence of the catalogue's [CreateProject] and
      [RecordSubmission] steps ([spec_step]) (C4): each command of [main]
      changes the ledger at most once, which the transition combinator
      [leads] tracks through its calls.
    - Refinement: on a well-formed ledger under an exact collation,
      [addInOrOut] and [createProject] commute with [abs] and the
      catalogue's operations, errors included (C5, C6), and the SQL join of
      [fetch] selects exactly the catalogue's records of the triple (C7).
      [DBConn.ls] yields exactly the catalogue's listing as (name, version,
      timestamp) triples, and nothing (no [ProjectNotFound]) for an absent
      project (C8); under the exact collation, after N recorded
      submissions of a project its listing has exactly N more entries
      (C9, spec section 8).  Publishing a triple no row shares records a
      manifest that resolves to exactly the URLs [upload] returned, in
      walk order (C10, spec section 8).
    - Round trip (RoundTrip): [publish] then [get] into a directory where
      the URLs' last components are distinct and free gives back every
      walked file's bytes under its flattened name (C11); a single file
      published as dataset [n] comes back as [quote(n<stamp>)], its own
      name lost (C33).
    - Upload (Storage): a successful upload returns one URL per walked
      file, in walk order, and a GET of each returns exactly that file's
      bytes (C3); a failed transfer raises, keeps the files before it
      stored and returns no URLs (C18); a bad bucket or path raises before
      anything is written (C32).
    - The walk (FileTree): with fuel above the tree's height [_list_files]
      yields exactly the files below the path, in [listdir] order, or
      raises [OSError] on a special file (C14); whatever the fuel it
      yields only regular files (C20).
    - The ledger (Ledger): [addInOrOut] and [createProject] keep the ledger
      well formed on every branch (C16, C17); a created project is listed
      and cannot be created twice (C15); under a case-insensitive
      collation a project whose name differs from an older one only in
      case can be created, and its submissions are recorded under the
      older project's id (C27).
    - The client (Librarian): [publish] to a listed project, under a
      collation exact on its name, uploads and appends exactly one row
      (C12), and to an unlisted one uploads and then raises, leaving
      orphaned objects (C13); [get] of an unlisted project or of a triple
      with no row returns normally without writing (C31, C19); [get]
      downloads every URL of every matching row, not only of the first
      record (C21), and of URLs sharing a last component the last one
      wins, so same-named files of different subdirectories are lost
      (C34); [--ls p] prints the header and one padded line per row
      (C22); [--init] over an existing config raises [TypeError] (C28)
      while on a fresh machine it writes a config file with no
      credentials, each run starting from the module's [configDict]
      (C29); [--set_aws_cred] round-trips to the next [get_s3_access]
      (C30).
    - The self-test of [dbconn.py] (SelfTest): run as a script it writes a
      permanent row [test1] under the first project (C24), whose URL
      [urls] breaks the ledger/store consistency of every store (C23);
      without a project it prints [[]] and raises [IndexError] (C25).
    - Times (PyLib): distinct valid datetimes give distinct publish stamps
      (C26).

    ** Fuel and bounds
    [list_files] is the only recursion of the code that is not structural:
    it recurses on path strings.  It takes fuel; [upload] runs it with
    [S (fs_height fs)], and [FileTree.list_files_fuel_enough] shows any
    fuel above the tree's height gives the full walk.  Fuel 0 raises
    [RuntimeError].  Python's own recursion limit (about a thousand
    frames, minus those of the callers) is not modelled: the model walks
    trees of any depth, where CPython would raise [RuntimeError] on one
    nested about a thousand directories deep.  Clock fields and ports are
    [Z]; [strftime] pads each field to its width.

    ** Not modelled
    Deletion of S3 objects or buckets by anyone but the client (the
    environment steps of [Protocol] never delete: with deletion the
    consistency invariant is false, and [get] writes S3's error document);
    failures of [key.set_acl] (only the transfer of [set_contents_from_filename]
    can fail, by the [s3_faults] of the service; [set_acl_public] always
    succeeds on an object just written); argparse (the model of [main]
    starts from the parsed arguments, keeps the code's own length checks
    and prints only the usage line for [print_help]), the JSON text of
    the config file (its content is a map), the [repr] of a credential
    printed by [--lscreds] (a dictionary's [repr] follows its hash order),
    boto's and MySQLdb's network protocols (the service and the database
    are states), MySQLdb's default user, password and host when
    [DBConn( **cred)] lacks them (the model's server refuses such a
    connection), symbolic links and permissions, credentials read from
    the environment; strings are ASCII.  C4 fixes the collation to an
    exact one; under a case-insensitive one the ledger leaves the
    catalogue (C27). *)

From stdpp Require Export base gmap strings list.
From Stdlib Require Export String Ascii Lia.

Declare Scope py_scope.
Delimit Scope py_scope with py.

(** stdpp declares [String.append] [simpl never]; the models below compute
    on concrete strings, so [simpl] may unfold it again on a constructor. *)
#[global] Arguments String.append : simpl nomatch.

(** ** Python exceptions raised by the code or by the library calls it makes *)
Inductive exn :=
  | ConfigError (msg : string)
  | Exception (args : list string)
  | TypeError (msg : string)
  | KeyError (key : string)
  | IndexError (msg : string)
  | ValueError (msg : string)
  | AttributeError (msg : string)
  | OSError (path : string)
  | IOError (path : string)
  | S3ResponseError (status : nat)
  | OperationalError
  | RuntimeError (msg : string).

#[export] Instance exn_eq_dec : EqDecision exn.
Proof. solve_decision. Defined.

(** The result of a Python call: a value or a raised exception. *)
Inductive outcome (A : Type) :=
  | Ok (a : A)
  | Raise (e : exn).
Arguments Ok {A} a.
Arguments Raise {A} e.

Lemma Ok_inj {A} (a b : A) : Ok a = Ok b -> a = b.
Proof. congruence. Qed.

Definition is_ok {A} (o : outcome A) : bool :=
  match o with Ok _ => true | Raise _ => false end.

(** Sequencing of pure calls that may raise. *)
Definition obind {A B} (o : outcome A) (f : A -> outcome B) : outcome B :=
  match o with Ok a => f a | Raise e => Raise e end.

Notation "x <-? c1 ;; c2" := (obind c1 (fun x => c2))
  (at level 100, c1 at next level, right associativity) : py_scope.

(** ** The state-and-exception monad *)
Definition PyM (S A : Type) := S -> outcome A * S.

Definition ret {S A} (a : A) : PyM S A := fun s => (Ok a, s).
Definition raise {S A} (e : exn) : PyM S A := fun s => (Raise e, s).
Definition bind {S A B} (m : PyM S A) (k : A -> PyM S B) : PyM S B :=
  fun s => match m s with
           | (Ok a, s') => k a s'
           | (Raise e, s') => (Raise e, s')
           end.
Definition get_state {S} : PyM S S := fun s => (Ok s, s).
Definition put_state {S} (s : S) : PyM S unit := fun _ => (Ok tt, s).
Definition modify {S} (f : S -> S) : PyM S unit := fun s => (Ok tt, f s).

(** Lift a pure Python computation that may raise. *)
Definition lift_outcome {S A} (o : outcome A) : PyM S A := fun s => (o, s).

(** [try: m except: h]: the handler sees the state left by [m]. *)
Definition try_except {S A} (m : PyM S A) (h : exn -> PyM S A) : PyM S A :=
  fun s => match m s with
           | (Ok a, s') => (Ok a, s')
           | (Raise e, s') => h e s'
           end.

(** Run a computation on one part [get w] of a larger state [w]. *)
Definition focus {W S A} (get : W -> S) (set : S -> W -> W) (m : PyM S A) : PyM W A :=
  fun w => let '(r, s') := m (get w) in (r, set s' w).

Notation "x <- c1 ;; c2" := (bind c1 (fun x => c2))
  (at level 100, c1 at next level, right associativity) : py_scope.
Notation "c1 ;;; c2" := (bind c1 (fun _ => c2))
  (at level 100, right associativity) : py_scope.

Open Scope py_scope.

(** [for x in l: f(x)] *)
Fixpoint py_for {S A} (l : list A) (f : A -> PyM S unit) : PyM S unit :=
  match l with
  | [] => ret tt
  | x :: l' => f x ;;; py_for l' f
  end.

(** [r = []; for x in l: r.append(f(x))] *)
Fixpoint py_map {S A B} (l : list A) (f : A -> PyM S B) : PyM S (list B) :=
  match l with
  | [] => ret []
  | x :: l' => y <- f x ;; ys <- py_map l' f ;; ret (y :: ys)
  end.

(** ** Generators

    A Python generator run to its end: the values it yielded, in order,
    then the exception that stopped it, if any ([None]: it returned).  The
    generators of the code read state that their consumer does not change,
    so the whole run can be computed before the loop that consumes it. *)
Record gen (A : Type) := Gen { yielded : list A; stopped : option exn }.
Arguments Gen {A} yielded stopped.
Arguments yielded {A} g.
Arguments stopped {A} g.

(** [yield from g1; yield from g2]: [g2] runs only if [g1] returned. *)
Definition gen_app {A} (g1 g2 : gen A) : gen A :=
  match stopped g1 with
  | None => Gen (yielded g1 ++ yielded g2) (stopped g2)
  | Some e => g1
  end.

Definition gen_concat {A} (gs : list (gen A)) : gen A :=
  foldr gen_app (Gen [] None) gs.

Lemma gen_concat_cons {A} (g : gen A) gs : gen_concat (g :: gs) = gen_app g (gen_concat gs).
Proof. reflexivity. Qed.

(** What a concatenation yields, one of its generators yields. *)
Lemma gen_concat_yielded {A} (x : A) gs :
  x ∈ yielded (gen_concat gs) -> exists g, g ∈ gs /\ x ∈ yielded g.
Proof.
  induction gs as [|g gs IH]; cbn [gen_concat foldr]; [set_solver|].
  fold (gen_concat gs). unfold gen_app. destruct (stopped g).
  - intros Hx. exists g. set_solver.
  - cbn [yielded]. intros [Hx|Hx]%elem_of_app; [exists g; set_solver|].
    destruct (IH Hx) as (g' & ? & ?). exists g'. set_solver.
Qed.

(** [for x in g: f(x)]: the body runs on every yielded value, then the
    exception that stopped the generator propagates. *)
Definition py_for_gen {S A} (g : gen A) (f : A -> PyM S unit) : PyM S unit :=
  py_for (yielded g) f ;;;
  match stopped g with None => ret tt | Some e => raise e end.

(** [r = []; for x in g: r.append(f(x))] *)
Definition py_map_gen {S A B} (g : gen A) (f : A -> PyM S B) : PyM S (list B) :=
  ys <- py_map (yielded g) f ;;
  match stopped g with None => ret ys | Some e => raise e end.

(** [x in g]: the walk over [g] stops at the first equal value, so an
    exception raised after it is never reached. *)
Definition gen_in {A} `{EqDecision A} (x : A) (g : gen A) : outcome bool :=
  if bool_decide (x ∈ yielded g) then Ok true
  else match stopped g with None => Ok false | Some e => Raise e end.

(** [list(g)] *)
Definition gen_list {A} (g : gen A) : outcome (list A) :=
  match stopped g with None => Ok (yielded g) | Some e => Raise e end.

(** ** Invariants of stateful computations *)

(** [m] keeps [P] whatever it returns or raises. *)
Definition preserves {S A} (P : S -> Prop) (m : PyM S A) : Prop :=
  forall s r s', m s = (r, s') -> P s -> P s'.

(** [m] leaves the state unchanged, whatever it returns or raises. *)
Definition pure_on {S A} (m : PyM S A) : Prop :=
  forall s r s', m s = (r, s') -> s' = s.

Create HintDb librarian.
Create Rewrite HintDb pyrw.

Section MonadLemmas.
Context {S : Type}.

Lemma bind_Ok {A B} (m : PyM S A) (k : A -> PyM S B) s a s' :
  m s = (Ok a, s') -> bind m k s = k a s'.
Proof. intros H. unfold bind. by rewrite H. Qed.

Lemma bind_Raise {A B} (m : PyM S A) (k : A -> PyM S B) s e s' :
  m s = (Raise e, s') -> bind m k s = (Raise e, s').
Proof. intros H. unfold bind. by rewrite H. Qed.

Lemma bind_ret_l {A B} (a : A) (k : A -> PyM S B) s : bind (ret a) k s = k a s.
Proof. reflexivity. Qed.

Lemma bind_assoc {A B C} (m : PyM S A) (k : A -> PyM S B) (h : B -> PyM S C) s :
  bind (bind m k) h s = bind m (fun a => bind (k a) h) s.
Proof. unfold bind. destruct (m s) as [[a|e] s']; reflexivity. Qed.

Lemma bind_ext {A B} (m : PyM S A) (k1 k2 : A -> PyM S B) s :
  (forall a s', k1 a s' = k2 a s') -> bind m k1 s = bind m k2 s.
Proof. intros H. unfold bind. destruct (m s) as [[a|e] s']; auto. Qed.

Lemma py_for_app {A} (l1 l2 : list A) (f : A -> PyM S unit) s :
  py_for (l1 ++ l2) f s = bind (py_for l1 f) (fun _ => py_for l2 f) s.
Proof.
  revert s. induction l1 as [|x l1 IH]; intros s; [reflexivity|].
  simpl. rewrite bind_assoc. apply bind_ext. intros _ s'. apply IH.
Qed.

(** The nested loop [for x in l: for y in g(x): f(y)]. *)
Lemma py_for_flat_map {A B} (l : list A) (g : A -> list B) (f : B -> PyM S unit) s :
  py_for l (fun x => py_for (g x) f) s = py_for (flat_map g l) f s.
Proof.
  revert s. induction l as [|x l IH]; intros s; [reflexivity|].
  cbn [py_for flat_map]. rewrite py_for_app. apply bind_ext. intros _ s'. apply IH.
Qed.

Lemma preserves_ret {A} P (a : A) : preserves P (@ret S A a).
Proof. by intros s r s' [= _ <-]. Qed.

Lemma preserves_raise {A} P e : preserves P (@raise S A e).
Proof. by intros s r s' [= _ <-]. Qed.

Lemma preserves_lift {A} P (o : outcome A) : preserves P (@lift_outcome S A o).
Proof. by intros s r s' [= _ <-]. Qed.

Lemma preserves_get P : preserves P (@get_state S).
Proof. by intros s r s' [= _ <-]. Qed.

Lemma preserves_bind {A B} P (m : PyM S A) (k : A -> PyM S B) :
  preserves P m -> (forall a, preserves P (k a)) -> preserves P (bind m k).
Proof.
  intros Hm Hk s r s'. unfold bind.
  destruct (m s) as [[a|e] s1] eqn:E; intros H HP.
  - eapply Hk; [exact H|]. eapply Hm; eauto.
  - inversion H; subst. eapply Hm; eauto.
Qed.

Lemma preserves_try {A} P (m : PyM S A) (h : exn -> PyM S A) :
  preserves P m -> (forall e, preserves P (h e)) -> preserves P (try_except m h).
Proof.
  intros Hm Hh s r s'. unfold try_except.
  destruct (m s) as [[a|e] s1] eqn:E; intros H HP.
  - inversion H; subst. eapply Hm; eauto.
  - eapply Hh; [exact H|]. eapply Hm; eauto.
Qed.

Lemma preserves_for {A} P (l : list A) (f : A -> PyM S unit) :
  (forall x, preserves P (f x)) -> preserves P (py_for l f).
Proof.
  intros Hf. induction l as [|x l IH]; simpl;
    eauto using preserves_ret, preserves_bind.
Qed.

Lemma preserves_map {A B} P (l : list A) (f : A -> PyM S B) :
  (forall x, preserves P (f x)) -> preserves P (py_map l f).
Proof.
  intros Hf. induction l as [|x l IH]; simpl;
    eauto 6 using preserves_ret, preserves_bind.
Qed.

Lemma preserves_for_gen {A} P (g : gen A) (f : A -> PyM S unit) :
  (forall x, preserves P (f x)) -> preserves P (py_for_gen g f).
Proof.
  intros Hf. unfold py_for_gen. apply preserves_bind; [by apply preserves_for|].
  intros _. destruct (stopped g); [apply preserves_raise|apply preserves_ret].
Qed.

Lemma preserves_map_gen {A B} P (g : gen A) (f : A -> PyM S B) :
  (forall x, preserves P (f x)) -> preserves P (py_map_gen g f).
Proof.
  intros Hf. unfold py_map_gen. apply preserves_bind; [by apply preserves_map|].
  intros ys. destruct (stopped g); [apply preserves_raise|apply preserves_ret].
Qed.

Lemma preserves_if {A} P (b : bool) (m1 m2 : PyM S A) :
  preserves P m1 -> preserves P m2 -> preserves P (if b then m1 else m2).
Proof. by destruct b. Qed.

Lemma pure_on_preserves {A} P (m : PyM S A) : pure_on m -> preserves P m.
Proof. intros H s r s' E HP. by rewrite (H _ _ _ E). Qed.

Lemma pure_on_lift {A} (o : outcome A) : pure_on (@lift_outcome S A o).
Proof. by intros s r s' [= _ <-]. Qed.
End MonadLemmas.

Lemma preserves_focus {W S A} (P : W -> Prop) (get : W -> S) (set : S -> W -> W)
    (m : PyM S A) :
  (forall w r s', m (get w) = (r, s') -> P w -> P (set s' w)) ->
  preserves P (focus get set m).
Proof.
  intros H w r w'. unfold focus. destruct (m (get w)) as [r1 s1] eqn:E.
  intros [= _ <-]. eauto.
Qed.

(** ** Transitions

    [leads P Q m]: run from a state where [P] holds, [m] leaves one where
    [Q] holds, whether it returns or raises.  [preserves P m] is
    [leads P P m]; [leads] describes a computation that makes one change. *)
Definition leads {S A} (P Q : S -> Prop) (m : PyM S A) : Prop :=
  forall s r s', m s = (r, s') -> P s -> Q s'.

Section Leads.
Context {S : Type}.

Lemma preserves_leads {A} (P Q : S -> Prop) (m : PyM S A) :
  (forall s, P s -> Q s) -> preserves Q m -> leads P Q m.
Proof. intros HPQ Hm s r s' E HP. eapply Hm; eauto. Qed.

(** A change made by [m], then a computation that keeps its result; if
    [m] raises, the state it leaves satisfies [Q] already. *)
Lemma leads_bind {A B} (P R Q : S -> Prop) (m : PyM S A) (k : A -> PyM S B) :
  leads P R m -> (forall a, leads R Q (k a)) -> (forall s, R s -> Q s) -> leads P Q (bind m k).
Proof.
  intros Hm Hk HRQ s r s'. unfold bind. destruct (m s) as [[a|e] s1] eqn:E; intros H HP.
  - eapply Hk; [exact H|]. eapply Hm; eauto.
  - injection H as <- <-. apply HRQ. eapply Hm; eauto.
Qed.

Lemma leads_if {A} (P Q : S -> Prop) (b : bool) (m1 m2 : PyM S A) :
  leads P Q m1 -> leads P Q m2 -> leads P Q (if b then m1 else m2).
Proof. by destruct b. Qed.

Lemma leads_try {A} (P Q : S -> Prop) (m : PyM S A) (h : exn -> PyM S A) :
  leads P Q m -> (forall e, preserves Q (h e)) -> leads P Q (try_except m h).
Proof.
  intros Hm Hh s r s'. unfold try_except. destruct (m s) as [[a|e] s1] eqn:E; intros H HP.
  - injection H as <- <-. eapply Hm; eauto.
  - eapply Hh; [exact H|]. eapply Hm; eauto.
Qed.

(** The two halves of a sequence: a prefix that changes nothing [P]
    observes, and a suffix that keeps what the change established. *)
Lemma leads_bind_pre {A B} (P Q : S -> Prop) (m : PyM S A) (k : A -> PyM S B) :
  (forall s, P s -> Q s) -> preserves P m -> (forall a, leads P Q (k a)) -> leads P Q (bind m k).
Proof. intros HPQ Hm Hk. apply (leads_bind P P Q); [by apply preserves_leads|done|done]. Qed.

Lemma leads_bind_post {A B} (P Q : S -> Prop) (m : PyM S A) (k : A -> PyM S B) :
  leads P Q m -> (forall a, preserves Q (k a)) -> leads P Q (bind m k).
Proof. intros Hm Hk. apply (leads_bind P Q Q); [done|intros a; by apply preserves_leads|done]. Qed.
End Leads.

(** ** Postconditions

    [ensures P m Q]: [m] keeps [P], and when it returns [a] the state it
    leaves satisfies [Q a].  It carries what a call returned to the part of
    a computation that consumes it. *)
Definition ensures {S A} (P : S -> Prop) (m : PyM S A) (Q : A -> S -> Prop) : Prop :=
  forall s r s', m s = (r, s') -> P s -> P s' /\ forall a, r = Ok a -> Q a s'.

Section Ensures.
Context {S : Type}.

Lemma ensures_preserves {A} P (m : PyM S A) Q : ensures P m Q -> preserves P m.
Proof. intros H s r s' E HP. by apply (H s r s' E HP). Qed.

(** The rest of a computation may rely on what the first call ensured. *)
Lemma preserves_bind_ensures {A B} P Q (m : PyM S A) (k : A -> PyM S B) :
  ensures P m Q -> (forall a s r s', k a s = (r, s') -> P s -> Q a s -> P s') ->
  preserves P (bind m k).
Proof.
  intros Hm Hk s r s'. unfold bind. destruct (m s) as [[a|e] s1] eqn:E; intros H HP.
  - destruct (Hm s _ s1 E HP) as [HP1 HQ]. eapply Hk; eauto.
  - injection H as <- <-. by apply (Hm s _ s1 E HP).
Qed.

(** A loop whose every step returns a value satisfying [Q], a property
    the later steps keep: all the values it returns satisfy [Q] at the end. *)
Lemma ensures_py_map {A B} P (Q : B -> S -> Prop) (l : list A) (f : A -> PyM S B) :
  (forall x, ensures P (f x) Q) ->
  (forall x y, preserves (fun s => P s /\ Q y s) (f x)) ->
  ensures P (py_map l f) (fun ys s => Forall (fun y => Q y s) ys).
Proof.
  intros Hf Hst. induction l as [|x l IH]; intros s r s'; cbn [py_map].
  - intros [= <- <-] HP. split; [done|]. intros a [= <-]. constructor.
  - unfold bind at 1. destruct (f x s) as [[y|e] s1] eqn:E1; intros H HP.
    + destruct (Hf x s _ s1 E1 HP) as [HP1 HQ1].
      unfold bind in H. destruct (py_map l f s1) as [[ys|e] s2] eqn:E2.
      * injection H as <- <-. destruct (IH s1 _ s2 E2 HP1) as [HP2 HQ2].
        split; [done|]. intros a [= <-]. constructor; [|by apply HQ2].
        apply (preserves_map (fun s => P s /\ Q y s) l f (fun x => Hst x y) s1 (Ok ys) s2 E2).
        split; [done|by apply HQ1].
      * injection H as <- <-. split; [by apply (IH s1 _ s2 E2 HP1)|done].
    + injection H as <- <-. split; [by apply (Hf x s _ s1 E1 HP)|done].
Qed.

Lemma ensures_py_map_gen {A B} P (Q : B -> S -> Prop) (g : gen A) (f : A -> PyM S B) :
  (forall x, ensures P (f x) Q) ->
  (forall x y, preserves (fun s => P s /\ Q y s) (f x)) ->
  ensures P (py_map_gen g f) (fun ys s => Forall (fun y => Q y s) ys).
Proof.
  intros Hf Hst s r s'. unfold py_map_gen, bind.
  destruct (py_map (yielded g) f s) as [[ys|e] s1] eqn:E; intros H HP;
    destruct (ensures_py_map P Q (yielded g) f Hf Hst s _ s1 E HP) as [HP1 HQ].
  - destruct (stopped g); injection H as <- <-; split; try done.
  - injection H as <- <-. by split.
Qed.
End Ensures.

Lemma ensures_focus {W S A} (P : W -> Prop) (Q : A -> W -> Prop) (get : W -> S)
    (set : S -> W -> W) (m : PyM S A) :
  (forall w r s', m (get w) = (r, s') -> P w -> P (set s' w) /\ forall a, r = Ok a -> Q a (set s' w)) ->
  ensures P (focus get set m) Q.
Proof.
  intros H w r w'. unfold focus. destruct (m (get w)) as [r1 s1] eqn:E.
  intros [= <- <-]. eauto.
Qed.

#[export] Hint Resolve preserves_ret preserves_raise preserves_lift preserves_get
  preserves_bind preserves_try preserves_for preserves_for_gen preserves_map preserves_map_gen preserves_if
  pure_on_preserves pure_on_lift : librarian.

(** Unfold the monad's plumbing in a goal about a concrete run. *)
Ltac py_unfold :=
  unfold bind, ret, raise, lift_outcome, try_except, get_state, put_state,
    modify, focus in *.

(** Split a [preserves] goal along the binds, conditionals and handlers of
    the computation, leaving one goal per call. *)
Ltac py_preserves :=
  repeat match goal with
  | |- preserves _ (bind _ _) => apply preserves_bind; [|intros ?]
  | |- preserves _ (if _ then _ else _) => apply preserves_if
  | |- preserves _ (try_except _ _) => apply preserves_try; [|intros ?]
  end.

(** Take apart a computation that [leads] from [P] to [Q] (with [HPQ] the
    proof that [P] implies [Q]) down to the calls that change the state. *)
Ltac py_leads HPQ :=
  repeat match goal with
  | |- leads _ _ (bind _ _) => apply leads_bind_pre; [exact HPQ|solve [auto with librarian]|intros ?]
  | |- leads _ _ (if _ then _ else _) => apply leads_if
  | |- leads _ _ (try_except _ _) => apply leads_try; [|intros ?]
  | |- leads _ _ _ => apply preserves_leads; [exact HPQ|solve [auto with librarian]]
  end.

(** Settle a decidable proposition about concrete data by evaluation. *)
Ltac eval_decide := apply (bool_decide_unpack _); vm_compute; exact I.

(** ** Generic lemmas on lists shared by the components *)

Lemma NoDup_snoc {A} (l : list A) x : NoDup l -> x ∉ l -> NoDup (l ++ [x]).
Proof.
  intros Hl Hx. apply NoDup_app. split; [done|]. split; [|apply NoDup_singleton].
  intros y Hy ->%list_elem_of_singleton. done.
Qed.

Lemma Forall_snoc {A} (P : A -> Prop) l x : Forall P l -> P x -> Forall P (l ++ [x]).
Proof. intros Hl Hx. apply Forall_app. split; [done|by constructor]. Qed.

(** A counter above every element is fresh. *)
Lemma fresh_counter {A} (f : A -> nat) (l : list A) n :
  Forall (fun x => f x < n) l -> n ∉ map f l.
Proof.
  intros Hl Hn. apply list_elem_of_In, in_map_iff in Hn as (x & Hx & Hin).
  apply list_elem_of_In in Hin. rewrite Forall_forall in Hl. specialize (Hl x Hin). lia.
Qed.

Lemma Forall_lt_S {A} (f : A -> nat) (l : list A) n :
  Forall (fun x => f x < n) l -> Forall (fun x => f x < S n) l.
Proof. intros Hl. eapply Forall_impl; [exact Hl|]. simpl. lia. Qed.

#[export] Hint Resolve NoDup_snoc Forall_snoc fresh_counter Forall_lt_S : librarian.

(** [filter] with a boolean test, as the code's list comprehensions use it. *)
Lemma filter_cons_bool {A} (f : A -> bool) x l :
  filter (fun y => f y) (x :: l) = if f x then x :: filter (fun y => f y) l else filter (fun y => f y) l.
Proof. rewrite filter_cons. destruct (f x); [rewrite decide_True by exact I|rewrite decide_False by (cbn; tauto)]; done. Qed.

Lemma elem_of_map_iff {A B} (f : A -> B) (l : list A) x :
  x ∈ map f l <-> exists y, x = f y /\ y ∈ l.
Proof. rewrite list_elem_of_In, in_map_iff. setoid_rewrite list_elem_of_In. naive_solver. Qed.

(** The nested loop [for x in l: for y in g(x)] reaches [y]. *)
Lemma elem_of_flat_map_2 {A B} (g : A -> list B) (l : list A) x y :
  x ∈ l -> y ∈ g x -> y ∈ flat_map g l.
Proof. rewrite !list_elem_of_In, in_flat_map. eauto. Qed.

(** Under a map without duplicates, equal images are the same element. *)
Lemma NoDup_map_eq {A B} (f : A -> B) (l : list A) x y :
  NoDup (map f l) -> x ∈ l -> y ∈ l -> f x = f y -> x = y.
Proof.
  induction l as [|z l IH]; simpl; intros Hnd Hx Hy Hf; [set_solver|].
  apply NoDup_cons in Hnd as [Hz Hnd].
  apply elem_of_cons in Hx as [->|Hx]; apply elem_of_cons in Hy as [->|Hy]; auto.
  - destruct Hz. rewrite Hf. apply elem_of_map_iff. eauto.
  - destruct Hz. rewrite <- Hf. apply elem_of_map_iff. eauto.
Qed.

