(* ===== verification/PyLib.v ===== *)
(** * The Python library calls of librarian, on strings and times

    The code calls [sep.join], [str.split()], [str.split('/')],
    [str.rindex], slicing [s[n:]], [datetime.strftime] and, through boto
    and urllib, URL quoting.  Each is written here by its documented
    Python 2 behaviour, with the lemmas the components need: the join/split
    round trip of the URL column, the slice after a prefix, the last path
    component, the fixed-width timestamp and its parse, quote/unquote. *)

From Stdlib Require Import DecimalString.
From S2P Require Import Prelude.

Local Open Scope string_scope.

(** ** Strings *)

Lemma append_nil_r (s : string) : s ++ "" = s.
Proof. induction s as [|c s IH]; simpl; [done|by rewrite IH]. Qed.

Lemma append_nil_l (s : string) : "" ++ s = s.
Proof. reflexivity. Qed.

Lemma append_assoc (a b c : string) : a ++ (b ++ c) = (a ++ b) ++ c.
Proof. induction a as [|x a IH]; simpl; [done|by rewrite IH]. Qed.

Lemma length_append (a b : string) : String.length (a ++ b) = String.length a + String.length b.
Proof. induction a as [|x a IH]; simpl; [done|by rewrite IH]. Qed.

Lemma append_cons (c : ascii) (a b : string) : String c a ++ b = String c (a ++ b).
Proof. reflexivity. Qed.

#[export] Hint Rewrite append_nil_r append_cons length_append : pyrw.

(** Two concatenations whose first parts have the same length split alike. *)
Lemma append_same_length (a a' b b' : string) :
  String.length a = String.length a' -> a ++ b = a' ++ b' -> a = a' /\ b = b'.
Proof.
  revert a'. induction a as [|x a IH]; intros [|x' a'] Hl H; simpl in *; try lia.
  - done.
  - injection H as -> H. destruct (IH a') as [-> ->]; [lia|done|done].
Qed.

(** [c in s] for a character. *)
Fixpoint has_char (c : ascii) (s : string) : bool :=
  match s with
  | "" => false
  | String a s' => Ascii.eqb a c || has_char c s'
  end.

Lemma has_char_append c a b : has_char c (a ++ b) = has_char c a || has_char c b.
Proof. induction a as [|x a IH]; simpl; [done|by rewrite IH, orb_assoc]. Qed.

Lemma append_cancel_l (a b c : string) : a ++ b = a ++ c -> b = c.
Proof. intros H. by apply (append_same_length a a b c eq_refl H). Qed.

(** The rest of a path after a component: nothing, or a ['/'] and more. *)
Definition sep_tail (r : string) : Prop := r = "" \/ exists r', r = String "/" r'.

(** Two components without ['/'], each followed by the rest of its path,
    are equal when the paths are. *)
Lemma component_inj f g r1 r2 :
  has_char "/" f = false -> has_char "/" g = false -> sep_tail r1 -> sep_tail r2 ->
  f ++ r1 = g ++ r2 -> f = g /\ r1 = r2.
Proof.
  revert g. induction f as [|a f IH]; intros [|b g] Hf Hg H1 H2 H; simpl in *.
  - done.
  - apply orb_false_iff in Hg as [Hb _]. destruct H1 as [->|[r' ->]]; [done|].
    injection H as Hc _. subst b. by rewrite Ascii.eqb_refl in Hb.
  - apply orb_false_iff in Hf as [Ha _]. destruct H2 as [->|[r' ->]]; [done|].
    injection H as Hc _. subst a. by rewrite Ascii.eqb_refl in Ha.
  - apply orb_false_iff in Hf as [_ Hf]. apply orb_false_iff in Hg as [_ Hg].
    injection H as -> H. destruct (IH g Hf Hg H1 H2 H) as [-> ->]. done.
Qed.

(** [sep.join(l)] *)
Fixpoint join (sep : string) (l : list string) : string :=
  match l with
  | [] => ""
  | x :: l' => match l' with [] => x | _ => x ++ sep ++ join sep l' end
  end.

Lemma join_cons sep x l :
  join sep (x :: l) = match l with [] => x | _ => x ++ sep ++ join sep l end.
Proof. reflexivity. Qed.

(** [str.split()] with no argument: split on runs of whitespace (the six
    ASCII white-space characters of [Ascii.is_space]) and drop empty
    words.  [split_go s] returns the word [s] starts with and the words
    after it. *)
Definition cons_word (w : string) (ws : list string) : list string :=
  match w with "" => ws | _ => w :: ws end.

Fixpoint split_go (s : string) : string * list string :=
  match s with
  | "" => ("", [])
  | String c s' =>
      let '(w, ws) := split_go s' in
      if Ascii.is_space c then ("", cons_word w ws) else (String c w, ws)
  end.

Definition split_ws (s : string) : list string :=
  let '(w, ws) := split_go s in cons_word w ws.

Fixpoint has_space (s : string) : bool :=
  match s with
  | "" => false
  | String c s' => Ascii.is_space c || has_space s'
  end.

(** A word of the URL column: not empty, no white space. *)
Definition is_word (u : string) : Prop := u <> "" /\ has_space u = false.

Lemma split_go_word (u s : string) :
  has_space u = false -> split_go (u ++ s) = (u ++ fst (split_go s), snd (split_go s)).
Proof.
  induction u as [|c u IH]; simpl; intros Hu.
  - by destruct (split_go s).
  - apply orb_false_iff in Hu as [Hc Hu]. rewrite IH by done. simpl. by rewrite Hc.
Qed.

Lemma split_go_newline (s : string) :
  split_go (String "010" s) = ("", split_ws s).
Proof. simpl. unfold split_ws. by destruct (split_go s). Qed.

(** Round trip of the URL column: ['\n'.join] then [split()]
    gives the list back when no URL is empty or holds white space. *)
Lemma split_ws_join (l : list string) :
  Forall is_word l -> split_ws (join (String "010" "") l) = l.
Proof.
  induction 1 as [|u l [Hne Hsp] Hl IH]; [done|].
  rewrite join_cons. unfold split_ws. destruct l as [|v l].
  - rewrite <- (append_nil_r u), split_go_word by done.
    cbn [fst snd split_go]. rewrite append_nil_r. by destruct u.
  - rewrite split_go_word by done.
    rewrite append_cons, split_go_newline, append_nil_l, IH.
    cbn [fst snd]. rewrite append_nil_r. by destruct u.
Qed.

(** [str.split(c)] with a one-character separator: keeps empty fields. *)
Fixpoint split_sep (c : ascii) (s : string) : list string :=
  match s with
  | "" => [""]
  | String a s' =>
      let r := split_sep c s' in
      if Ascii.eqb a c then "" :: r
      else match r with
           | w :: ws => String a w :: ws
           | [] => [String a ""]
           end
  end.

Lemma split_sep_not_nil c s : split_sep c s <> [].
Proof.
  destruct s as [|a s]; simpl; [done|].
  destruct (Ascii.eqb a c); [done|]. by destruct (split_sep c s).
Qed.

Lemma split_sep_app c a b :
  split_sep c (a ++ String c b) = (split_sep c a ++ split_sep c b)%list.
Proof.
  induction a as [|x a IH]; simpl.
  - by rewrite Ascii.eqb_refl.
  - rewrite IH. destruct (Ascii.eqb x c); [done|].
    destruct (split_sep c a) eqn:E; [by destruct (split_sep_not_nil c a)|done].
Qed.

Lemma split_sep_no_char c s : has_char c s = false -> split_sep c s = [s].
Proof.
  induction s as [|x s IH]; simpl; [done|]. intros [Hx Hs]%orb_false_iff.
  by rewrite Hx, IH.
Qed.

(** [str.rindex(c)]: the index of the last occurrence, [None] where
    Python raises [ValueError]. *)
Fixpoint rindex_go (c : ascii) (s : string) (i : nat) (acc : option nat) : option nat :=
  match s with
  | "" => acc
  | String a s' => rindex_go c s' (S i) (if Ascii.eqb a c then Some i else acc)
  end.

Definition rindex (c : ascii) (s : string) : option nat := rindex_go c s 0 None.

Lemma rindex_go_app c p s i acc :
  rindex_go c (p ++ s) i acc = rindex_go c s (i + String.length p) (rindex_go c p i acc).
Proof.
  revert i acc. induction p as [|x p IH]; intros i acc; simpl.
  - by rewrite Nat.add_0_r.
  - rewrite IH. f_equal. lia.
Qed.

Lemma rindex_go_no_char c s i acc : has_char c s = false -> rindex_go c s i acc = acc.
Proof.
  revert i acc. induction s as [|x s IH]; intros i acc; simpl; [done|].
  intros [-> Hs]%orb_false_iff. by apply IH.
Qed.

(** [s[n:]] *)
Definition slice_from (s : string) (n : nat) : string :=
  substring n (String.length s - n) s.

Lemma substring_full s : substring 0 (String.length s) s = s.
Proof. induction s as [|x s IH]; simpl; [done|by rewrite IH]. Qed.

Lemma slice_from_app p q : slice_from (p ++ q) (String.length p) = q.
Proof.
  unfold slice_from. rewrite length_append.
  replace (String.length p + String.length q - String.length p) with (String.length q) by lia.
  induction p as [|x p IH]; simpl; [apply substring_full|apply IH].
Qed.

(** The last component of a path or URL: [s[s.rindex('/'):]]. *)
Lemma rindex_last_component p b :
  has_char "/" b = false ->
  rindex "/" (p ++ String "/" b) = Some (String.length p).
Proof.
  intros Hb. unfold rindex. rewrite rindex_go_app. simpl.
  by apply rindex_go_no_char.
Qed.

(** A string holding [c] splits at its last [c]. *)
Lemma has_char_last c s :
  has_char c s = true -> exists p b, s = p ++ String c b /\ has_char c b = false.
Proof.
  induction s as [|a s IH]; [done|]. cbn [has_char]. intros H.
  destruct (has_char c s) eqn:Hs.
  - destruct (IH eq_refl) as (p & b & -> & Hb). by exists (String a p), b.
  - rewrite orb_false_r in H. apply Ascii.eqb_eq in H as ->. by exists "", s.
Qed.

Lemma rindex_last c p b :
  has_char c b = false -> rindex c (p ++ String c b) = Some (String.length p).
Proof.
  intros Hb. unfold rindex. rewrite rindex_go_app. cbn. rewrite Ascii.eqb_refl.
  by apply rindex_go_no_char.
Qed.

(** [s[s.rindex(c):]] is [c] followed by what comes after the last [c]. *)
Lemma slice_from_rindex c s i :
  rindex c s = Some i -> has_char c s = true ->
  exists b, slice_from s i = String c b /\ slice_from s (S i) = b /\ has_char c b = false.
Proof.
  intros Hi Hs. destruct (has_char_last c s Hs) as (p & b & -> & Hb).
  rewrite rindex_last in Hi by done. injection Hi as <-. exists b. split; [apply slice_from_app|].
  split; [|done]. replace (S (String.length p)) with (String.length (p ++ String c "")).
  - change (String c b) with (String c "" ++ b). by rewrite append_assoc, slice_from_app.
  - rewrite length_append. simpl. lia.
Qed.

(** ** Decimal digits, [datetime] and [strftime] *)

Section Time.
Local Open Scope Z_scope.

Definition digit_char (d : Z) : ascii := ascii_of_nat (48 + Z.to_nat d).

(** The [w] low decimal digits of [n >= 0], zero-padded: Python's [%0wd]
    for [0 <= n < 10^w]. *)
Fixpoint dec_fixed (w : nat) (n : Z) : string :=
  match w with
  | O => ""
  | S w' => dec_fixed w' (n / 10) ++ String (digit_char (n mod 10)) ""
  end.

Fixpoint parse_dec_go (acc : Z) (s : string) : Z :=
  match s with
  | "" => acc
  | String c s' => parse_dec_go (acc * 10 + (Z.of_nat (nat_of_ascii c) - 48)) s'
  end.

Definition parse_dec (s : string) : Z := parse_dec_go 0 s.

Lemma length_dec_fixed w n : String.length (dec_fixed w n) = w.
Proof.
  revert n. induction w as [|w IH]; intros n; simpl; [done|].
  rewrite length_append, IH. simpl. lia.
Qed.

Lemma parse_dec_go_app acc s t :
  parse_dec_go acc (s ++ t) = parse_dec_go (parse_dec_go acc s) t.
Proof. revert acc. induction s as [|c s IH]; intros acc; simpl; auto. Qed.

Lemma parse_dec_fixed w n : parse_dec (dec_fixed w n) = n mod 10 ^ Z.of_nat w.
Proof.
  revert n. induction w as [|w IH]; intros n.
  - simpl. by rewrite Z.mod_1_r.
  - cbn [dec_fixed]. unfold parse_dec in *. rewrite parse_dec_go_app, IH.
    cbn [parse_dec_go]. unfold digit_char.
    pose proof (Z.mod_pos_bound n 10 ltac:(lia)) as Hb.
    rewrite Ascii.nat_ascii_embedding by lia.
    rewrite Nat2Z.inj_succ, Z.pow_succ_r by lia.
    rewrite Z.rem_mul_r by (try apply Z.pow_pos_nonneg; lia). lia.
Qed.

Lemma dec_fixed_inj w n m :
  0 <= n < 10 ^ Z.of_nat w -> 0 <= m < 10 ^ Z.of_nat w ->
  dec_fixed w n = dec_fixed w m -> n = m.
Proof.
  intros Hn Hm H. apply (f_equal parse_dec) in H.
  rewrite !parse_dec_fixed, !Z.mod_small in H; done.
Qed.

(** A [datetime.datetime] value, field by field. *)
Record datetime := mk_datetime {
  dt_year : Z; dt_month : Z; dt_day : Z;
  dt_hour : Z; dt_minute : Z; dt_second : Z; dt_microsecond : Z
}.

#[export] Instance datetime_eq_dec : EqDecision datetime.
Proof. solve_decision. Defined.

Definition is_leap (y : Z) : bool :=
  (y mod 4 =? 0) && (negb (y mod 100 =? 0) || (y mod 400 =? 0)).

Definition days_in_month (y m : Z) : Z :=
  if m =? 2 then (if is_leap y then 29 else 28)
  else if (m =? 4) || (m =? 6) || (m =? 9) || (m =? 11) then 30
  else 31.

(** The values the [datetime] constructor accepts ([MINYEAR = 1],
    [MAXYEAR = 9999]). *)
Definition valid_datetime (d : datetime) : bool :=
  (1 <=? dt_year d) && (dt_year d <=? 9999) &&
  (1 <=? dt_month d) && (dt_month d <=? 12) &&
  (1 <=? dt_day d) && (dt_day d <=? days_in_month (dt_year d) (dt_month d)) &&
  (0 <=? dt_hour d) && (dt_hour d <? 24) && (0 <=? dt_minute d) && (dt_minute d <? 60) &&
  (0 <=? dt_second d) && (dt_second d <? 60) &&
  (0 <=? dt_microsecond d) && (dt_microsecond d <? 1000000).

(** [d.strftime('-%Y%m%d-%H%M%S%f')] (librarian.py, [publish]).  Python 2
    refuses [strftime] on years before 1900 with a [ValueError]. *)
Definition strftime_stamp (d : datetime) : outcome string :=
  if dt_year d <? 1900 then
    Raise (ValueError "year is before 1900; the datetime strftime() methods require year >= 1900")
  else Ok ("-" ++ dec_fixed 4 (dt_year d) ++ dec_fixed 2 (dt_month d) ++
           dec_fixed 2 (dt_day d) ++ "-" ++ dec_fixed 2 (dt_hour d) ++
           dec_fixed 2 (dt_minute d) ++ dec_fixed 2 (dt_second d) ++
           dec_fixed 6 (dt_microsecond d)).

Lemma days_in_month_le y m : days_in_month y m <= 31.
Proof.
  unfold days_in_month.
  destruct (m =? 2); [destruct (is_leap y)|destruct (_ || _)]; lia.
Qed.

Lemma valid_datetime_bounds d :
  valid_datetime d = true ->
  1 <= dt_year d <= 9999 ∧ 1 <= dt_month d <= 12 ∧ 1 <= dt_day d <= 31 ∧
  0 <= dt_hour d < 24 ∧ 0 <= dt_minute d < 60 ∧ 0 <= dt_second d < 60 ∧
  0 <= dt_microsecond d < 1000000.
Proof.
  unfold valid_datetime. intros H. repeat apply andb_prop in H as [H ?].
  repeat match goal with
         | H : (_ <=? _) = true |- _ => apply Z.leb_le in H
         | H : (_ <? _) = true |- _ => apply Z.ltb_lt in H
         end.
  pose proof (days_in_month_le (dt_year d) (dt_month d)). lia.
Qed.

End Time.

(** ** URL quoting *)

Definition hex_digit (d : nat) : ascii :=
  match String.get d "0123456789ABCDEF" with Some c => c | None => "0"%char end.

Definition hex_value (c : ascii) : option nat :=
  let n := nat_of_ascii c in
  (if (48 <=? n) && (n <=? 57) then Some (n - 48)
   else if (65 <=? n) && (n <=? 70) then Some (n - 55)
   else if (97 <=? n) && (n <=? 102) then Some (n - 87)
   else None)%nat.

Lemma hex_value_digit d : d < 16 -> hex_value (hex_digit d) = Some d.
Proof. intros H. do 16 (destruct d as [|d]; [reflexivity|]). lia. Qed.

(** urllib's [always_safe]: letters, digits and [_.-]. *)
Definition always_safe (c : ascii) : bool :=
  let n := nat_of_ascii c in
  (((48 <=? n) && (n <=? 57)) || ((65 <=? n) && (n <=? 90)) ||
   ((97 <=? n) && (n <=? 122)) || (n =? 95) || (n =? 46) || (n =? 45))%nat.

(** [urllib.quote(s)] with its default [safe='/']. *)
Definition quote_char (c : ascii) : string :=
  if always_safe c || Ascii.eqb c "/" then String c ""
  else let n := nat_of_ascii c in
       String "%" (String (hex_digit (n / 16)) (String (hex_digit (n mod 16)) "")).

Fixpoint quote (s : string) : string :=
  match s with
  | "" => ""
  | String c s' => quote_char c ++ quote s'
  end.

(** The decoding of [%XX] escapes in a request path, as [urllib.unquote]
    does it: an escape with two hexadecimal digits becomes the byte, any
    other [%] stays. *)
Fixpoint unquote (s : string) : string :=
  match s with
  | "" => ""
  | String c s1 =>
      if Ascii.eqb c "%" then
        match s1 with
        | String h (String l s2) =>
            match hex_value h, hex_value l with
            | Some a, Some b => String (ascii_of_nat (16 * a + b)) (unquote s2)
            | _, _ => String c (unquote s1)
            end
        | _ => String c (unquote s1)
        end
      else String c (unquote s1)
  end.

Lemma quote_char_safe_not_percent c :
  always_safe c || Ascii.eqb c "/" = true -> Ascii.eqb c "%" = false.
Proof.
  intros H. destruct (Ascii.eqb_spec c "%"); [subst; discriminate|done].
Qed.

Lemma unquote_escape h l a b s :
  hex_value h = Some a -> hex_value l = Some b ->
  unquote (String "%" (String h (String l s))) = String (ascii_of_nat (16 * a + b)) (unquote s).
Proof. intros Ha Hb. simpl. by rewrite Ha, Hb. Qed.

Lemma unquote_quote_char c s : unquote (quote_char c ++ s) = String c (unquote s).
Proof.
  unfold quote_char. destruct (always_safe c || Ascii.eqb c "/") eqn:Hs.
  - simpl. by rewrite (quote_char_safe_not_percent c Hs).
  - pose proof (Ascii.nat_ascii_bounded c) as Hb.
    assert (nat_of_ascii c / 16 < 16) as Hq by (apply Nat.Div0.div_lt_upper_bound; lia).
    assert (nat_of_ascii c mod 16 < 16) as Hr by (apply Nat.mod_upper_bound; lia).
    rewrite !append_cons, append_nil_l, (unquote_escape _ _ _ _ _ (hex_value_digit _ Hq) (hex_value_digit _ Hr)).
    rewrite <- (Nat.div_mod_eq (nat_of_ascii c) 16), Ascii.ascii_nat_embedding. done.
Qed.

(** Round trip: the server decodes what [quote] encoded. *)
Lemma unquote_quote s : unquote (quote s) = s.
Proof.
  induction s as [|c s IH]; [done|]. simpl. by rewrite unquote_quote_char, IH.
Qed.

Lemma quote_append a b : quote (a ++ b) = quote a ++ quote b.
Proof. induction a as [|c a IH]; [done|]. simpl. by rewrite IH, append_assoc. Qed.

Lemma hex_digit_not_slash k : Ascii.eqb (hex_digit k) "/" = false.
Proof. unfold hex_digit. do 16 (destruct k as [|k]; [reflexivity|]). reflexivity. Qed.

(** [quote] adds no ['/'] to a string that has none: its escapes are a
    ['%'] and two hexadecimal digits. *)
Lemma quote_no_slash s : has_char "/" s = false -> has_char "/" (quote s) = false.
Proof.
  induction s as [|c s IH]; [done|]. cbn [has_char quote]. intros [Hc Hs]%orb_false_iff.
  rewrite has_char_append, IH by done. unfold quote_char.
  destruct (always_safe c || Ascii.eqb c "/"); cbn [has_char].
  - by rewrite Hc.
  - by rewrite !hex_digit_not_slash.
Qed.

Lemma dec_fixed_no_slash w n : has_char "/" (dec_fixed w n) = false.
Proof.
  revert n. induction w as [|w IH]; intros n; [done|]. cbn [dec_fixed].
  rewrite has_char_append, IH. cbn [has_char orb]. rewrite orb_false_r. unfold digit_char.
  assert (Z.to_nat (n mod 10) < 10) as Hk by (pose proof (Z.mod_pos_bound n 10); lia).
  remember (Z.to_nat (n mod 10)) as k eqn:E. clear E.
  do 10 (destruct k as [|k]; [reflexivity|]). lia.
Qed.

(** A stamp is one path component: it holds no ['/']. *)
Lemma strftime_stamp_no_slash d s : strftime_stamp d = Ok s -> has_char "/" s = false.
Proof.
  unfold strftime_stamp. destruct (_ <? 1900)%Z; [discriminate|]. intros <-%Ok_inj.
  rewrite !has_char_append, !dec_fixed_no_slash. reflexivity.
Qed.

(** [s[len(s):]] is empty. *)
Lemma slice_from_length s : slice_from s (String.length s) = "".
Proof. unfold slice_from. rewrite Nat.sub_diag. induction s as [|c s IH]; [done|exact IH]. Qed.

(** Peel two concatenations whose heads are formatted numbers of one width. *)
Ltac peel_dec H :=
  let H1 := fresh "H" in
  apply append_same_length in H as [H1 H]; [|by rewrite ?length_dec_fixed].

(** C26. Distinct valid datetimes have distinct stamps: publishes of one
    dataset at different clock readings write under different S3
    directories. *)
Theorem strftime_stamp_distinct d1 d2 s1 s2 :
  valid_datetime d1 = true -> valid_datetime d2 = true ->
  strftime_stamp d1 = Ok s1 -> strftime_stamp d2 = Ok s2 -> d1 <> d2 -> s1 <> s2.
Proof.
  intros V1%valid_datetime_bounds V2%valid_datetime_bounds H1 H2 Hne <-. apply Hne. revert H1 H2.
  unfold strftime_stamp.
  destruct (dt_year d1 <? 1900)%Z, (dt_year d2 <? 1900)%Z; try discriminate.
  intros <-%Ok_inj H%Ok_inj. do 8 peel_dec H.
  repeat match goal with
         | H : dec_fixed ?w _ = dec_fixed ?w _ |- _ =>
             apply dec_fixed_inj in H; [|simpl; lia ..]
         end.
  destruct d1, d2; simpl in *; subst; reflexivity.
Qed.

(** ** [int(s)] on a string *)

Fixpoint strip_left (s : string) : string :=
  match s with
  | String c s' => if Ascii.is_space c then strip_left s' else s
  | "" => ""
  end.

Definition strip (s : string) : string := String.rev (strip_left (String.rev (strip_left s))).

Definition digit_value (c : ascii) : option Z :=
  let n := nat_of_ascii c in
  if (48 <=? n)%nat && (n <=? 57)%nat then Some (Z.of_nat n - 48)%Z else None.

Fixpoint parse_digits (acc : Z) (s : string) : option Z :=
  match s with
  | "" => Some acc
  | String c s' => match digit_value c with
                   | Some d => parse_digits (acc * 10 + d)%Z s'
                   | None => None
                   end
  end.

(** [int(s)] for a [str]: surrounding white space, an optional sign, then
    at least one decimal digit; [None] where Python raises [ValueError]. *)
Definition py_int (s : string) : option Z :=
  match strip s with
  | String "-" (String c r) => option_map Z.opp (parse_digits 0 (String c r))
  | String "+" (String c r) => parse_digits 0 (String c r)
  | String c r => parse_digits 0 (String c r)
  | "" => None
  end.

(** ** [repr], as [print] shows a list *)

(** [l[i]] *)
Definition py_index {A} (l : list A) (i : nat) : outcome A :=
  match l !! i with Some x => Ok x | None => Raise (IndexError "list index out of range") end.

(** [str(n)] of an [int]. *)
Definition py_str_int (z : Z) : string := NilEmpty.string_of_int (Z.to_int z).

Definition hex_lower (d : nat) : ascii :=
  match String.get d "0123456789abcdef" with Some c => c | None => "0"%char end.

Definition dquote : ascii := ascii_of_nat 34.

(** [repr(s)] of a [str] (Python 2's [PyString_Repr]): single quotes
    unless [s] holds a single quote and no double quote; the quote and the
    backslash escaped, [\t], [\n], [\r], and [\xhh] for the other
    control characters and bytes from 0x7f. *)
Definition repr_quote (s : string) : ascii :=
  if has_char "'" s && negb (has_char dquote s) then dquote else "'"%char.

Definition repr_char (q c : ascii) : string :=
  let n := nat_of_ascii c in
  if Ascii.eqb c q || Ascii.eqb c "\"%char then String "\" (String c "")
  else if (n =? 9)%nat then String "\" "t"
  else if (n =? 10)%nat then String "\" "n"
  else if (n =? 13)%nat then String "\" "r"
  else if (n <? 32)%nat || (127 <=? n)%nat
  then String "\" (String "x" (String (hex_lower (n / 16)) (String (hex_lower (n mod 16)) "")))
  else String c "".

Fixpoint repr_go (q : ascii) (s : string) : string :=
  match s with
  | "" => ""
  | String c s' => repr_char q c ++ repr_go q s'
  end.

Definition repr_str (s : string) : string :=
  let q := repr_quote s in String q (repr_go q s ++ String q "").

(** [repr] of a list and of a tuple, from the [repr] of the elements. *)
Definition repr_list {A} (r : A -> string) (l : list A) : string :=
  "[" ++ join ", " (map r l) ++ "]".

Definition repr_tuple (parts : list string) : string :=
  match parts with
  | [x] => "(" ++ x ++ ",)"
  | _ => "(" ++ join ", " parts ++ ")"
  end.

(** [repr] of a [datetime.datetime]: the seconds are left out when they
    and the microseconds are zero, the microseconds when they are zero. *)
Definition repr_datetime (t : datetime) : string :=
  "datetime.datetime(" ++
  join ", " (map py_str_int
    ([dt_year t; dt_month t; dt_day t; dt_hour t; dt_minute t] ++
     (if negb (Z.eqb (dt_microsecond t) 0) then [dt_second t; dt_microsecond t]
      else if negb (Z.eqb (dt_second t) 0) then [dt_second t] else []))%list) ++ ")".

(** ** The string functions at concrete inputs *)

Definition ex_clock : datetime := mk_datetime 2015 3 4 10 20 30 123456.

Lemma strftime_stamp_distinct_witness : "-20150304-102030123456" <> "-20150304-102030123457".
Proof.
  apply (strftime_stamp_distinct ex_clock (mk_datetime 2015 3 4 10 20 30 123457)); try reflexivity.
  discriminate.
Defined.

