(* ===== verification/FileTree.v ===== *)
(** * The local file system and the directory walk of [StorageS3]

    The local file system is a tree ([node]): a regular file holds its
    bytes, a directory holds its entries in [os.listdir] order, and
    [Special] stands for every other kind of entry (socket, fifo, dangling
    link), which is neither [isfile] nor [isdir].  The current directory
    is the root of the tree, so relative and absolute paths resolve alike;
    [..] is resolved lexically; symbolic links are not modelled.

    [list_files] is [StorageS3._list_files] (storage_s3.py, 25-36): a
    generator that re-resolves every path string it builds, exactly as the
    code calls [os.path.isfile]/[os.path.isdir] on [directory + '/' + f].
    Its fuel bounds the recursion; [list_files_enum] shows that on a
    well-formed tree enough fuel makes it equal to the structural
    enumeration [enum_node], and [fs_height] gives enough fuel. *)

From S2P Require Import Prelude PyLib.

Local Open Scope string_scope.

Inductive node :=
  | File (data : string)
  | Dir (entries : list (string * node))
  | Special.

(** Induction on trees, with a hypothesis for every entry of a directory. *)
Section node_ind.
Variable P : node -> Prop.
Hypothesis HFile : forall d, P (File d).
Hypothesis HDir : forall es, Forall (fun e => P e.2) es -> P (Dir es).
Hypothesis HSpecial : P Special.

Fixpoint node_ind' (n : node) : P n :=
  match n with
  | File d => HFile d
  | Special => HSpecial
  | Dir es =>
      HDir es ((fix go (es : list (string * node)) : Forall (fun e => P e.2) es :=
                  match es with
                  | [] => Forall_nil_2 _
                  | e :: es' => Forall_cons_2 _ e es' (node_ind' e.2) (go es')
                  end) es)
  end.
End node_ind.

(** ** Paths *)

(** The components of a path: [p.split('/')] without the empty and [.]
    components, [..] removing the previous one. *)
Fixpoint norm_segs (acc : list string) (segs : list string) : list string :=
  match segs with
  | [] => rev acc
  | s :: ss =>
      if (s =? "") || (s =? ".") then norm_segs acc ss
      else if s =? ".." then norm_segs (tail acc) ss
      else norm_segs (s :: acc) ss
  end.

Definition path_segs (p : string) : list string := norm_segs [] (split_sep "/" p).

Fixpoint lookup_entry (f : string) (es : list (string * node)) : option node :=
  match es with
  | [] => None
  | (g, c) :: es' => if f =? g then Some c else lookup_entry f es'
  end.

Fixpoint resolve_segs (n : node) (segs : list string) : option node :=
  match segs with
  | [] => Some n
  | s :: ss =>
      match n with
      | Dir es => match lookup_entry s es with
                  | Some c => resolve_segs c ss
                  | None => None
                  end
      | _ => None
      end
  end.

Definition ends_with_slash (p : string) : bool :=
  match rindex "/" p with
  | Some i => Nat.eqb (S i) (String.length p)
  | None => false
  end.

(** [stat(p)]: the empty path does not exist, and a path ending in [/]
    names a directory or nothing. *)
Definition resolve (fs : node) (p : string) : option node :=
  if p =? "" then None
  else match resolve_segs fs (path_segs p) with
       | Some (Dir es) => Some (Dir es)
       | Some n => if ends_with_slash p then None else Some n
       | None => None
       end.

(** [os.path.exists], [os.path.isfile], [os.path.isdir], [os.listdir] *)
Definition path_exists (fs : node) (p : string) : bool :=
  match resolve fs p with Some _ => true | None => false end.

Definition isfile (fs : node) (p : string) : bool :=
  match resolve fs p with Some (File _) => true | _ => false end.

Definition isdir (fs : node) (p : string) : bool :=
  match resolve fs p with Some (Dir _) => true | _ => false end.

Definition listdir (fs : node) (p : string) : outcome (list string) :=
  match resolve fs p with
  | Some (Dir es) => Ok (map fst es)
  | _ => Raise (OSError p)
  end.

(** ** [StorageS3._list_files] *)

(** [_list_files(directory)]: a file is yielded itself; a directory's
    entries are visited in [listdir] order, files yielded, directories
    walked, anything else skipped; [listdir] of a non-directory raises. *)
Fixpoint list_files (fuel : nat) (fs : node) (directory : string) : gen string :=
  match fuel with
  | O => Gen [] (Some (RuntimeError "maximum recursion depth exceeded"))
  | S fuel' =>
      if isfile fs directory then Gen [directory] None
      else match listdir fs directory with
           | Raise e => Gen [] (Some e)
           | Ok names =>
               gen_concat
                 (map (fun f =>
                         let name := directory ++ "/" ++ f in
                         if isfile fs name then Gen [name] None
                         else if isdir fs name then list_files fuel' fs name
                         else Gen [] None) names)
           end
  end.

(** The files below a node, the node being reached by the path [p]. *)
Fixpoint enum_node (p : string) (n : node) : list string :=
  match n with
  | File _ => [p]
  | Special => []
  | Dir es =>
      (fix go (es : list (string * node)) : list string :=
         match es with
         | [] => []
         | (f, c) :: es' => app (enum_node (p ++ "/" ++ f) c) (go es')
         end) es
  end.

Fixpoint fs_height (n : node) : nat :=
  match n with
  | Dir es =>
      S ((fix go (es : list (string * node)) : nat :=
            match es with
            | [] => 0
            | (_, c) :: es' => Nat.max (fs_height c) (go es')
            end) es)
  | _ => 0
  end.

(** ** Well-formed trees: what a real directory listing guarantees *)

(** A name [listdir] can return: not empty, not [.] or [..], no [/]. *)
Definition valid_name (f : string) : bool :=
  negb (f =? "") && negb (f =? ".") && negb (f =? "..") && negb (has_char "/" f).

Fixpoint wf_node (n : node) : bool :=
  match n with
  | Dir es =>
      bool_decide (NoDup es.*1) &&
      (fix go (es : list (string * node)) : bool :=
         match es with
         | [] => true
         | (f, c) :: es' => valid_name f && wf_node c && go es'
         end) es
  | _ => true
  end.

(** The files below the entries of a directory reached by [p]. *)
Fixpoint enum_entries (p : string) (es : list (string * node)) : list string :=
  match es with
  | [] => []
  | (f, c) :: es' => app (enum_node (p ++ "/" ++ f) c) (enum_entries p es')
  end.

(** ** Writing a file: [open(filename, 'wb').write(data)] *)

(** Replace the entry [f], or add it after the others. *)
Fixpoint update_entry (f : string) (c : node) (es : list (string * node)) : list (string * node) :=
  match es with
  | [] => [(f, c)]
  | (g, d) :: es' => if f =? g then (g, c) :: es' else (g, d) :: update_entry f c es'
  end.

Fixpoint write_segs (n : node) (segs : list string) (data : string) : option node :=
  match segs, n with
  | [f], Dir es =>
      match lookup_entry f es with
      | Some (Dir _) | Some Special => None
      | _ => Some (Dir (update_entry f (File data) es))
      end
  | f :: ss, Dir es =>
      match lookup_entry f es with
      | Some c => option_map (fun c' => Dir (update_entry f c' es)) (write_segs c ss data)
      | None => None
      end
  | _, _ => None
  end.

(** The new tree, or [None] where [open] raises [IOError]: a missing
    parent directory, a directory (or another special entry) in the way,
    an empty path or one ending in [/]. *)
Definition write_file (fs : node) (p : string) (data : string) : option node :=
  if (p =? "") || ends_with_slash p then None else write_segs fs (path_segs p) data.

(** ** Paths of children *)

Lemma norm_segs_app acc l m :
  norm_segs acc (l ++ m) = norm_segs (rev (norm_segs acc l)) m.
Proof.
  revert acc. induction l as [|s l IH]; intros acc; simpl.
  - by rewrite rev_involutive.
  - destruct ((s =? "") || (s =? ".")); [apply IH|].
    destruct (s =? ".."); apply IH.
Qed.

Lemma valid_name_spec f :
  valid_name f = true ->
  f <> "" /\ f <> "." /\ f <> ".." /\ has_char "/" f = false.
Proof.
  unfold valid_name. intros H. repeat apply andb_prop in H as [H ?].
  apply negb_true_iff in H. repeat match goal with
  | H : negb _ = true |- _ => apply negb_true_iff in H end.
  repeat split; try done; intros ->; discriminate.
Qed.

Lemma path_segs_child d f :
  valid_name f = true -> path_segs (d ++ "/" ++ f) = (path_segs d ++ [f])%list.
Proof.
  intros (Hne & Hdot & Hdd & Hsl)%valid_name_spec. unfold path_segs.
  rewrite append_cons, append_nil_l, (split_sep_app "/" d f), (split_sep_no_char "/" f Hsl), norm_segs_app.
  simpl. apply String.eqb_neq in Hne, Hdot, Hdd. rewrite Hne, Hdot, Hdd. simpl.
  by rewrite rev_involutive.
Qed.

Lemma resolve_segs_app n l m :
  resolve_segs n (l ++ m) =
  match resolve_segs n l with Some n' => resolve_segs n' m | None => None end.
Proof.
  revert n. induction l as [|s l IH]; intros n; simpl; [done|].
  destruct n as [|es|]; try done. destruct (lookup_entry s es); [apply IH|done].
Qed.

Lemma lookup_entry_elem_of f c es :
  NoDup es.*1 -> (f, c) ∈ es -> lookup_entry f es = Some c.
Proof.
  induction es as [|[g d] es IH]; simpl; intros Hnd Hin; [set_solver|].
  apply NoDup_cons in Hnd as [Hg Hnd].
  apply elem_of_cons in Hin as [[= -> ->]|Hin].
  - by rewrite String.eqb_refl.
  - destruct (String.eqb_spec f g) as [->|]; [|by apply IH].
    destruct Hg. apply list_elem_of_fmap. by exists (g, c).
Qed.

Lemma ends_with_slash_child d f :
  valid_name f = true -> ends_with_slash (d ++ "/" ++ f) = false.
Proof.
  intros (Hne & _ & _ & Hsl)%valid_name_spec. unfold ends_with_slash.
  rewrite append_cons, append_nil_l, rindex_last_component by done.
  rewrite length_append. apply Nat.eqb_neq. simpl.
  destruct f; [done|simpl; lia].
Qed.

(** A child of a directory is reached by [directory + '/' + name]. *)
Lemma resolve_child fs d es f c :
  resolve fs d = Some (Dir es) -> NoDup es.*1 -> valid_name f = true -> (f, c) ∈ es ->
  resolve fs (d ++ "/" ++ f) = Some c.
Proof.
  unfold resolve. intros Hd Hnd Hf Hin.
  destruct (d =? "") eqn:Ed; [discriminate|].
  destruct (resolve_segs fs (path_segs d)) as [[data|es'|]|] eqn:Hr;
    try (destruct (ends_with_slash d); discriminate); try discriminate.
  injection Hd as ->. replace ((d ++ "/" ++ f) =? "") with false by (by destruct d).
  rewrite path_segs_child, resolve_segs_app, Hr by done. cbn [resolve_segs].
  rewrite (lookup_entry_elem_of f c) by done. cbn [resolve_segs].
  destruct c; try done; by rewrite ends_with_slash_child.
Qed.

(** ** Writing then reading *)

(** [open(p, 'wb')] succeeds on an entry that is absent or a file. *)
Definition writable_entry (o : option node) : bool :=
  match o with Some (Dir _) | Some Special => false | _ => true end.

Lemma lookup_update_same f c es : lookup_entry f (update_entry f c es) = Some c.
Proof.
  induction es as [|[g d] es IH]; cbn; [by rewrite String.eqb_refl|].
  destruct (String.eqb_spec f g) as [->|]; cbn; [by rewrite String.eqb_refl|].
  by destruct (String.eqb_spec f g).
Qed.

Lemma lookup_update_other f g c es :
  g <> f -> lookup_entry g (update_entry f c es) = lookup_entry g es.
Proof.
  intros Hne. induction es as [|[h d] es IH]; cbn.
  - by destruct (String.eqb_spec g f).
  - destruct (String.eqb_spec f h) as [->|]; cbn; [by destruct (String.eqb_spec g h)|].
    destruct (String.eqb_spec g h); [done|exact IH].
Qed.

(** Writing [f] in the directory at [l] updates that directory's entry. *)
Lemma write_segs_snoc n l f es data :
  resolve_segs n l = Some (Dir es) -> writable_entry (lookup_entry f es) = true ->
  exists n', write_segs n (l ++ [f]) data = Some n' /\
             resolve_segs n' l = Some (Dir (update_entry f (File data) es)).
Proof.
  revert n. induction l as [|s l IH]; intros n Hn Hw.
  - injection Hn as ->. exists (Dir (update_entry f (File data) es)). split; [|done].
    cbn. by destruct (lookup_entry f es) as [[]|].
  - destruct n as [|es0|]; try done. cbn [resolve_segs] in Hn.
    destruct (lookup_entry s es0) as [c|] eqn:Hs; [|done].
    destruct (IH c Hn Hw) as (c' & Hc & Hr).
    exists (Dir (update_entry s c' es0)). split.
    + cbn [app]. destruct (l ++ [f])%list as [|x xs] eqn:E; [by destruct l|].
      change (write_segs (Dir es0) (s :: x :: xs) data =
              Some (Dir (update_entry s c' es0))).
      change (match lookup_entry s es0 with
              | Some c0 => option_map (fun c'' => Dir (update_entry s c'' es0)) (write_segs c0 (x :: xs) data)
              | None => None
              end = Some (Dir (update_entry s c' es0))).
      by rewrite Hs, Hc.
    + cbn [resolve_segs]. by rewrite lookup_update_same.
Qed.

(** The child [g] of a directory at [d] is its entry [g]. *)
Lemma resolve_child_lookup fs d es g :
  resolve fs d = Some (Dir es) -> valid_name g = true -> resolve fs (d ++ "/" ++ g) = lookup_entry g es.
Proof.
  unfold resolve. intros Hd Hg. destruct (d =? "") eqn:Ed; [discriminate|].
  destruct (resolve_segs fs (path_segs d)) as [[data|es'|]|] eqn:Hr;
    try (destruct (ends_with_slash d); discriminate); try discriminate.
  injection Hd as ->. replace ((d ++ "/" ++ g) =? "") with false by (by destruct d).
  rewrite path_segs_child, resolve_segs_app, Hr by done. cbn [resolve_segs].
  destruct (lookup_entry g es) as [[]|]; cbn [resolve_segs]; try done; by rewrite ends_with_slash_child.
Qed.

(** [open(d + '/' + f, 'wb').write(data)] in an existing directory [d]. *)
Lemma write_child fs d es f data :
  resolve fs d = Some (Dir es) -> valid_name f = true -> writable_entry (lookup_entry f es) = true ->
  exists fs', write_file fs (d ++ "/" ++ f) data = Some fs' /\
              resolve fs' d = Some (Dir (update_entry f (File data) es)).
Proof.
  intros Hd Hf Hw. unfold resolve in Hd. destruct (d =? "") eqn:Ed; [discriminate|].
  destruct (resolve_segs fs (path_segs d)) as [[data'|es'|]|] eqn:Hr;
    try (destruct (ends_with_slash d); discriminate); try discriminate.
  injection Hd as ->. destruct (write_segs_snoc fs (path_segs d) f es data Hr Hw) as (fs' & Hws & Hr').
  exists fs'. split.
  - unfold write_file. replace ((d ++ "/" ++ f) =? "") with false by (by destruct d).
    by rewrite ends_with_slash_child, path_segs_child.
  - unfold resolve. by rewrite Ed, Hr'.
Qed.

(** ** The walk *)

Lemma enum_node_dir p es : enum_node p (Dir es) = enum_entries p es.
Proof. induction es as [|[f c] es IH]; simpl in *; [done|by rewrite IH]. Qed.

Lemma wf_dir es :
  wf_node (Dir es) = true ->
  NoDup es.*1 /\ forall f c, (f, c) ∈ es -> valid_name f = true /\ wf_node c = true.
Proof.
  simpl. intros [Hnd Hall]%andb_prop. split; [by apply bool_decide_eq_true in Hnd|].
  clear Hnd. induction es as [|[g d] es IH]; intros f c Hin; [set_solver|].
  apply andb_prop in Hall as [[Hg Hd]%andb_prop Hall].
  apply elem_of_cons in Hin as [[= -> ->]|Hin]; [done|by apply IH].
Qed.

Lemma height_child es f c : (f, c) ∈ es -> fs_height c < fs_height (Dir es).
Proof.
  induction es as [|[g d] es IH]; intros Hin; [set_solver|]. simpl in *.
  apply elem_of_cons in Hin as [[= -> ->]|Hin]; [lia|].
  specialize (IH Hin). lia.
Qed.

Lemma gen_app_nil_r {A} (l1 l2 : list A) :
  gen_app (Gen l1 None) (Gen l2 None) = Gen (l1 ++ l2) None.
Proof. reflexivity. Qed.

(** [_list_files] on a path that resolves to [n], with more fuel than the
    height of [n], on a well-formed tree: the files of [n] in [listdir]
    order for a file or a directory; [OSError] from [listdir] for any
    other entry. *)
Lemma list_files_enum fuel fs d n :
  resolve fs d = Some n -> wf_node n = true -> fs_height n < fuel ->
  list_files fuel fs d =
  match n with
  | Special => Gen [] (Some (OSError d))
  | _ => Gen (enum_node d n) None
  end.
Proof.
  revert d n. induction fuel as [|fuel IH]; intros d n Hr Hwf Hh; [lia|].
  cbn [list_files]. unfold isfile at 1, listdir. rewrite Hr.
  destruct n as [data|es|]; [done| |done].
  rewrite enum_node_dir. destruct (wf_dir es Hwf) as [Hnd Hents].
  assert (forall es', (forall x, x ∈ es' -> x ∈ es) ->
    gen_concat (map (fun f => if isfile fs (d ++ "/" ++ f) then Gen [d ++ "/" ++ f] None
                      else if isdir fs (d ++ "/" ++ f) then list_files fuel fs (d ++ "/" ++ f)
                      else Gen [] None) es'.*1) = Gen (enum_entries d es') None) as Hgo.
  { induction es' as [|[f c] es' IHents]; intros Hsub; [done|].
    assert ((f, c) ∈ es) as Hin by set_solver.
    destruct (Hents f c Hin) as [Hf Hc].
    pose proof (resolve_child fs d es f c Hr Hnd Hf Hin) as Hrc.
    cbn [fmap list_fmap map enum_entries fst]. rewrite gen_concat_cons.
    rewrite (IHents ltac:(set_solver)). unfold isfile, isdir. rewrite Hrc.
    destruct c as [data|es2|]; [done| |done].
    rewrite (IH _ (Dir es2) Hrc Hc) by (pose proof (height_child es f _ Hin); lia).
    done. }
  apply Hgo. done.
Qed.

Lemma lookup_entry_some f es c : lookup_entry f es = Some c -> (f, c) ∈ es.
Proof.
  induction es as [|[g d] es IH]; simpl; [done|].
  destruct (String.eqb_spec f g) as [->|]; [intros [= ->]; set_solver|].
  intros H. apply elem_of_cons. right. by apply IH.
Qed.

(** What [resolve] reaches lies in the tree: a subtree of no greater
    height, well formed when the tree is. *)
Lemma resolve_segs_sub fs segs n :
  resolve_segs fs segs = Some n ->
  fs_height n <= fs_height fs /\ (wf_node fs = true -> wf_node n = true).
Proof.
  revert fs. induction segs as [|s segs IH]; intros fs; simpl; [by intros [= ->]|].
  destruct fs as [|es|]; try done. destruct (lookup_entry s es) as [c|] eqn:E; [|done].
  intros Hr. apply lookup_entry_some in E.
  destruct (IH c Hr) as [Hh Hw]. split.
  - pose proof (height_child es s c E). lia.
  - intros Hwf. apply Hw. by apply (proj2 (wf_dir es Hwf) s c E).
Qed.

Lemma resolve_sub fs p n :
  resolve fs p = Some n ->
  fs_height n <= fs_height fs /\ (wf_node fs = true -> wf_node n = true).
Proof.
  unfold resolve. destruct (p =? ""); [done|].
  destruct (resolve_segs fs (path_segs p)) as [[]|] eqn:E; try done;
    try (destruct (ends_with_slash p); [done|]); intros [= <-]; by apply resolve_segs_sub in E.
Qed.

(** The fuel [S (fs_height fs)] is enough for any walk in [fs]. *)
Corollary list_files_height fs d n :
  wf_node fs = true -> resolve fs d = Some n ->
  list_files (S (fs_height fs)) fs d =
  match n with
  | Special => Gen [] (Some (OSError d))
  | _ => Gen (enum_node d n) None
  end.
Proof.
  intros Hwf Hr. destruct (resolve_sub fs d n Hr) as [Hh Hw].
  apply list_files_enum; [done|auto|lia].
Qed.

Lemma elem_of_enum_entries x d es :
  x ∈ enum_entries d es -> exists f c, (f, c) ∈ es /\ x ∈ enum_node (d ++ "/" ++ f) c.
Proof.
  induction es as [|[f c] es IH]; simpl; [set_solver|].
  intros [Hx|Hx]%elem_of_app.
  - exists f, c. split; [set_solver|done].
  - destruct (IH Hx) as (g & e & Hin & Hx'). exists g, e. split; [set_solver|done].
Qed.

(** Soundness of the walk: everything it yields is a regular file. *)
Lemma enum_node_files fs d n x :
  resolve fs d = Some n -> wf_node n = true -> x ∈ enum_node d n ->
  exists data, resolve fs x = Some (File data).
Proof.
  revert d. induction n as [data|es IH|] using node_ind'; intros d Hr Hwf Hx.
  - apply list_elem_of_singleton in Hx as ->. eauto.
  - rewrite enum_node_dir in Hx. destruct (wf_dir es Hwf) as [Hnd Hents].
    apply elem_of_enum_entries in Hx as (f & c & Hin & Hx).
    destruct (Hents f c Hin) as [Hf Hc].
    rewrite Forall_forall in IH.
    apply (IH (f, c) Hin (d ++ "/" ++ f)); [by apply (resolve_child fs d es)|done|done].
  - simpl in Hx. set_solver.
Qed.

(** ** Distinct files, distinct paths *)

(** Every path of the walk below [d] is [d] or [d] followed by ['/']. *)
Lemma enum_node_shape d n x : x ∈ enum_node d n -> exists r, x = d ++ r /\ sep_tail r.
Proof.
  revert d. induction n as [data|es IH|] using node_ind'; intros d Hx.
  - apply list_elem_of_singleton in Hx as ->. exists "". split; [by rewrite append_nil_r|by left].
  - rewrite enum_node_dir in Hx. apply elem_of_enum_entries in Hx as (f & c & Hin & Hx).
    rewrite Forall_forall in IH. destruct (IH (f, c) Hin _ Hx) as (r & -> & _).
    exists (String "/" (f ++ r)). split; [by rewrite <- !append_assoc|right; eauto].
  - simpl in Hx. set_solver.
Qed.

(** The walks below two different entries of a directory share no path. *)
Lemma enum_entries_disjoint d f c es x :
  has_char "/" f = false -> Forall (fun e => has_char "/" e.1 = false) es -> f ∉ es.*1 ->
  x ∈ enum_node (d ++ "/" ++ f) c -> x ∉ enum_entries d es.
Proof.
  intros Hf Hes Hnot Hx1 Hx2. apply elem_of_enum_entries in Hx2 as (g & c' & Hin & Hx2).
  destruct (enum_node_shape _ _ _ Hx1) as (r1 & -> & H1).
  destruct (enum_node_shape _ _ _ Hx2) as (r2 & E & H2).
  rewrite <- !append_assoc in E. apply append_cancel_l in E. cbn [String.append] in E.
  injection E as E. rewrite Forall_forall in Hes.
  destruct (component_inj f g r1 r2 Hf (Hes (g, c') Hin) H1 H2 E) as [-> _].
  apply Hnot. by apply (list_elem_of_fmap_2 fst es (g, c')).
Qed.

Lemma enum_entries_nodup d es :
  NoDup es.*1 ->
  Forall (fun e => has_char "/" e.1 = false /\ NoDup (enum_node (d ++ "/" ++ e.1) e.2)) es ->
  NoDup (enum_entries d es).
Proof.
  induction es as [|[f c] es IH]; intros Hnd Hall; [constructor|].
  cbn [fmap list_fmap fst] in Hnd. apply NoDup_cons in Hnd as [Hf Hnd].
  apply Forall_cons in Hall as [[Hfs Hc] Hall]. cbn [enum_entries].
  apply NoDup_app. split; [done|]. split; [|by apply IH].
  intros x Hx. apply (enum_entries_disjoint d f c es x Hfs); [|done|done].
  apply (Forall_impl _ _ _ Hall). by intros ? [? _].
Qed.

(** The walk of a well-formed tree yields every path once. *)
Lemma enum_node_nodup d n : wf_node n = true -> NoDup (enum_node d n).
Proof.
  revert d. induction n as [data|es IH|] using node_ind'; intros d Hwf.
  - apply NoDup_singleton.
  - rewrite enum_node_dir. destruct (wf_dir es Hwf) as [Hnd Hents].
    apply enum_entries_nodup; [done|]. apply Forall_forall. intros [f c] Hin.
    destruct (Hents f c Hin) as [Hv Hc]. split; [apply (valid_name_spec f Hv)|].
    rewrite Forall_forall in IH. by apply (IH (f, c) Hin).
  - constructor.
Qed.

(** C14. The walk needs no more fuel than the height of the tree: with any fuel
    above it, [_list_files] of a path yields the files below the node it
    reaches, in [listdir] order, and stops normally; for a path that
    resolves to a special file (neither a regular file nor a directory) it
    yields nothing and raises [OSError]. *)
Theorem list_files_fuel_enough fuel fs d n :
  wf_node fs = true -> resolve fs d = Some n -> fs_height fs < fuel ->
  list_files fuel fs d =
  match n with
  | Special => Gen [] (Some (OSError d))
  | _ => Gen (enum_node d n) None
  end.
Proof.
  intros Hwf Hr Hf. destruct (resolve_sub fs d n Hr) as [Hh Hw].
  apply list_files_enum; [done|auto|lia].
Qed.

(** C20. Whatever the fuel, everything [_list_files] yields is a regular file
    of the tree: no directory, special file or missing path is uploaded. *)
Theorem list_files_yields_files fuel fs d x :
  x ∈ yielded (list_files fuel fs d) -> exists data, resolve fs x = Some (File data).
Proof.
  unfold isfile. revert d. induction fuel as [|fuel IH]; intros d; cbn [list_files]; [set_solver|].
  destruct (resolve fs d) as [[data| |]|] eqn:Hd; cbn [yielded];
    try (intros ->%list_elem_of_singleton; by exists data);
    unfold isfile, listdir; rewrite Hd; cbn [yielded]; try set_solver.
  intros (g & (f & -> & _)%elem_of_map_iff & Hx)%gen_concat_yielded.
  unfold isfile, isdir in Hx.
  destruct (resolve fs (d ++ "/" ++ f)) as [[data'| |]|] eqn:Hf; cbn [yielded] in Hx;
    first [apply list_elem_of_singleton in Hx as ->; by eauto | by apply IH in Hx | set_solver].
Qed.

(** ** The walk at a concrete tree *)

Definition ex_data : node := Dir [("a.txt", File "A"); ("sub", Dir [("b.txt", File "B")])].
Definition ex_tree : node := Dir [("data", ex_data)].

Lemma list_files_fuel_enough_witness :
  list_files 5 ex_tree "data" = Gen ["data/a.txt"; "data/sub/b.txt"] None.
Proof.
  rewrite (list_files_fuel_enough 5 ex_tree "data" ex_data); [reflexivity|reflexivity|reflexivity|].
  vm_compute. lia.
Defined.

Lemma list_files_yields_files_witness : exists data, resolve ex_tree "data/sub/b.txt" = Some (File data).
Proof. apply (list_files_yields_files 5 ex_tree "data"). eval_decide. Defined.
