(* ===== verification/Storage.v ===== *)
(** * The object store: [StorageS3] (storage_s3.py) and the S3 service

    The service ([s3]) holds buckets of objects ([s3obj]: bytes and a
    public-read flag), the credential pairs it accepts, and the keys whose
    transfer fails (a connection reset or a refused PUT), the fault the
    code cannot recover from.  boto's calls are written as the code uses
    them: [get_bucket] (a validating request), [set_contents_from_filename]
    (a PUT of a private object), [set_acl('public-read')], and
    [generate_url(expires_in=0, query_auth=False)] with the
    [OrdinaryCallingFormat] ([https://s3.amazonaws.com/bucket/quoted-key]).
    An HTTP GET of such a URL ([http_get]) is what [urllib.urlretrieve]
    does in [DBConn.fetch]: Python 2's [urlretrieve] does not raise on an
    HTTP error status, it returns the error document as the body.

    [upload] is [StorageS3.upload] (storage_s3.py, 39-60): the walk of
    [FileTree.list_files], one PUT and one ACL change per file, one URL and
    one empty checksum per file; an exception leaves the objects already
    written in place. *)

From S2P Require Import Prelude PyLib FileTree.

Local Open Scope string_scope.

Record s3obj := mk_obj { obj_data : string; obj_public : bool }.

Record s3 := mk_s3 {
  s3_buckets : gmap string (gmap string s3obj);
  s3_accounts : list (string * string);
  s3_faults : gset string
}.

(** The connection object built by [StorageS3.__init__]. *)
Record StorageS3 := mk_StorageS3 {
  secret_key : option string;
  access_key : option string;
  bucketname : string
}.

(** [StorageS3.__init__(secret_access_key=None, access_key_id=None,
    bucket='librarian_upload_test')]: boto's [S3Connection] raises when it
    finds no credentials; the constructor turns that into
    [Exception('Invalid S3 credentials')].  Credentials from the
    environment or a boto configuration file are not modelled. *)
Definition StorageS3_init (secret_access_key access_key_id : option string)
    (bucket : string) : outcome StorageS3 :=
  match secret_access_key, access_key_id with
  | Some _, Some _ => Ok (mk_StorageS3 secret_access_key access_key_id bucket)
  | _, _ => Raise (Exception ["Invalid S3 credentials"])
  end.

Definition default_bucket : string := "librarian_upload_test".

(** [self.conn.get_bucket(self.bucketname)]: 403 for credentials the
    service does not accept, 404 for a bucket it does not have. *)
Definition get_bucket (svc : s3) (st : StorageS3) : outcome string :=
  match secret_key st, access_key st with
  | Some sk, Some ak =>
      if bool_decide ((ak, sk) ∈ s3_accounts svc) then
        match s3_buckets svc !! bucketname st with
        | Some _ => Ok (bucketname st)
        | None => Raise (S3ResponseError 404)
        end
      else Raise (S3ResponseError 403)
  | _, _ => Raise (S3ResponseError 403)
  end.

(** A file's bytes, as [open(f, 'rb').read()] sees them. *)
Definition read_file (fs : node) (f : string) : outcome string :=
  match resolve fs f with
  | Some (File data) => Ok data
  | _ => Raise (IOError f)
  end.

(** [key.set_contents_from_filename(f)]: the PUT of a new private object,
    or a failed transfer for a faulty key. *)
Definition put_object (b k data : string) : PyM s3 unit :=
  fun svc =>
    if bool_decide (k ∈ s3_faults svc) then (Raise (IOError k), svc)
    else (Ok tt, mk_s3 (alter (insert k (mk_obj data false)) b (s3_buckets svc))
                       (s3_accounts svc) (s3_faults svc)).

Definition make_public (o : s3obj) : s3obj := mk_obj (obj_data o) true.

(** [key.set_acl('public-read')] *)
Definition set_acl_public (b k : string) : PyM s3 unit :=
  modify (fun svc => mk_s3 (alter (alter make_public k) b (s3_buckets svc))
                           (s3_accounts svc) (s3_faults svc)).

Definition s3_endpoint : string := "https://s3.amazonaws.com/".

(** [key.generate_url(expires_in=0, query_auth=False)] *)
Definition generate_url (b k : string) : string := s3_endpoint ++ b ++ "/" ++ quote k.

(** [store_dir + f[len(local_path):]]: the key of the file [f]. *)
Definition upload_key (store_dir local_path f : string) : string :=
  store_dir ++ slice_from f (String.length local_path).

(** One iteration of the loop of [upload]. *)
Definition upload_one (fs : node) (b store_dir local_path f : string) : PyM s3 (string * string) :=
  let k := upload_key store_dir local_path f in
  data <- lift_outcome (read_file fs f) ;;
  put_object b k data ;;;
  set_acl_public b k ;;;
  ret (generate_url b k, "").

(** [StorageS3.upload(local_path, project, dataset, timestamp)].  The
    walk runs with [S (fs_height fs)] fuel, which [list_files_height]
    shows is always enough. *)
Definition upload (fs : node) (st : StorageS3) (local_path project dataset timestamp : string)
    : PyM s3 (list string * list string) :=
  svc <- get_state ;;
  b <- lift_outcome (get_bucket svc st) ;;
  let store_dir := join "/" [project; dataset; timestamp] in
  pairs <- py_map_gen (list_files (S (fs_height fs)) fs local_path)
                      (upload_one fs b store_dir local_path) ;;
  ret (map fst pairs, map snd pairs).

(** ** Downloads *)

Fixpoint strip_prefix (pre s : string) : option string :=
  match pre, s with
  | "", _ => Some s
  | String c pre', String d s' => if Ascii.eqb c d then strip_prefix pre' s' else None
  | _, _ => None
  end.

(** [s.split('/', 1)] when [s] has a ['/']. *)
Fixpoint split_first (c : ascii) (s : string) : option (string * string) :=
  match s with
  | "" => None
  | String a s' =>
      if Ascii.eqb a c then Some ("", s')
      else match split_first c s' with
           | Some (x, y) => Some (String a x, y)
           | None => None
           end
  end.

(** The body of S3's XML error reply (its XML declaration, message and
    request ids are left out). *)
Definition s3_error_document (code : string) : string :=
  "<Error><Code>" ++ code ++ "</Code></Error>".

(** The body an HTTP GET of [url] returns.  S3 decodes the escapes of the
    request path; a missing or private object gets an error document, which
    [urlretrieve] returns like any other body.  A URL of another host
    raises [IOError]: the model has no other server. *)
Definition http_get (svc : s3) (url : string) : outcome string :=
  match strip_prefix s3_endpoint url with
  | Some rest =>
      match split_first "/" rest with
      | Some (b, qk) =>
          match s3_buckets svc !! b with
          | Some objs =>
              match objs !! unquote qk with
              | Some o => Ok (if obj_public o then obj_data o else s3_error_document "AccessDenied")
              | None => Ok (s3_error_document "NoSuchKey")
              end
          | None => Ok (s3_error_document "NoSuchBucket")
          end
      | None => Ok (s3_error_document "NoSuchBucket")
      end
  | None => Raise (IOError url)
  end.

(** ** The effect of an upload *)

(** The service with bucket [b] changed by [f]. *)
Definition with_bucket (svc : s3) (b : string) (f : gmap string s3obj -> gmap string s3obj) : s3 :=
  mk_s3 (alter f b (s3_buckets svc)) (s3_accounts svc) (s3_faults svc).

(** Public objects written in order: a later key overwrites an earlier one. *)
Definition store_objects (m : gmap string s3obj) (kvs : list (string * string)) : gmap string s3obj :=
  foldl (fun m kv => <[kv.1 := mk_obj kv.2 true]> m) m kvs.

Definition file_data (fs : node) (f : string) : string :=
  match read_file fs f with Ok d => d | Raise _ => "" end.

(** The objects an upload of [files] writes, in order. *)
Definition upload_plan (fs : node) (store_dir local_path : string) (files : list string)
    : list (string * string) :=
  map (fun f => (upload_key store_dir local_path f, file_data fs f)) files.

Definition readable (fs : node) (f : string) : Prop := exists d, read_file fs f = Ok d.

(** ** Lemmas *)

Lemma with_bucket_compose svc b f g :
  with_bucket (with_bucket svc b f) b g = with_bucket svc b (fun m => g (f m)).
Proof. unfold with_bucket. cbn [s3_buckets s3_accounts s3_faults]. f_equal. apply (alter_alter_eq (M:=gmap string)). Qed.

Lemma with_bucket_id svc b : with_bucket svc b (fun m => m) = svc.
Proof. destruct svc. unfold with_bucket. cbn [s3_buckets s3_accounts s3_faults]. f_equal. by apply (alter_id (M:=gmap string)). Qed.

Lemma upload_one_ok fs b sd lp f data svc :
  read_file fs f = Ok data -> upload_key sd lp f ∉ s3_faults svc ->
  upload_one fs b sd lp f svc =
  (Ok (generate_url b (upload_key sd lp f), ""),
   with_bucket svc b (insert (upload_key sd lp f) (mk_obj data true))).
Proof.
  intros Hr Hk. unfold upload_one, upload_key in *. py_unfold. rewrite Hr.
  unfold put_object. rewrite bool_decide_eq_false_2 by done.
  unfold with_bucket. cbn [s3_buckets s3_accounts s3_faults]. do 2 f_equal.
  cbn [s3_buckets]. rewrite (alter_alter_eq (M:=gmap string)).
  apply (alter_ext (M:=gmap string)). intros m _. simpl. by rewrite alter_insert_eq.
Qed.

Lemma upload_one_fault fs b sd lp f data svc :
  read_file fs f = Ok data -> upload_key sd lp f ∈ s3_faults svc ->
  upload_one fs b sd lp f svc = (Raise (IOError (upload_key sd lp f)), svc).
Proof.
  intros Hr Hk. unfold upload_one, upload_key in *. py_unfold. rewrite Hr.
  unfold put_object. by rewrite bool_decide_eq_true_2 by done.
Qed.

(** The loop of [upload] when every transfer succeeds. *)
Lemma py_map_upload_ok fs b sd lp files svc :
  Forall (readable fs) files ->
  Forall (fun f => upload_key sd lp f ∉ s3_faults svc) files ->
  py_map files (upload_one fs b sd lp) svc =
  (Ok (map (fun f => (generate_url b (upload_key sd lp f), "")) files),
   with_bucket svc b (fun m => store_objects m (upload_plan fs sd lp files))).
Proof.
  revert svc. induction files as [|f files IH]; intros svc Hread Hok.
  - simpl. by rewrite with_bucket_id.
  - apply Forall_cons in Hread as [[d Hd] Hread]. apply Forall_cons in Hok as [Hf Hok].
    cbn [py_map]. rewrite (bind_Ok _ _ _ _ _ (upload_one_ok fs b sd lp f d svc Hd Hf)).
    cbv beta. rewrite (bind_Ok _ _ _ _ _ (IH (with_bucket svc b _) Hread Hok)). unfold ret.
    rewrite with_bucket_compose. unfold upload_plan, file_data at 2. cbn [map]. by rewrite Hd.
Qed.

(** The loop of [upload] when the transfer of one file fails: the files
    before it stay uploaded, the exception propagates. *)
Lemma py_map_upload_fault fs b sd lp pre f post svc :
  Forall (readable fs) (pre ++ [f]) ->
  Forall (fun g => upload_key sd lp g ∉ s3_faults svc) pre ->
  upload_key sd lp f ∈ s3_faults svc ->
  py_map (pre ++ f :: post) (upload_one fs b sd lp) svc =
  (Raise (IOError (upload_key sd lp f)),
   with_bucket svc b (fun m => store_objects m (upload_plan fs sd lp pre))).
Proof.
  revert svc. induction pre as [|g pre IH]; intros svc Hread Hok Hf.
  - apply Forall_cons in Hread as [[d Hd] _]. cbn [app py_map].
    rewrite (bind_Raise _ _ _ _ _ (upload_one_fault fs b sd lp f d svc Hd Hf)).
    by rewrite with_bucket_id.
  - apply Forall_cons in Hread as [[d Hd] Hread]. apply Forall_cons in Hok as [Hg Hok].
    cbn [app py_map]. rewrite (bind_Ok _ _ _ _ _ (upload_one_ok fs b sd lp g d svc Hd Hg)).
    cbv beta. rewrite (bind_Raise _ _ _ _ _ (IH (with_bucket svc b _) Hread Hok Hf)).
    rewrite with_bucket_compose. unfold upload_plan, file_data at 2. cbn [map]. by rewrite Hd.
Qed.

Lemma walk_readable fs d n :
  wf_node fs = true -> resolve fs d = Some n -> Forall (readable fs) (enum_node d n).
Proof.
  intros Hwf Hr. apply Forall_forall. intros x Hx.
  destruct (resolve_sub fs d n Hr) as [_ Hw].
  destruct (enum_node_files fs d n x Hr (Hw Hwf) Hx) as [data Hd].
  exists data. unfold read_file. by rewrite Hd.
Qed.

Lemma upload_unfold fs st lp project dataset ts svc b :
  get_bucket svc st = Ok b ->
  upload fs st lp project dataset ts svc =
  (pairs <- py_map_gen (list_files (S (fs_height fs)) fs lp)
                       (upload_one fs b (join "/" [project; dataset; ts]) lp) ;;
   ret (map fst pairs, map snd pairs)) svc.
Proof. intros Hb. unfold upload. py_unfold. by rewrite Hb. Qed.

(** [upload] of a file or a directory when every transfer succeeds: one
    URL per file of the walk, in walk order, each for the key
    [project/dataset/timestamp] followed by the file's path below
    [local_path]; one empty checksum per file; every file written as a
    public object, in the same order. *)
Lemma upload_run fs st svc local_path project dataset ts n b :
  let sd := join "/" [project; dataset; ts] in
  let files := enum_node local_path n in
  wf_node fs = true -> resolve fs local_path = Some n -> n <> Special ->
  get_bucket svc st = Ok b ->
  Forall (fun f => upload_key sd local_path f ∉ s3_faults svc) files ->
  upload fs st local_path project dataset ts svc =
  (Ok (map (fun f => generate_url b (upload_key sd local_path f)) files,
       map (fun _ => "") files),
   with_bucket svc b (fun m => store_objects m (upload_plan fs sd local_path files))).
Proof.
  intros sd files Hwf Hr Hn Hb Hok. rewrite (upload_unfold _ _ _ _ _ _ _ b Hb).
  rewrite (list_files_height fs local_path n Hwf Hr). unfold py_map_gen.
  replace (match n with Special => _ | _ => _ end) with (Gen (A:=string) files None)
    by (by destruct n).
  cbn [yielded]. rewrite bind_assoc.
  rewrite (bind_Ok _ _ _ _ _ (py_map_upload_ok _ _ _ _ _ _ (walk_readable fs _ n Hwf Hr) Hok)).
  cbv beta. cbn [stopped]. rewrite bind_ret_l. unfold ret. by rewrite !map_map.
Qed.

(** C18. [upload] when the transfer of a file of the walk fails: the exception
    propagates, the files before it stay stored as public objects, and no
    URL list is returned to the caller. *)
Theorem upload_partial fs st svc local_path project dataset ts n b pre f post :
  let sd := join "/" [project; dataset; ts] in
  wf_node fs = true -> resolve fs local_path = Some n -> n <> Special ->
  get_bucket svc st = Ok b ->
  enum_node local_path n = (pre ++ f :: post)%list ->
  Forall (fun g => upload_key sd local_path g ∉ s3_faults svc) pre ->
  upload_key sd local_path f ∈ s3_faults svc ->
  upload fs st local_path project dataset ts svc =
  (Raise (IOError (upload_key sd local_path f)),
   with_bucket svc b (fun m => store_objects m (upload_plan fs sd local_path pre))).
Proof.
  intros sd Hwf Hr Hn Hb He Hok Hf. rewrite (upload_unfold _ _ _ _ _ _ _ b Hb).
  rewrite (list_files_height fs local_path n Hwf Hr). unfold py_map_gen.
  replace (match n with Special => _ | _ => _ end) with (Gen (A:=string) (pre ++ f :: post)%list None)
    by (destruct n; by rewrite ?He).
  pose proof (walk_readable fs _ n Hwf Hr) as Hread. rewrite He in Hread.
  assert (Forall (readable fs) (pre ++ [f])) as Hpre.
  { apply Forall_app in Hread as [? Hpost]. apply Forall_cons in Hpost as [? _].
    apply Forall_app. split; [done|by constructor]. }
  cbn [yielded]. rewrite bind_assoc.
  by rewrite (bind_Raise _ _ _ _ _ (py_map_upload_fault fs b sd local_path pre f post svc Hpre Hok Hf)).
Qed.

(** C32. [upload] raises before writing anything when the bucket cannot be
    opened or when [local_path] is neither a file nor a directory. *)
Theorem upload_early_error fs st svc local_path project dataset ts :
  wf_node fs = true ->
  (match get_bucket svc st with Raise _ => True | Ok _ => False end \/
   match resolve fs local_path with Some (File _) | Some (Dir _) => False | _ => True end) ->
  exists e, upload fs st local_path project dataset ts svc = (Raise e, svc).
Proof.
  intros Hwf Hcase. destruct (get_bucket svc st) as [b|e] eqn:Hb.
  - destruct Hcase as [[]|Hcase]. rewrite (upload_unfold _ _ _ _ _ _ _ b Hb).
    unfold py_map_gen.
    destruct (resolve fs local_path) as [[]|] eqn:Hr; try done.
    + rewrite (list_files_height fs local_path Special Hwf Hr). by eexists.
    + exists (OSError local_path). cbn [list_files]. unfold isfile, listdir. by rewrite Hr.
  - exists e. unfold upload. py_unfold. by rewrite Hb.
Qed.

(** ** URLs of an upload *)

Lemma strip_prefix_app p s : strip_prefix p (p ++ s) = Some s.
Proof. induction p as [|c p IH]; simpl; [done|]. by rewrite Ascii.eqb_refl. Qed.

Lemma split_first_app c x y :
  has_char c x = false -> split_first c (x ++ String c y) = Some (x, y).
Proof.
  induction x as [|a x IH]; simpl; [by rewrite Ascii.eqb_refl|].
  intros [Ha Hx]%orb_false_iff. by rewrite Ha, IH.
Qed.

(** [http_get] of a URL made by [generate_url]: the object under the key. *)
Lemma http_get_generate_url svc b k objs :
  has_char "/" b = false -> s3_buckets svc !! b = Some objs ->
  http_get svc (generate_url b k) =
  Ok (match objs !! k with
      | Some o => if obj_public o then obj_data o else s3_error_document "AccessDenied"
      | None => s3_error_document "NoSuchKey"
      end).
Proof.
  intros Hb Hobjs. unfold http_get, generate_url.
  change ("/" ++ quote k) with (String "/" (quote k)).
  rewrite strip_prefix_app, split_first_app, Hobjs, unquote_quote by done.
  by destruct (objs !! k).
Qed.

Lemma store_objects_notin m kvs k :
  k ∉ map fst kvs -> store_objects m kvs !! k = m !! k.
Proof.
  revert m. induction kvs as [|[k' d] kvs IH]; intros m Hk; [done|].
  cbn [store_objects foldl]. cbn [map fst] in Hk. apply not_elem_of_cons in Hk as [Hk Hks].
  fold (store_objects (<[k' := mk_obj d true]> m) kvs).
  rewrite IH by done. by rewrite lookup_insert_ne.
Qed.

(** A key written by [store_objects] holds a public object with the data
    of the last pair of that key. *)
Lemma store_objects_in m kvs k :
  k ∈ map fst kvs -> exists d, (k, d) ∈ kvs /\ store_objects m kvs !! k = Some (mk_obj d true).
Proof.
  revert m. induction kvs as [|[k' d] kvs IH]; intros m Hk; [set_solver|].
  cbn [store_objects foldl]. fold (store_objects (<[k' := mk_obj d true]> m) kvs).
  destruct (decide (k ∈ map fst kvs)) as [Hin|Hnin].
  - destruct (IH (<[k' := mk_obj d true]> m) Hin) as (d' & ? & ?). exists d'. set_solver.
  - assert (k = k') as -> by (cbn in Hk; set_solver).
    exists d. rewrite store_objects_notin, lookup_insert_eq by done. set_solver.
Qed.

Lemma get_bucket_some svc st b :
  get_bucket svc st = Ok b -> exists objs, s3_buckets svc !! b = Some objs.
Proof.
  unfold get_bucket. destruct (secret_key st), (access_key st); try done.
  case_bool_decide; [|done]. destruct (s3_buckets svc !! bucketname st) eqn:E; [|done].
  intros [= <-]. eauto.
Qed.

(** The keys of a walk below [local_path] are distinct for distinct files. *)
Lemma upload_key_inj sd lp n f g :
  f ∈ enum_node lp n -> g ∈ enum_node lp n -> upload_key sd lp f = upload_key sd lp g -> f = g.
Proof.
  intros (r1 & -> & _)%enum_node_shape (r2 & -> & _)%enum_node_shape. unfold upload_key.
  rewrite !slice_from_app. by intros ->%append_cancel_l.
Qed.

(** With distinct keys, each key holds the data written under it. *)
Lemma store_objects_nodup m kvs k d :
  NoDup (map fst kvs) -> (k, d) ∈ kvs -> store_objects m kvs !! k = Some (mk_obj d true).
Proof.
  intros Hnd Hin. destruct (store_objects_in m kvs k) as (d' & Hin' & ->).
  - apply elem_of_map_iff. by exists (k, d).
  - by assert ((k, d) = (k, d')) as [= ->] by exact (NoDup_map_eq fst kvs _ _ Hnd Hin Hin' eq_refl).
Qed.

(** After the objects of an upload are stored, the GET of the URL of each
    walked file returns that file's bytes. *)
Lemma upload_served_data fs svc local_path sd n b objs :
  wf_node fs = true -> resolve fs local_path = Some n -> has_char "/" b = false ->
  s3_buckets svc !! b = Some objs ->
  Forall (fun f => exists data, resolve fs f = Some (File data) /\
            http_get (with_bucket svc b (fun m => store_objects m (upload_plan fs sd local_path (enum_node local_path n))))
                     (generate_url b (upload_key sd local_path f)) = Ok data) (enum_node local_path n).
Proof.
  intros Hwf Hr Hslash Hobjs. apply Forall_forall. intros f Hf.
  destruct (resolve_sub fs local_path n Hr) as [_ Hwn].
  destruct (enum_node_files fs local_path n f Hr (Hwn Hwf) Hf) as [data Hdata].
  exists data. split; [done|].
  rewrite (http_get_generate_url _ b _ (store_objects objs (upload_plan fs sd local_path (enum_node local_path n)))).
  - rewrite (store_objects_nodup _ _ _ data); [done| |].
    + unfold upload_plan. rewrite map_map. apply NoDup_fmap_2_strong; [|by apply enum_node_nodup, Hwn].
      intros x y Hx Hy. by apply (upload_key_inj sd local_path n).
    + apply elem_of_map_iff. exists f. unfold file_data, read_file. by rewrite Hdata.
  - done.
  - unfold with_bucket. cbn [s3_buckets]. by rewrite lookup_alter_eq, Hobjs.
Qed.

(** C3. After an upload in which every transfer succeeds, the URLs
    returned are those of the walked files in walk order, and the URL of
    each file serves, over HTTP, exactly that file's bytes: distinct files
    have distinct keys, so no later write overwrites an earlier one. *)
Theorem upload_urls_served fs st svc local_path project dataset ts n b :
  let sd := join "/" [project; dataset; ts] in
  let files := enum_node local_path n in
  wf_node fs = true -> resolve fs local_path = Some n -> n <> Special ->
  get_bucket svc st = Ok b -> has_char "/" b = false ->
  Forall (fun f => upload_key sd local_path f ∉ s3_faults svc) files ->
  exists checksums svc',
    upload fs st local_path project dataset ts svc =
      (Ok (map (fun f => generate_url b (upload_key sd local_path f)) files, checksums), svc') /\
    Forall (fun f => exists data, resolve fs f = Some (File data) /\
              http_get svc' (generate_url b (upload_key sd local_path f)) = Ok data) files.
Proof.
  intros sd files Hwf Hr Hn Hb Hslash Hok.
  rewrite (upload_run fs st svc local_path project dataset ts n b Hwf Hr Hn Hb Hok).
  do 2 eexists. split; [reflexivity|]. destruct (get_bucket_some _ _ _ Hb) as [objs Hobjs].
  by apply (upload_served_data _ _ _ _ _ _ objs).
Qed.

(** ** Uploads at a concrete tree and service *)

Definition ex_store : StorageS3 := mk_StorageS3 (Some "SK") (Some "AK") "lib".
Definition ex_service (faults : gset string) : s3 := mk_s3 {[ "lib" := ∅ ]} [("AK", "SK")] faults.

Lemma upload_urls_served_witness :
  exists data, resolve ex_tree "data/sub/b.txt" = Some (File data) /\
    exists checksums svc',
      upload ex_tree ex_store "data" "proj" "ds" "ts" (ex_service ∅) = (Ok (
        ["https://s3.amazonaws.com/lib/proj/ds/ts/a.txt"; "https://s3.amazonaws.com/lib/proj/ds/ts/sub/b.txt"],
        checksums), svc') /\
      http_get svc' "https://s3.amazonaws.com/lib/proj/ds/ts/sub/b.txt" = Ok data.
Proof.
  destruct (upload_urls_served ex_tree ex_store (ex_service ∅) "data" "proj" "ds" "ts" ex_data "lib")
    as (cs & svc' & Hrun & Hall);
    [reflexivity|reflexivity|discriminate|reflexivity|reflexivity|eval_decide|].
  inversion Hall as [|? ? (_ & _ & _) Hall2]. inversion Hall2 as [|? ? (data & Hd & Hget) _].
  exists data. split; [exact Hd|]. exists cs, svc'. split; [exact Hrun|exact Hget].
Defined.

Lemma upload_partial_witness :
  fst (upload ex_tree ex_store "data" "proj" "ds" "ts" (ex_service {[ "proj/ds/ts/sub/b.txt" ]})) =
  Raise (IOError "proj/ds/ts/sub/b.txt").
Proof.
  rewrite (upload_partial ex_tree ex_store _ "data" "proj" "ds" "ts" ex_data "lib"
             ["data/a.txt"] "data/sub/b.txt" []);
    [reflexivity|reflexivity|reflexivity|discriminate|reflexivity|reflexivity|eval_decide|eval_decide].
Defined.

Lemma upload_early_error_witness :
  exists e, upload ex_tree (mk_StorageS3 (Some "bad") (Some "AK") "lib") "data" "proj" "ds" "ts"
              (ex_service ∅) = (Raise e, ex_service ∅).
Proof. apply upload_early_error; [reflexivity|left; vm_compute; exact I]. Defined.
