(* ===== verification/Ledger.v ===== *)
(** * The metadata ledger: [DBConn] (dbconn.py) over a MySQL database

    The database ([db]) holds the three tables of [Schema] as lists of
    records in row order (the order of the clustered primary key, which
    is insertion order), one auto-increment counter per table, whether the
    server answers ([db_up]) and the accounts it accepts.  A [DBConn]
    ([dbconn]) is the connection object.

    Every SQL comparison of a name or a version goes through [sql_eq],
    the column collation, a parameter of the section: [String.eqb] for a
    binary collation, [ci_eq] for MySQL's default case-insensitive one.
    Python's [project in self.projectLs()] compares exactly, SQL's
    [where name = %s] with the collation; the theorems say where the
    difference matters.

    Joins are read as nested loops driven by the data table; with at most
    one engagement of a given id (an invariant, [wf_db]) both join orders
    give the same rows. *)

From S2P Require Import Prelude PyLib FileTree Storage.

Local Open Scope string_scope.

Record engagement := mk_engagement {
  eng_id : nat; eng_name : string; eng_date_started : datetime;
  eng_owner : string; eng_comments : string
}.

Record submission := mk_submission {
  sub_id : nat; sub_project : nat; sub_name : string; sub_version : string;
  sub_timestamp : datetime; sub_urls : string; sub_checksums : string;
  sub_metadata_url : string; sub_comments : string; sub_username : string;
  sub_hostname : string
}.

Record db := mk_db {
  engagements : list engagement;
  incoming : list submission;
  outgoing : list submission;
  next_eng_id : nat;
  next_in_id : nat;
  next_out_id : nat;
  db_up : bool;
  db_accounts : list (string * Z * string * string)
}.

(** The connection object of [DBConn.__init__]. *)
Record dbconn := mk_dbconn { db_user : string; db_pswd : string; db_host : string; db_port : Z }.

(** [Schema] (dbconn.py, 21-29) *)
Definition Schema : list (string * list string) :=
  [("Engagements", ["id"; "name"; "date_started"; "owner"; "comments"]);
   ("IncomingData", ["id"; "project"; "name"; "version"; "timestamp";
                     "urls"; "checksums"; "metadata_url"; "comments"; "username"; "hostname"]);
   ("OutgoingData", ["id"; "project"; "name"; "version"; "timestamp";
                     "urls"; "checksums"; "metadata_url"; "comments"; "username"; "hostname"])].

Fixpoint assoc (k : string) (l : list (string * list string)) : option (list string) :=
  match l with
  | [] => None
  | (k', v) :: l' => if k =? k' then Some v else assoc k l'
  end.

(** [DBConn._getTableSignature(table)]: the insert statement for every
    column but the auto-increment [id]; [KeyError] for another table. *)
Definition getTableSignature (table : string) : outcome string :=
  match assoc table Schema with
  | Some cols =>
      let cols := tail cols in
      Ok ("insert into " ++ table ++ "(" ++ join "," cols ++ ") values (" ++
          join "," (repeat "%s" (List.length cols)) ++ ")")
  | None => Raise (KeyError table)
  end.

(** The number of [%s] placeholders of a statement. *)
Fixpoint count_placeholders (s : string) : nat :=
  match s with
  | String "%" (String "s" s') => S (count_placeholders s')
  | String _ s' => count_placeholders s'
  | "" => 0
  end.

(** MySQLdb's [cursor.execute(query, args)] formats [query % args]:
    Python raises [TypeError] unless there is one [%s] per argument. *)
Definition check_args (query : string) (nargs : nat) : outcome unit :=
  if Nat.eqb (count_placeholders query) nargs then Ok tt
  else Raise (TypeError "not all arguments converted during string formatting").

Definition db_unavailable : exn := Exception ["Database not available"].

(** The case-insensitive part of MySQL's default collation, on ASCII. *)
Definition ascii_lower (c : ascii) : ascii :=
  let n := nat_of_ascii c in
  if (65 <=? n)%nat && (n <=? 90)%nat then ascii_of_nat (n + 32) else c.

Fixpoint str_lower (s : string) : string :=
  match s with "" => "" | String c s' => String (ascii_lower c) (str_lower s') end.

Definition ci_eq (s t : string) : bool := String.eqb (str_lower s) (str_lower t).

Section WithCollation.

(** The collation of the name and version columns. *)
Variable sql_eq : string -> string -> bool.

(** [DBConn.__init__(user, password, host, port=3306)]: [int(port)] is
    outside the [try] and raises [ValueError]; any failure of
    [MySQLdb.connect] becomes the [Exception] of the [except] clause. *)
Definition DBConn_init (d : db) (user password host port : string) : outcome dbconn :=
  match py_int port with
  | None => Raise (ValueError "invalid literal for int() with base 10")
  | Some p =>
      if db_up d && bool_decide ((host, p, user, password) ∈ db_accounts d)
      then Ok (mk_dbconn user password host p)
      else Raise (Exception ["Invalid credentials for librarian database"])
  end.

(** [DBConn.projectLs()]: the generator of all project names. *)
Definition projectLs (d : db) : gen string :=
  if db_up d then Gen (map eng_name (engagements d)) None
  else Gen [] (Some db_unavailable).

(** The rows of a data table joined with [Engagements] on the project id,
    for a project named [project] under the collation. *)
Definition project_rows (d : db) (tbl : list submission) (project : string) : list submission :=
  flat_map (fun s => map (fun _ => s)
              (filter (fun e => Nat.eqb (eng_id e) (sub_project s) && sql_eq (eng_name e) project)
                      (engagements d))) tbl.

(** [DBConn.ls(project)]: [(name, version, timestamp)] of every incoming
    then every outgoing submission of the project ([union all]). *)
Definition ls (d : db) (project : string) : gen (string * string * datetime) :=
  if db_up d then
    Gen (map (fun s => (sub_name s, sub_version s, sub_timestamp s))
             (project_rows d (incoming d) project ++ project_rows d (outgoing d) project)) None
  else Gen [] (Some (Exception ["Database not available"; "OperationalError"])).

(** The date part of a [datetime], as the [date_started] column keeps it. *)
Definition date_of (t : datetime) : datetime :=
  mk_datetime (dt_year t) (dt_month t) (dt_day t) 0 0 0 0.

(** An [execute] of a statement on the server: [OperationalError] when the
    server does not answer. *)
Definition db_execute {A} (f : db -> A * db) : PyM db A :=
  fun d => if db_up d then let '(a, d') := f d in (Ok a, d') else (Raise OperationalError, d).

Definition insert_engagement (name : string) (date : datetime) (owner comments : string) (d : db) : unit * db :=
  (tt, mk_db (engagements d ++ [mk_engagement (next_eng_id d) name date owner comments])
             (incoming d) (outgoing d) (S (next_eng_id d)) (next_in_id d) (next_out_id d)
             (db_up d) (db_accounts d)).

(** [DBConn.createProject(project, comments='')]: the duplicate check is
    Python's exact [in] over [projectLs()]; [today] is [date.today()]. *)
Definition createProject (conn : dbconn) (today : datetime) (project comments : string) : PyM db unit :=
  d <- get_state ;;
  found <- lift_outcome (gen_in project (projectLs d)) ;;
  if found then raise (Exception ["Project already exists!"]) else
  sig <- lift_outcome (getTableSignature "Engagements") ;;
  lift_outcome (check_args sig 4) ;;;
  db_execute (insert_engagement project (date_of today) (db_user conn) comments).

(** [select id from Engagements where name=%s] and [fetchone()]. *)
Definition select_project_id (d : db) (project : string) : option nat :=
  match filter (fun e => sql_eq (eng_name e) project) (engagements d) with
  | e :: _ => Some (eng_id e)
  | [] => None
  end.

Definition insert_submission (incoming_ : bool) (pid : nat) (name version : string)
    (timestamp : datetime) (urls checksums metadata_url comments username hostname : string)
    (d : db) : unit * db :=
  if incoming_ then
    (tt, mk_db (engagements d)
               (incoming d ++ [mk_submission (next_in_id d) pid name version timestamp urls
                                checksums metadata_url comments username hostname])
               (outgoing d) (next_eng_id d) (S (next_in_id d)) (next_out_id d)
               (db_up d) (db_accounts d))
  else
    (tt, mk_db (engagements d) (incoming d)
               (outgoing d ++ [mk_submission (next_out_id d) pid name version timestamp urls
                                checksums metadata_url comments username hostname])
               (next_eng_id d) (next_in_id d) (S (next_out_id d))
               (db_up d) (db_accounts d)).

(** [DBConn.addInOrOut(project, name, version, timestamp, urls, checksums,
    metadata_url, comments, username, hostname, incoming=True)] *)
Definition addInOrOut (project name version : string) (timestamp : datetime)
    (urls checksums metadata_url comments username hostname : string) (incoming_ : bool)
    : PyM db unit :=
  d <- get_state ;;
  found <- lift_outcome (gen_in project (projectLs d)) ;;
  if negb found then raise (Exception ["Project does not exist!"]) else
  row <- db_execute (fun d => (select_project_id d project, d)) ;;
  match row with
  | None => raise (TypeError "'NoneType' object has no attribute '__getitem__'")
  | Some pid =>
      let relation := if incoming_ then "IncomingData" else "OutgoingData" in
      sig <- lift_outcome (getTableSignature relation) ;;
      lift_outcome (check_args sig 10) ;;;
      db_execute (insert_submission incoming_ pid name version timestamp urls checksums
                                    metadata_url comments username hostname)
  end.

(** The [urls] column of every row [fetch] selects, incoming rows first. *)
Definition manifest_rows (d : db) (project dataset version : string) : list string :=
  map sub_urls
    (filter (fun s => sql_eq (sub_name s) dataset && sql_eq (sub_version s) version)
            (project_rows d (incoming d) project ++ project_rows d (outgoing d) project)%list).

(** [urllib.urlretrieve(url, filename=...)]: the body of the GET written
    to the file. *)
Definition urlretrieve (svc : s3) (url filename : string) : PyM node unit :=
  body <- lift_outcome (http_get svc url) ;;
  fs <- get_state ;;
  match write_file fs filename body with
  | Some fs' => put_state fs'
  | None => raise (IOError filename)
  end.

(** The file a URL is downloaded to: [ind = url.rindex('/')], then
    [localpath + url[ind:]]; [None] where [rindex] raises [ValueError]. *)
Definition download_target (localpath url : string) : option string :=
  match rindex "/" url with
  | None => None
  | Some ind => Some (localpath ++ slice_from url ind)
  end.

(** One URL of a row. *)
Definition fetch_url (svc : s3) (localpath url : string) : PyM node unit :=
  match download_target localpath url with
  | None => raise (ValueError "substring not found")
  | Some target => urlretrieve svc url target
  end.

(** [DBConn.fetch(project, dataset, version, localpath)]: every URL of
    every matching row is downloaded; any exception, of the query or of a
    download, becomes [Exception('Database not available')]; the files
    written before it stay. *)
Definition fetch (d : db) (svc : s3) (project dataset version localpath : string) : PyM node string :=
  try_except
    (if db_up d then
       py_for (manifest_rows d project dataset version)
              (fun urls => py_for (split_ws urls) (fetch_url svc localpath))
     else raise OperationalError)
    (fun _ => raise db_unavailable) ;;;
  ret localpath.

End WithCollation.

(** ** The ledger's invariant

    Project names are unique (the code's duplicate check in
    [createProject] is the only guard: the schema has no unique key),
    auto-increment ids are unique and below their counters, and every
    submission refers to an existing project. *)
Record wf_db (d : db) : Prop := {
  wf_names : NoDup (map eng_name (engagements d));
  wf_eng_ids : NoDup (map eng_id (engagements d));
  wf_eng_next : Forall (fun e => eng_id e < next_eng_id d) (engagements d);
  wf_in_ids : NoDup (map sub_id (incoming d));
  wf_in_next : Forall (fun s => sub_id s < next_in_id d) (incoming d);
  wf_out_ids : NoDup (map sub_id (outgoing d));
  wf_out_next : Forall (fun s => sub_id s < next_out_id d) (outgoing d);
  wf_refs : Forall (fun s => exists e, e ∈ engagements d /\ eng_id e = sub_project s)
              (incoming d ++ outgoing d)
}.

(** A freshly created schema, with any counters. *)
Lemma wf_db_empty i j k up accs : wf_db (mk_db [] [] [] i j k up accs).
Proof. constructor; cbn; by constructor. Qed.

Lemma db_execute_up {A} (f : db -> A * db) d :
  db_up d = true -> db_execute f d = let '(a, d') := f d in (Ok a, d').
Proof. intros H. unfold db_execute. by rewrite H. Qed.

Lemma gen_in_projectLs d p :
  gen_in p (projectLs d) =
  if db_up d then Ok (bool_decide (p ∈ map eng_name (engagements d))) else Raise db_unavailable.
Proof.
  unfold gen_in, projectLs. destruct (db_up d); simpl; [by case_bool_decide|done].
Qed.

(** [createProject] on every branch: [Exception('Database not available')]
    when the server is down, [Exception('Project already exists!')] for a
    name already listed, otherwise one new [Engagements] row. *)
Lemma createProject_run conn today p c d :
  createProject conn today p c d =
  if db_up d then
    if bool_decide (p ∈ map eng_name (engagements d))
    then (Raise (Exception ["Project already exists!"]), d)
    else (Ok tt, snd (insert_engagement p (date_of today) (db_user conn) c d))
  else (Raise db_unavailable, d).
Proof.
  unfold createProject. py_unfold. rewrite gen_in_projectLs.
  destruct (db_up d) eqn:Hup; [|done]. case_bool_decide; [done|].
  rewrite db_execute_up by done. reflexivity.
Qed.

Lemma insert_engagement_wf d name date owner comments :
  wf_db d -> name ∉ map eng_name (engagements d) ->
  wf_db (snd (insert_engagement name date owner comments d)).
Proof.
  intros [Hn Hi Hnext Hii Hin Hoi Hon Hr] Hname.
  constructor; cbn [snd insert_engagement engagements incoming outgoing next_eng_id
    next_in_id next_out_id]; rewrite ?map_app; cbn [map]; try done.
  - by apply NoDup_snoc.
  - apply NoDup_snoc; [done|]. by apply fresh_counter.
  - apply Forall_snoc; [by apply Forall_lt_S|simpl; lia].
  - eapply Forall_impl; [exact Hr|]. intros s (e & He & Hid). exists e. split; [set_solver|done].
Qed.

Lemma insert_submission_wf inc pid n v t u c m co un h d :
  wf_db d -> pid ∈ map eng_id (engagements d) ->
  wf_db (snd (insert_submission inc pid n v t u c m co un h d)).
Proof.
  intros [Hn Hi Hnext Hii Hin Hoi Hon Hr] (e & -> & He)%elem_of_map_iff.
  destruct inc; constructor; cbn [snd insert_submission engagements incoming outgoing
    next_eng_id next_in_id next_out_id]; rewrite ?map_app; cbn [map]; try done.
  - apply NoDup_snoc; [done|]. by apply fresh_counter.
  - apply Forall_snoc; [by apply Forall_lt_S|simpl; lia].
  - rewrite <- app_assoc. apply Forall_app in Hr as [Hr1 Hr2].
    apply Forall_app. split; [done|]. constructor; [by exists e|done].
  - apply NoDup_snoc; [done|]. by apply fresh_counter.
  - apply Forall_snoc; [by apply Forall_lt_S|simpl; lia].
  - rewrite app_assoc. apply Forall_snoc; [done|by exists e].
Qed.

(** C17. Creating a project keeps the ledger well formed, on every branch. *)
Theorem createProject_wf conn today p c : preserves wf_db (createProject conn today p c).
Proof.
  intros d r d' Hrun Hwf. rewrite createProject_run in Hrun.
  destruct (db_up d); [case_bool_decide|]; injection Hrun as <- <-;
    first [done | by apply insert_engagement_wf].
Qed.

(** C15. Spec, section 8: [CreateProject(p)] for a new name succeeds, [p] is
    then listed, and a second [CreateProject(p)] raises
    [Exception('Project already exists!')] and writes nothing. *)
Theorem createProject_then_exists conn today p c d :
  db_up d = true -> p ∉ map eng_name (engagements d) ->
  exists d', createProject conn today p c d = (Ok tt, d') /\
             gen_in p (projectLs d') = Ok true /\
             createProject conn today p c d' = (Raise (Exception ["Project already exists!"]), d').
Proof.
  intros Hup Hp. rewrite createProject_run, Hup, bool_decide_eq_false_2 by done.
  eexists. split; [reflexivity|].
  assert (p ∈ map eng_name (engagements (snd (insert_engagement p (date_of today) (db_user conn) c d))))
    by (cbn; rewrite map_app; set_solver).
  split.
  - rewrite gen_in_projectLs. cbn [snd insert_engagement db_up]. rewrite Hup. by rewrite bool_decide_eq_true_2.
  - rewrite createProject_run. cbn [snd insert_engagement db_up]. rewrite Hup.
    by rewrite bool_decide_eq_true_2.
Qed.

Section LedgerTheory.
Variable sql_eq : string -> string -> bool.

(** [addInOrOut] on every branch. *)
Lemma addInOrOut_run p n v t u c m co un h inc d :
  addInOrOut sql_eq p n v t u c m co un h inc d =
  if db_up d then
    if bool_decide (p ∈ map eng_name (engagements d)) then
      match select_project_id sql_eq d p with
      | Some pid => (Ok tt, snd (insert_submission inc pid n v t u c m co un h d))
      | None => (Raise (TypeError "'NoneType' object has no attribute '__getitem__'"), d)
      end
    else (Raise (Exception ["Project does not exist!"]), d)
  else (Raise db_unavailable, d).
Proof.
  unfold addInOrOut. py_unfold. rewrite gen_in_projectLs.
  destruct (db_up d) eqn:Hup; [|done]. case_bool_decide; [|done].
  cbn [negb]. rewrite db_execute_up by done.
  destruct (select_project_id sql_eq d p); [|done].
  rewrite db_execute_up by done. by destruct inc.
Qed.

Lemma select_project_id_some d p pid :
  select_project_id sql_eq d p = Some pid ->
  exists e, e ∈ engagements d /\ eng_id e = pid /\ sql_eq (eng_name e) p = true.
Proof.
  unfold select_project_id.
  destruct (filter _ (engagements d)) as [|e es] eqn:E; [done|]. intros [= <-].
  assert (e ∈ filter (fun e => sql_eq (eng_name e) p) (engagements d)) as He
    by (rewrite E; set_solver).
  apply list_elem_of_filter in He as [He Hin].
  exists e. repeat split; [done|]. by destruct (sql_eq (eng_name e) p).
Qed.

(** [select] finds a row when one project collates equal to [p]. *)
Lemma select_project_id_found d p e :
  e ∈ engagements d -> sql_eq (eng_name e) p = true -> exists pid, select_project_id sql_eq d p = Some pid.
Proof.
  intros He Hs. unfold select_project_id.
  destruct (filter _ (engagements d)) as [|e1 es] eqn:E; [|by eexists].
  assert (e ∈ filter (fun e => sql_eq (eng_name e) p) (engagements d)) as Hf
    by (apply list_elem_of_filter; by rewrite Hs).
  rewrite E in Hf. set_solver.
Qed.

(** Rows appended to [Engagements] do not change what [fetchone()] of
    [select] returns once a row matches. *)
Lemma select_project_id_app d d' l p pid :
  engagements d' = (engagements d ++ l)%list -> select_project_id sql_eq d p = Some pid ->
  select_project_id sql_eq d' p = Some pid.
Proof.
  unfold select_project_id. intros ->. rewrite filter_app.
  by destruct (filter _ (engagements d)).
Qed.

(** C16. Recording a submission keeps the ledger well formed, on every branch:
    the id [select] returns is that of an existing project, whatever the
    collation. *)
Theorem addInOrOut_wf p n v t u c m co un h inc :
  preserves wf_db (addInOrOut sql_eq p n v t u c m co un h inc).
Proof.
  intros d r d' Hrun Hwf. rewrite addInOrOut_run in Hrun.
  destruct (db_up d); [case_bool_decide|]; try (injection Hrun as <- <-; done).
  destruct (select_project_id sql_eq d p) as [pid|] eqn:Hsel; injection Hrun as <- <-; [|done].
  apply insert_submission_wf; [done|].
  destruct (select_project_id_some d p pid Hsel) as (e & He & <- & _).
  apply elem_of_map_iff. eauto.
Qed.

(** With a collation that, on the names present, matches [p] only by
    [p] itself, [select id ... where name = p] finds the project's own id. *)
Lemma select_project_id_exact d p e :
  wf_db d -> e ∈ engagements d -> eng_name e = p -> sql_eq p p = true ->
  (forall e', e' ∈ engagements d -> sql_eq (eng_name e') p = true -> eng_name e' = p) ->
  select_project_id sql_eq d p = Some (eng_id e).
Proof.
  intros Hwf He Hname Hrefl Hexact. unfold select_project_id.
  destruct (filter _ (engagements d)) as [|e1 es] eqn:E.
  - assert (e ∈ filter (fun e => sql_eq (eng_name e) p) (engagements d)) as Hf.
    { apply list_elem_of_filter. split; [|done]. rewrite Hname, Hrefl. done. }
    rewrite E in Hf. set_solver.
  - assert (e1 ∈ filter (fun e => sql_eq (eng_name e) p) (engagements d)) as Hf
      by (rewrite E; set_solver).
    apply list_elem_of_filter in Hf as [Hs Hin].
    assert (sql_eq (eng_name e1) p = true) as Hs' by (by destruct (sql_eq (eng_name e1) p)).
    f_equal. f_equal. apply (NoDup_map_eq eng_name (engagements d)); [apply Hwf|done|done|].
    rewrite Hname. by apply Hexact.
Qed.

(** [addInOrOut] of an existing project under such a collation appends
    exactly one row, to [IncomingData] or [OutgoingData], carrying the
    project's own id. *)
Theorem addInOrOut_exact p n v t u c m co un h inc d e :
  db_up d = true -> wf_db d -> e ∈ engagements d -> eng_name e = p -> sql_eq p p = true ->
  (forall e', e' ∈ engagements d -> sql_eq (eng_name e') p = true -> eng_name e' = p) ->
  addInOrOut sql_eq p n v t u c m co un h inc d =
  (Ok tt, snd (insert_submission inc (eng_id e) n v t u c m co un h d)).
Proof.
  intros Hup Hwf He Hname Hrefl Hexact. rewrite addInOrOut_run, Hup.
  rewrite bool_decide_eq_true_2 by (rewrite <- Hname; apply elem_of_map_iff; eauto).
  by rewrite (select_project_id_exact d p e).
Qed.

(** [fetch] of a triple no row matches returns the target path without
    writing anything: no [DatasetNotFound] is raised. *)
Lemma fetch_no_rows d svc p ds v lp fs :
  db_up d = true -> manifest_rows sql_eq d p ds v = [] ->
  fetch sql_eq d svc p ds v lp fs = (Ok lp, fs).
Proof. intros Hup Hrows. unfold fetch. py_unfold. by rewrite Hup, Hrows. Qed.

(** ** Downloads into a directory *)

(** The name a URL is written under in the target directory: what
    follows its last ['/']. *)
Definition download_name (url : string) : string :=
  match rindex "/" url with Some ind => slice_from url (S ind) | None => url end.

(** The name a URL is written under is what follows its last ['/']. *)
Lemma download_name_last x y : has_char "/" y = false -> download_name (x ++ String "/" y) = y.
Proof.
  intros Hy. unfold download_name. rewrite rindex_last by done.
  replace (S (String.length x)) with (String.length (x ++ "/")) by (rewrite length_append; simpl; lia).
  change (String "/" y) with ("/" ++ y). by rewrite append_assoc, slice_from_app.
Qed.

Lemma download_target_name lp u :
  has_char "/" u = true -> download_target lp u = Some (lp ++ "/" ++ download_name u).
Proof.
  intros H. unfold download_target, download_name. destruct (rindex "/" u) as [i|] eqn:Hi.
  - destruct (slice_from_rindex "/" u i Hi H) as (b & -> & -> & _). done.
  - destruct (has_char_last "/" u H) as (p & b & -> & Hb). by rewrite rindex_last in Hi.
Qed.

(** What the download of [u] into [lp] needs: a ['/'] in [u], a valid
    file name after it, no directory of that name in [lp], and an answer
    to the GET. *)
Definition downloadable (svc : s3) (es : list (string * node)) (u : string) : Prop :=
  has_char "/" u = true /\ valid_name (download_name u) = true /\
  writable_entry (lookup_entry (download_name u) es) = true /\ is_ok (http_get svc u) = true.

#[export] Instance downloadable_dec svc es u : Decision (downloadable svc es u).
Proof. unfold downloadable. apply _. Defined.

(** What the entry [g] of the target directory holds after the download
    of [u], given what it held before. *)
Definition written_entry (svc : s3) (g : string) (o : option node) (u : string) : option node :=
  if String.eqb (download_name u) g then
    match http_get svc u with Ok body => Some (File body) | Raise _ => o end
  else o.

(** The loop of [fetch] over URLs: each entry of [lp] ends up as the
    downloads leave it, one after the other, in the loop's order. *)
Lemma fetch_urls_fold svc lp us fs es :
  resolve fs lp = Some (Dir es) -> Forall (downloadable svc es) us ->
  exists fs' es', py_for us (fetch_url svc lp) fs = (Ok tt, fs') /\ resolve fs' lp = Some (Dir es') /\
    forall g, lookup_entry g es' = fold_left (written_entry svc g) us (lookup_entry g es).
Proof.
  revert fs es. induction us as [|u us IH]; intros fs es Hlp Hall.
  { exists fs, es. by repeat split. }
  apply Forall_cons in Hall as [(Hsl & Hv & Hw & Hget) Hall].
  destruct (http_get svc u) as [body|ex] eqn:Hb; [|done].
  destruct (write_child fs lp es (download_name u) body Hlp Hv Hw) as (fs1 & Hwr & Hlp1).
  set (es1 := update_entry (download_name u) (File body) es) in Hlp1.
  assert (Hstep : forall g, lookup_entry g es1 = written_entry svc g (lookup_entry g es) u).
  { intros g. unfold written_entry, es1. rewrite Hb.
    destruct (String.eqb_spec (download_name u) g) as [<-|Hne]; [apply lookup_update_same|by apply lookup_update_other]. }
  destruct (IH fs1 es1 Hlp1) as (fs' & es' & Hrun & Hlp' & Hfold).
  { apply (Forall_impl _ _ _ Hall). intros u' (? & ? & Hw' & ?). repeat split; try done.
    rewrite Hstep. unfold written_entry. rewrite Hb. by destruct (_ =? _). }
  exists fs', es'. split; [|split; [done|]].
  - cbn [py_for]. erewrite bind_Ok; [exact Hrun|]. unfold fetch_url. rewrite download_target_name by done.
    unfold urlretrieve. py_unfold. by rewrite Hb, Hwr.
  - intros g. by rewrite Hfold, Hstep.
Qed.

Lemma fold_written_absent svc g us o :
  g ∉ map download_name us -> fold_left (written_entry svc g) us o = o.
Proof.
  revert o. induction us as [|u us IH]; intros o Hg; [done|]. cbn [fold_left map] in *.
  apply not_elem_of_cons in Hg as [Hne Hg]. rewrite IH by done. unfold written_entry.
  by destruct (String.eqb_spec (download_name u) g).
Qed.

(** The last download to a name decides what the name holds. *)
Lemma fold_written_last svc g pre u post o body :
  download_name u = g -> g ∉ map download_name post -> http_get svc u = Ok body ->
  fold_left (written_entry svc g) (pre ++ u :: post) o = Some (File body).
Proof.
  intros Hu Hpost Hb. rewrite fold_left_app. cbn [fold_left]. rewrite fold_written_absent by done.
  unfold written_entry. by rewrite Hu, String.eqb_refl, Hb.
Qed.

(** With distinct names, each downloaded URL decides its own name. *)
Lemma fold_written_nodup svc us u o body :
  NoDup (map download_name us) -> u ∈ us -> http_get svc u = Ok body ->
  fold_left (written_entry svc (download_name u)) us o = Some (File body).
Proof.
  intros Hnd Hu Hb. apply list_elem_of_split in Hu as (pre & post & ->).
  rewrite map_app in Hnd. cbn [map] in Hnd. apply NoDup_app in Hnd as (_ & _ & Hnd).
  apply NoDup_cons in Hnd as [Hnin _]. by apply fold_written_last.
Qed.

(** With distinct names, each file holds the body of its GET, and the
    other entries of [lp] are kept. *)
Lemma fetch_urls_run svc lp us fs es :
  resolve fs lp = Some (Dir es) -> Forall (downloadable svc es) us -> NoDup (map download_name us) ->
  exists fs' es', py_for us (fetch_url svc lp) fs = (Ok tt, fs') /\ resolve fs' lp = Some (Dir es') /\
    (forall g, g ∉ map download_name us -> lookup_entry g es' = lookup_entry g es) /\
    Forall (fun u => forall body, http_get svc u = Ok body ->
                     lookup_entry (download_name u) es' = Some (File body)) us.
Proof.
  intros Hlp Hall Hnd. destruct (fetch_urls_fold svc lp us fs es Hlp Hall) as (fs' & es' & Hrun & Hlp' & Hfold).
  exists fs', es'. split; [done|]. split; [done|]. split.
  - intros g Hg. by rewrite Hfold, fold_written_absent.
  - apply Forall_forall. intros u Hu body Hb. rewrite Hfold. by apply fold_written_nodup.
Qed.

(** [fetch] of rows whose URLs download to distinct names in the
    directory [lp]: it returns [lp], and each name holds its GET's body. *)
(** [fetch] on a reachable server downloads the URLs of every matching
    row, the rows in the query's order and the URLs of a row in the
    column's order. *)
Lemma fetch_fold d svc p ds v lp fs es :
  db_up d = true -> resolve fs lp = Some (Dir es) ->
  Forall (downloadable svc es) (flat_map split_ws (manifest_rows sql_eq d p ds v)) ->
  exists fs' es', fetch sql_eq d svc p ds v lp fs = (Ok lp, fs') /\ resolve fs' lp = Some (Dir es') /\
    forall g, lookup_entry g es' =
              fold_left (written_entry svc g) (flat_map split_ws (manifest_rows sql_eq d p ds v)) (lookup_entry g es).
Proof.
  intros Hup Hlp Hall. destruct (fetch_urls_fold svc lp _ fs es Hlp Hall) as (fs' & es' & Hrun & Hlp' & Hfold).
  exists fs', es'. split; [|done]. unfold fetch. py_unfold. rewrite Hup, py_for_flat_map, Hrun. reflexivity.
Qed.

Lemma fetch_downloads d svc p ds v lp fs es :
  db_up d = true -> resolve fs lp = Some (Dir es) ->
  Forall (downloadable svc es) (flat_map split_ws (manifest_rows sql_eq d p ds v)) ->
  NoDup (map download_name (flat_map split_ws (manifest_rows sql_eq d p ds v))) ->
  exists fs' es', fetch sql_eq d svc p ds v lp fs = (Ok lp, fs') /\ resolve fs' lp = Some (Dir es') /\
    Forall (fun u => forall body, http_get svc u = Ok body ->
                     lookup_entry (download_name u) es' = Some (File body))
           (flat_map split_ws (manifest_rows sql_eq d p ds v)).
Proof.
  intros Hup Hlp Hall Hnd. destruct (fetch_urls_run svc lp _ fs es Hlp Hall Hnd) as (fs' & es' & Hrun & Hlp' & _ & Hfiles).
  exists fs', es'. split; [|done]. unfold fetch. py_unfold. rewrite Hup, py_for_flat_map, Hrun. reflexivity.
Qed.

End LedgerTheory.

(** C27. Under a case-insensitive collation the exact [in] check of
    [createProject] lets a project [q] be created beside a project [e]
    whose name differs from [q] only in case; a submission to [q] is then
    recorded, without error, under the id of a project whose name is not
    [q] and which is not the one just created: [select id ... where
    name=%s] returns the first row that collates equal. *)
Theorem addInOrOut_collation_misroutes conn today q cm d e n v t u ck m co un h inc :
  db_up d = true -> wf_db d -> e ∈ engagements d -> ci_eq (eng_name e) q = true ->
  q ∉ map eng_name (engagements d) ->
  exists d1 pid, createProject conn today q cm d = (Ok tt, d1) /\
    engagements d1 = (engagements d ++ [mk_engagement (next_eng_id d) q (date_of today) (db_user conn) cm])%list /\
    addInOrOut ci_eq q n v t u ck m co un h inc d1 =
      (Ok tt, snd (insert_submission inc pid n v t u ck m co un h d1)) /\
    pid <> next_eng_id d /\ exists e', e' ∈ engagements d /\ eng_id e' = pid /\ eng_name e' <> q.
Proof.
  intros Hup Hwf He Hci Hq.
  destruct (select_project_id_found ci_eq d q e He Hci) as [pid Hsel].
  destruct (select_project_id_some ci_eq d q pid Hsel) as (e' & He' & Hid & _).
  set (d1 := snd (insert_engagement q (date_of today) (db_user conn) cm d)).
  assert (Hsel1 : select_project_id ci_eq d1 q = Some pid) by (by eapply (select_project_id_app ci_eq d)).
  exists d1, pid. split; [by rewrite createProject_run, Hup, bool_decide_eq_false_2|]. split; [done|].
  split.
  - rewrite addInOrOut_run, Hsel1. cbn [d1 insert_engagement snd db_up engagements].
    rewrite Hup, bool_decide_eq_true_2; [done|]. rewrite map_app. apply elem_of_app. right. apply list_elem_of_singleton. reflexivity.
  - split.
    + pose proof (proj1 (Forall_forall _ _) (wf_eng_next d Hwf) e' He') as Hlt. cbn beta in Hlt. lia.
    + exists e'. split; [done|]. split; [done|]. intros <-. apply Hq, elem_of_map_iff. eauto.
Qed.

(** ** The ledger at concrete inputs *)

Definition ex_conn : dbconn := mk_dbconn "u" "pw" "h" 3306.
Definition ex_today : datetime := ex_clock.
Definition ex_ledger : db := mk_db [] [] [] 1 1 1 true [].

Lemma createProject_wf_witness : wf_db (snd (createProject ex_conn ex_today "proj" "" ex_ledger)).
Proof.
  apply (createProject_wf ex_conn ex_today "proj" "" ex_ledger
           (fst (createProject ex_conn ex_today "proj" "" ex_ledger))); [reflexivity|].
  apply wf_db_empty.
Defined.

Lemma createProject_then_exists_witness :
  exists d', createProject ex_conn ex_today "proj" "" ex_ledger = (Ok tt, d') /\
             createProject ex_conn ex_today "proj" "" d' =
             (Raise (Exception ["Project already exists!"]), d').
Proof.
  destruct (createProject_then_exists ex_conn ex_today "proj" "" ex_ledger)
    as (d' & H1 & _ & H2); [reflexivity|eval_decide|].
  exists d'. split; [exact H1|exact H2].
Defined.

Definition ex_ledger1 : db := snd (createProject ex_conn ex_today "proj" "" ex_ledger).

Lemma addInOrOut_wf_witness :
  wf_db (snd (addInOrOut String.eqb "proj" "ds" "1" ex_today "https://s3.amazonaws.com/lib/k"
                "" "" "" "testuser" "testhost" true ex_ledger1)).
Proof.
  apply (addInOrOut_wf String.eqb "proj" "ds" "1" ex_today "https://s3.amazonaws.com/lib/k"
           "" "" "" "testuser" "testhost" true ex_ledger1 (fst (addInOrOut String.eqb "proj" "ds" "1"
           ex_today "https://s3.amazonaws.com/lib/k" "" "" "" "testuser" "testhost" true ex_ledger1)));
    [reflexivity|].
  apply (insert_engagement_wf ex_ledger); [apply wf_db_empty|eval_decide].
Defined.

Lemma addInOrOut_collation_misroutes_witness :
  exists d1 pid, createProject ex_conn ex_today "Proj" "" ex_ledger1 = (Ok tt, d1) /\
    engagements d1 = (engagements ex_ledger1 ++ [mk_engagement 2 "Proj" (date_of ex_today) "u" ""])%list /\
    addInOrOut ci_eq "Proj" "ds" "1" ex_today "https://s3.amazonaws.com/lib/k" "" "" "" "testuser" "testhost"
      true d1 = (Ok tt, snd (insert_submission true pid "ds" "1" ex_today "https://s3.amazonaws.com/lib/k"
                               "" "" "" "testuser" "testhost" d1)) /\
    pid <> 2 /\ exists e', e' ∈ engagements ex_ledger1 /\ eng_id e' = pid /\ eng_name e' <> "Proj".
Proof.
  apply (addInOrOut_collation_misroutes ex_conn ex_today "Proj" "" ex_ledger1
           (mk_engagement 1 "proj" (date_of ex_today) "u" ""));
    [reflexivity|apply createProject_wf_witness|vm_compute; left|reflexivity|eval_decide].
Defined.
