(* ===== verification/Refinement.v ===== *)
(** * The catalogue of the specification, and the ledger's refinement of it

    The specification (sections 3 and 4) describes the ledger as a
    catalogue: a list of project names and, per direction, the submission
    records, each keyed by its project's name, dataset name and version,
    with its URL column.  [spec_create] and [spec_record] are its
    operations [CreateProject] and [RecordSubmission]; [matching] is the
    lookup behind [ResolveManifest].

    [abs] reads a catalogue off a [Ledger.db]: the names of [Engagements],
    and each row of [IncomingData] and [OutgoingData] with its project id
    replaced by the project's name.  The theorems show that, on a
    well-formed ledger and under an exact collation, [createProject],
    [addInOrOut] and the query of [fetch] implement the catalogue's
    operations: each concrete call commutes with [abs], errors included;
    [DBConn.ls] yields the catalogue's [ListSubmissions]; and each call
    of [createProject] or [addInOrOut] is one catalogue step or none
    ([spec_step]), the step [Protocol.runs_refine] lifts to runs.
    Under another collation the diagram does not commute
    ([Ledger.addInOrOut_collation_misroutes]). *)

From S2P Require Import Prelude PyLib FileTree Storage Ledger.

Local Open Scope string_scope.

(** ** The abstract catalogue *)

Record record := mk_record {
  rec_project : string; rec_name : string; rec_version : string;
  rec_timestamp : datetime; rec_urls : string
}.

Record catalogue := mk_catalogue {
  cat_projects : list string;
  cat_incoming : list record;
  cat_outgoing : list record
}.

(** [CreateProject(p)]: fails when [p] is already a project. *)
Definition spec_create (p : string) (k : catalogue) : option catalogue :=
  if bool_decide (p ∈ cat_projects k) then None
  else Some (mk_catalogue (cat_projects k ++ [p])%list (cat_incoming k) (cat_outgoing k)).

(** [RecordSubmission]: fails when the record's project does not exist;
    otherwise appends the record in its direction. *)
Definition spec_record (incoming_ : bool) (r : record) (k : catalogue) : option catalogue :=
  if bool_decide (rec_project r ∈ cat_projects k) then
    Some (if incoming_ then mk_catalogue (cat_projects k) (cat_incoming k ++ [r])%list (cat_outgoing k)
          else mk_catalogue (cat_projects k) (cat_incoming k) (cat_outgoing k ++ [r])%list)
  else None.

(** The records of a (project, name, version) triple, incoming first. *)
Definition matching (k : catalogue) (p n v : string) : list record :=
  filter (fun r => bool_decide (rec_project r = p /\ rec_name r = n /\ rec_version r = v))
         (cat_incoming k ++ cat_outgoing k)%list.

(** [ResolveManifest] as the specification states it: the URLs of the
    first matching record. *)
Definition spec_resolve (k : catalogue) (p n v : string) : option string :=
  match matching k p n v with r :: _ => Some (rec_urls r) | [] => None end.

(** [ListSubmissions(p)]: (name, version, timestamp) of every record of
    [p], incoming then outgoing. *)
Definition spec_list (k : catalogue) (p : string) : list (string * string * datetime) :=
  map (fun r => (rec_name r, rec_version r, rec_timestamp r))
      (filter (fun r => bool_decide (rec_project r = p)) (cat_incoming k ++ cat_outgoing k)%list).

(** ** Abstraction of a ledger *)

Definition project_name (es : list engagement) (pid : nat) : string :=
  match List.find (fun e => Nat.eqb (eng_id e) pid) es with
  | Some e => eng_name e
  | None => ""
  end.

Definition abs_sub (es : list engagement) (s : submission) : record :=
  mk_record (project_name es (sub_project s)) (sub_name s) (sub_version s) (sub_timestamp s) (sub_urls s).

Definition abs (d : db) : catalogue :=
  mk_catalogue (map eng_name (engagements d)) (map (abs_sub (engagements d)) (incoming d))
               (map (abs_sub (engagements d)) (outgoing d)).

(** ** Project ids *)

Lemma project_name_elem (es : list engagement) e :
  NoDup (map eng_id es) -> e ∈ es -> project_name es (eng_id e) = eng_name e.
Proof.
  unfold project_name. induction es as [|e' es IH]; intros Hnd Hin; [set_solver|].
  cbn [List.find map] in *. apply NoDup_cons in Hnd as [He Hnd].
  destruct (Nat.eqb_spec (eng_id e') (eng_id e)) as [Heq|Hne].
  - apply elem_of_cons in Hin as [->|Hin]; [done|].
    destruct He. rewrite Heq. apply elem_of_map_iff. eauto.
  - apply elem_of_cons in Hin as [->|Hin]; [done|]. by apply IH.
Qed.

Lemma abs_sub_new es e i n v t u c m co un h :
  NoDup (map eng_id es) -> e ∈ es ->
  abs_sub es (mk_submission i (eng_id e) n v t u c m co un h) = mk_record (eng_name e) n v t u.
Proof. intros Hnd He. unfold abs_sub. cbn. by rewrite project_name_elem. Qed.

(** The rows of a table refer to existing projects. *)
Definition refers (es : list engagement) (s : submission) : Prop :=
  exists e, e ∈ es /\ eng_id e = sub_project s.

Lemma wf_refers d :
  wf_db d -> Forall (refers (engagements d)) (incoming d) /\ Forall (refers (engagements d)) (outgoing d).
Proof. intros Hwf. apply Forall_app, (wf_refs _ Hwf). Qed.

(** A row's project keeps its name when a project is appended. *)
Lemma abs_sub_snoc es e0 s : refers es s -> abs_sub (es ++ [e0])%list s = abs_sub es s.
Proof.
  intros (e & Hin & Hid). unfold abs_sub, project_name. f_equal. rewrite <- Hid.
  induction es as [|e' es IH]; [set_solver|]. cbn [List.find app].
  destruct (Nat.eqb (eng_id e') (eng_id e)) eqn:E; [done|].
  apply IH. apply elem_of_cons in Hin as [->|Hin]; [|done]. by rewrite Nat.eqb_refl in E.
Qed.

Lemma map_abs_sub_snoc es e0 tbl :
  Forall (refers es) tbl -> map (abs_sub (es ++ [e0])%list) tbl = map (abs_sub es) tbl.
Proof. induction 1 as [|s tbl Hs _ IH]; [done|]. cbn [map]. by rewrite IH, abs_sub_snoc. Qed.

(** ** Refinement of the ledger's operations *)

(** The row [createProject] inserts is the catalogue's new project. *)
Lemma abs_insert_engagement d p date owner c :
  wf_db d -> p ∉ cat_projects (abs d) ->
  spec_create p (abs d) = Some (abs (snd (insert_engagement p date owner c d))).
Proof.
  intros Hwf Hp. unfold spec_create. rewrite bool_decide_eq_false_2 by done.
  destruct (wf_refers d Hwf) as [Hi Ho]. unfold abs.
  cbn [insert_engagement snd engagements incoming outgoing cat_projects cat_incoming cat_outgoing].
  by rewrite map_app, !map_abs_sub_snoc.
Qed.

(** The row [addInOrOut] inserts, with the id of the project named [p],
    is the catalogue's new record. *)
Lemma abs_insert_submission d e p n v t u c m co un h inc :
  wf_db d -> e ∈ engagements d -> eng_name e = p ->
  spec_record inc (mk_record p n v t u) (abs d) =
  Some (abs (snd (insert_submission inc (eng_id e) n v t u c m co un h d))).
Proof.
  intros Hwf He Hname. unfold spec_record. cbn [rec_project].
  rewrite bool_decide_eq_true_2 by (unfold abs; cbn; rewrite <- Hname; apply elem_of_map_iff; eauto).
  unfold abs. f_equal.
  destruct inc; cbn [insert_submission snd engagements incoming outgoing cat_projects cat_incoming cat_outgoing];
    rewrite map_app; cbn [map];
    by rewrite (abs_sub_new _ e _ _ _ _ _ _ _ _ _ _ (wf_eng_ids _ Hwf) He), <- Hname.
Qed.

(** [select id ... where name = p] under an exact collation. *)
Lemma select_project_id_eqb d p e :
  wf_db d -> e ∈ engagements d -> eng_name e = p -> select_project_id String.eqb d p = Some (eng_id e).
Proof.
  intros Hwf He Hname. apply (select_project_id_exact String.eqb d p e Hwf He Hname (String.eqb_refl p)).
  intros e' _ H. by apply String.eqb_eq.
Qed.

(** C6. [createProject] implements [CreateProject]: on a well-formed
    ledger whose server answers, it succeeds exactly when the catalogue
    operation does, with the same catalogue afterwards, and otherwise
    raises [Project already exists!] and changes nothing. *)
Theorem createProject_refines conn t p c d :
  wf_db d -> db_up d = true ->
  let '(r, d') := createProject conn t p c d in
  match spec_create p (abs d) with
  | Some k => r = Ok tt /\ abs d' = k
  | None => r = Raise (Exception ["Project already exists!"]) /\ d' = d
  end.
Proof.
  intros Hwf Hup. rewrite createProject_run, Hup.
  destruct (decide (p ∈ cat_projects (abs d))) as [Hp|Hp].
  - unfold spec_create. rewrite !bool_decide_eq_true_2 by done. done.
  - rewrite (abs_insert_engagement d p (date_of t) (db_user conn) c Hwf Hp).
    rewrite bool_decide_eq_false_2 by done. done.
Qed.

(** C5. [addInOrOut] under an exact collation implements
    [RecordSubmission]: on a well-formed ledger whose server answers, it
    appends the record of the project's own name in its direction exactly
    when the catalogue operation succeeds, and otherwise raises [Project
    does not exist!] and changes nothing. *)
Theorem addInOrOut_refines p n v t u c m co un h inc d :
  wf_db d -> db_up d = true ->
  let '(r, d') := addInOrOut String.eqb p n v t u c m co un h inc d in
  match spec_record inc (mk_record p n v t u) (abs d) with
  | Some k => r = Ok tt /\ abs d' = k
  | None => r = Raise (Exception ["Project does not exist!"]) /\ d' = d
  end.
Proof.
  intros Hwf Hup. rewrite addInOrOut_run, Hup. case_bool_decide as Hp.
  - apply elem_of_map_iff in Hp as (e & Hname & He).
    rewrite (select_project_id_eqb d p e Hwf He (eq_sym Hname)).
    by rewrite (abs_insert_submission d e p n v t u c m co un h inc Hwf He (eq_sym Hname)).
  - unfold spec_record. by rewrite bool_decide_eq_false_2.
Qed.

(** ** Steps of the catalogue *)

(** One operation of the catalogue that succeeds. *)
Inductive spec_step : catalogue -> catalogue -> Prop :=
| spec_step_create p k k' : spec_create p k = Some k' -> spec_step k k'
| spec_step_record inc r k k' : spec_record inc r k = Some k' -> spec_step k k'.

(** On any branch, [createProject] leaves the ledger as it was or makes
    one catalogue step. *)
Lemma createProject_abs_step conn t p c d r d' :
  wf_db d -> createProject conn t p c d = (r, d') -> d' = d \/ spec_step (abs d) (abs d').
Proof.
  intros Hwf. rewrite createProject_run.
  destruct (db_up d); [case_bool_decide as Hp|]; intros [= _ <-]; [by left| |by left].
  right. apply (spec_step_create p). by apply abs_insert_engagement.
Qed.

Lemma addInOrOut_abs_step p n v t u c m co un h inc d r d' :
  wf_db d -> addInOrOut String.eqb p n v t u c m co un h inc d = (r, d') ->
  d' = d \/ spec_step (abs d) (abs d').
Proof.
  intros Hwf. rewrite addInOrOut_run.
  destruct (db_up d); [case_bool_decide as Hp|]; [|intros [= _ <-]; by left..].
  apply elem_of_map_iff in Hp as (e & Hname & He).
  rewrite (select_project_id_eqb d p e Hwf He (eq_sym Hname)). intros [= _ <-]. right.
  apply (spec_step_record inc (mk_record p n v t u)). by apply abs_insert_submission.
Qed.

(** ** The query of [fetch] *)

Lemma filter_id_absent (es : list engagement) i (f : engagement -> bool) :
  i ∉ map eng_id es -> filter (fun e => Nat.eqb (eng_id e) i && f e) es = [].
Proof.
  induction es as [|e es IH]; intros Hi; [done|]. cbn [map] in Hi.
  apply not_elem_of_cons in Hi as [Hne Hi]. rewrite filter_cons_bool, IH by done.
  by destruct (Nat.eqb_spec (eng_id e) i).
Qed.

(** With unique ids, the join of a row with [Engagements] finds its own
    project or nothing. *)
Lemma filter_unique_id (es : list engagement) e0 (f : engagement -> bool) :
  NoDup (map eng_id es) -> e0 ∈ es ->
  filter (fun e => Nat.eqb (eng_id e) (eng_id e0) && f e) es = if f e0 then [e0] else [].
Proof.
  induction es as [|e es IH]; intros Hnd Hin; [set_solver|]. cbn [map] in Hnd.
  apply NoDup_cons in Hnd as [He Hnd]. rewrite filter_cons_bool.
  destruct (Nat.eqb_spec (eng_id e) (eng_id e0)) as [Heq|Hne].
  - apply elem_of_cons in Hin as [->|Hin].
    + rewrite filter_id_absent by done. by destruct (f e).
    + destruct He. rewrite Heq. apply elem_of_map_iff. eauto.
  - apply elem_of_cons in Hin as [->|Hin]; [done|]. by apply IH.
Qed.

(** The join of [project_rows] under an exact collation is a filter on the
    row's project name. *)
Lemma project_rows_exact d tbl p :
  NoDup (map eng_id (engagements d)) -> Forall (refers (engagements d)) tbl ->
  project_rows String.eqb d tbl p =
  filter (fun s => String.eqb (project_name (engagements d) (sub_project s)) p) tbl.
Proof.
  intros Hnd. induction 1 as [|s tbl (e0 & He0 & Hid) _ IH]; [done|].
  unfold project_rows in *. cbn [flat_map]. rewrite IH, filter_cons_bool, <- Hid.
  rewrite (filter_unique_id _ e0 (fun e => String.eqb (eng_name e) p) Hnd He0).
  rewrite (project_name_elem _ e0 Hnd He0).
  by destruct (String.eqb (eng_name e0) p).
Qed.

Lemma manifest_table es tbl p n v :
  map sub_urls (filter (fun s => String.eqb (sub_name s) n && String.eqb (sub_version s) v)
                 (filter (fun s => String.eqb (project_name es (sub_project s)) p) tbl)) =
  map rec_urls (filter (fun r => bool_decide (rec_project r = p /\ rec_name r = n /\ rec_version r = v))
                 (map (abs_sub es) tbl)).
Proof.
  induction tbl as [|s tbl IH]; [done|]. cbn [map]. rewrite !filter_cons_bool. unfold abs_sub at 1.
  cbn [rec_project rec_name rec_version].
  destruct (String.eqb_spec (project_name es (sub_project s)) p); cbv iota; rewrite ?filter_cons_bool;
    destruct (String.eqb_spec (sub_name s) n), (String.eqb_spec (sub_version s) v);
    rewrite ?andb_true_r, ?andb_false_r, ?andb_false_l; cbv iota;
    rewrite ?bool_decide_eq_true_2, ?bool_decide_eq_false_2 by naive_solver; cbn [map]; by rewrite IH.
Qed.

(** The join reads only [Engagements]. *)
Lemma project_rows_engagements sql_eq d d' tbl p :
  engagements d' = engagements d -> project_rows sql_eq d' tbl p = project_rows sql_eq d tbl p.
Proof. intros H. unfold project_rows. by rewrite H. Qed.

Lemma project_rows_app sql_eq d t1 t2 p :
  project_rows sql_eq d (t1 ++ t2)%list p = (project_rows sql_eq d t1 p ++ project_rows sql_eq d t2 p)%list.
Proof. apply flat_map_app. Qed.

(** A row of an existing project [p] joins with its project exactly once. *)
Lemma project_rows_new d e p i n v t u c m co un h :
  wf_db d -> e ∈ engagements d -> eng_name e = p ->
  project_rows String.eqb d [mk_submission i (eng_id e) n v t u c m co un h] p =
  [mk_submission i (eng_id e) n v t u c m co un h].
Proof.
  intros Hwf He Hname. unfold project_rows. cbn [flat_map sub_project].
  rewrite (filter_unique_id _ e (fun e => String.eqb (eng_name e) p) (wf_eng_ids _ Hwf) He), Hname, String.eqb_refl.
  reflexivity.
Qed.

(** Spec, section 8: a submission of a triple no row shares is the only
    row the query of [fetch] returns for it. *)
Lemma manifest_rows_insert_new d e inc p n v t u c m co un h :
  wf_db d -> e ∈ engagements d -> eng_name e = p -> manifest_rows String.eqb d p n v = [] ->
  manifest_rows String.eqb (snd (insert_submission inc (eng_id e) n v t u c m co un h d)) p n v = [u].
Proof.
  intros Hwf He Hname Hnone. unfold manifest_rows in *.
  rewrite filter_app, map_app in Hnone. apply app_eq_nil in Hnone as [HA%map_eq_nil HB%map_eq_nil].
  rewrite !(project_rows_engagements _ d (snd (insert_submission inc (eng_id e) n v t u c m co un h d))) by (by destruct inc).
  destruct inc; cbn [insert_submission snd incoming outgoing];
    rewrite project_rows_app, (project_rows_new d e p) by done;
    rewrite !filter_app, !map_app, HA, HB; cbn; rewrite !String.eqb_refl; reflexivity.
Qed.

(** C7. The query of [fetch] under an exact collation selects exactly the
    catalogue's records of the triple, incoming first: the SQL join over
    project ids is the specification's lookup by project name. *)
Theorem manifest_rows_refines d p n v :
  wf_db d -> manifest_rows String.eqb d p n v = map rec_urls (matching (abs d) p n v).
Proof.
  intros Hwf. destruct (wf_refers d Hwf) as [Hi Ho]. unfold manifest_rows, matching, abs.
  cbn [cat_incoming cat_outgoing].
  rewrite !project_rows_exact by (apply Hwf || done).
  rewrite !filter_app, !map_app. by rewrite !manifest_table.
Qed.

(** ** The listing of [ls] *)

Lemma ls_table es tbl p :
  map (fun s => (sub_name s, sub_version s, sub_timestamp s))
      (filter (fun s => String.eqb (project_name es (sub_project s)) p) tbl) =
  map (fun r => (rec_name r, rec_version r, rec_timestamp r))
      (filter (fun r => bool_decide (rec_project r = p)) (map (abs_sub es) tbl)).
Proof.
  induction tbl as [|s tbl IH]; [done|]. cbn [map]. rewrite !filter_cons_bool. unfold abs_sub at 1.
  cbn [rec_project]. destruct (String.eqb_spec (project_name es (sub_project s)) p); cbv iota;
    rewrite ?bool_decide_eq_true_2, ?bool_decide_eq_false_2 by done; cbn [map]; by rewrite IH.
Qed.

(** The rows [ls] joins are the catalogue's listing. *)
Lemma ls_rows_abs d p :
  wf_db d ->
  map (fun s => (sub_name s, sub_version s, sub_timestamp s))
      (project_rows String.eqb d (incoming d) p ++ project_rows String.eqb d (outgoing d) p)%list =
  spec_list (abs d) p.
Proof.
  intros Hwf. destruct (wf_refers d Hwf) as [Hi Ho]. unfold spec_list, abs.
  cbn [cat_incoming cat_outgoing]. rewrite !project_rows_exact by (apply Hwf || done).
  by rewrite <- !filter_app, <- map_app, ls_table, map_app.
Qed.

(** Every record of the catalogue of a well-formed ledger is of a project. *)
Lemma abs_records_projects d :
  wf_db d -> Forall (fun r => rec_project r ∈ cat_projects (abs d)) (cat_incoming (abs d) ++ cat_outgoing (abs d))%list.
Proof.
  intros Hwf. unfold abs. cbn [cat_incoming cat_outgoing cat_projects]. rewrite <- map_app.
  apply Forall_fmap. apply (Forall_impl _ _ _ (wf_refs _ Hwf)). intros s (e & He & Hid).
  unfold abs_sub. cbn. rewrite <- Hid, (project_name_elem _ e (wf_eng_ids _ Hwf) He).
  apply elem_of_map_iff. eauto.
Qed.

(** One recorded submission of [p] is one more entry of its listing, at
    the end of its direction. *)
Lemma spec_list_record inc r k k' p :
  spec_record inc r k = Some k' -> rec_project r = p ->
  spec_list k' p ≡ₚ (spec_list k p ++ [(rec_name r, rec_version r, rec_timestamp r)])%list.
Proof.
  unfold spec_record. case_bool_decide; [|done]. intros [= <-] Hp. unfold spec_list.
  destruct inc; cbn [cat_incoming cat_outgoing]; rewrite !filter_app, !map_app;
    cbn; rewrite bool_decide_eq_true_2 by done; cbn; rewrite <- !app_assoc; [|done].
  apply Permutation_app_head. apply Permutation_app_comm.
Qed.

Section RecordLoop.
Variables (p c m co un h : string).

(** A client recording the submissions [subs] of [p] one after the other:
    [for (n, v, t, urls, incoming) in subs: db.addInOrOut(p, n, v, t, urls, ...)]. *)
Definition record_all (subs : list (string * string * datetime * string * bool)) : PyM db unit :=
  py_for subs (fun '(n, v, t, u, inc) => addInOrOut String.eqb p n v t u c m co un h inc).

Lemma record_all_run subs d :
  wf_db d -> db_up d = true -> p ∈ map eng_name (engagements d) ->
  exists d', record_all subs d = (Ok tt, d') /\ wf_db d' /\ db_up d' = true /\
    spec_list (abs d') p ≡ₚ (spec_list (abs d) p ++ map (fun '(n, v, t, _, _) => (n, v, t)) subs)%list.
Proof.
  revert d. induction subs as [|[[[[n v] t] u] inc] subs IH]; intros d Hwf Hup Hp.
  { exists d. by rewrite app_nil_r. }
  apply elem_of_map_iff in Hp as (e & Hname & He).
  set (d1 := snd (insert_submission inc (eng_id e) n v t u c m co un h d)).
  assert (Hwf1 : wf_db d1) by (apply insert_submission_wf; [done|apply elem_of_map_iff; eauto]).
  assert (Hd1 : db_up d1 = true /\ engagements d1 = engagements d) by (by destruct inc).
  destruct Hd1 as [Hup1 Heng1].
  destruct (IH d1 Hwf1 Hup1) as (d' & Hrun & Hwf' & Hup' & Hperm); [rewrite Heng1; apply elem_of_map_iff; eauto|].
  exists d'. split; [|split; [done|split; [done|]]].
  - unfold record_all. cbn [py_for]. erewrite bind_Ok; [exact Hrun|].
    apply addInOrOut_exact; try done; [apply String.eqb_refl|intros ? _ ?%String.eqb_eq; done].
  - rewrite Hperm, (spec_list_record inc (mk_record p n v t u) (abs d) (abs d1) p); [|by apply abs_insert_submission|done].
    cbn. by rewrite <- app_assoc.
Qed.
End RecordLoop.

(** C8. [DBConn.ls(p)] implements [ListSubmissions(p)]: on a well-formed
    ledger whose server answers, under an exact collation, the generator
    yields exactly the catalogue's listing of [p] and stops normally.  For
    a project that does not exist it yields nothing: no [ProjectNotFound]
    is raised. *)
Theorem ls_refines d p :
  wf_db d -> db_up d = true ->
  ls String.eqb d p = Gen (spec_list (abs d) p) None /\
  (p ∉ cat_projects (abs d) -> spec_list (abs d) p = []).
Proof.
  intros Hwf Hup. split; [unfold ls; by rewrite Hup, ls_rows_abs|]. intros Hp.
  unfold spec_list. induction (abs_records_projects d Hwf) as [|r l Hr _ IH]; [done|].
  rewrite filter_cons_bool, bool_decide_eq_false_2 by (by intros <-). exact IH.
Qed.

(** C9. Spec, section 8, under the exact collation ([String.eqb] compares
    the names): after N recorded submissions of an existing project [p],
    [ls(p)] lists exactly N more entries, each with the submission's
    (name, version, timestamp); every call succeeds. *)
Theorem ls_counts_records p c m co un h subs d :
  wf_db d -> db_up d = true -> p ∈ map eng_name (engagements d) ->
  exists d', record_all p c m co un h subs d = (Ok tt, d') /\
    yielded (ls String.eqb d' p) ≡ₚ (yielded (ls String.eqb d p) ++ map (fun '(n, v, t, _, _) => (n, v, t)) subs)%list.
Proof.
  intros Hwf Hup Hp. destruct (record_all_run p c m co un h subs d Hwf Hup Hp) as (d' & Hrun & Hwf' & Hup' & Hperm).
  exists d'. split; [done|].
  unfold ls. rewrite Hup, Hup'. cbn [yielded]. by rewrite !ls_rows_abs.
Qed.

(** ** At concrete ledgers *)

Definition ex_ledger2 : db :=
  snd (insert_submission true 1 "ds" "1" ex_today "https://s3.amazonaws.com/lib/proj/ds/a.txt" ""
         "" "" "testuser" "testhost" ex_ledger1).

Lemma ex_ledger1_wf : wf_db ex_ledger1.
Proof. apply (insert_engagement_wf ex_ledger); [apply wf_db_empty|eval_decide]. Qed.

Lemma ex_ledger2_wf : wf_db ex_ledger2.
Proof. apply insert_submission_wf; [exact ex_ledger1_wf|eval_decide]. Qed.

Lemma createProject_refines_witness :
  let '(r, d') := createProject ex_conn ex_today "proj" "" ex_ledger1 in
  match spec_create "proj" (abs ex_ledger1) with
  | Some k => r = Ok tt /\ abs d' = k
  | None => r = Raise (Exception ["Project already exists!"]) /\ d' = ex_ledger1
  end.
Proof. apply createProject_refines; [exact ex_ledger1_wf|reflexivity]. Defined.

Lemma addInOrOut_refines_witness :
  let '(r, d') := addInOrOut String.eqb "proj" "ds" "2" ex_today "u" "" "" "" "testuser" "testhost" false ex_ledger2 in
  match spec_record false (mk_record "proj" "ds" "2" ex_today "u") (abs ex_ledger2) with
  | Some k => r = Ok tt /\ abs d' = k
  | None => r = Raise (Exception ["Project does not exist!"]) /\ d' = ex_ledger2
  end.
Proof. apply addInOrOut_refines; [exact ex_ledger2_wf|reflexivity]. Defined.

Lemma manifest_rows_refines_witness :
  manifest_rows String.eqb ex_ledger2 "proj" "ds" "1" = map rec_urls (matching (abs ex_ledger2) "proj" "ds" "1").
Proof. apply manifest_rows_refines. exact ex_ledger2_wf. Defined.

Lemma ls_refines_witness :
  ls String.eqb ex_ledger2 "proj" = Gen [("ds", "1", ex_today)] None.
Proof. destruct (ls_refines ex_ledger2 "proj" ex_ledger2_wf eq_refl) as [-> _]. reflexivity. Defined.

Lemma ls_counts_records_witness :
  exists d', record_all "proj" "" "" "" "" "" [("a", "1", ex_today, "u1", true); ("b", "2", ex_today, "u2", false)]
               ex_ledger1 = (Ok tt, d') /\
    yielded (ls String.eqb d' "proj") ≡ₚ [("a", "1", ex_today); ("b", "2", ex_today)].
Proof.
  destruct (ls_counts_records "proj" "" "" "" "" "" [("a", "1", ex_today, "u1", true); ("b", "2", ex_today, "u2", false)]
              ex_ledger1 ex_ledger1_wf eq_refl ltac:(eval_decide)) as (d' & Hrun & Hperm).
  exists d'. split; [exact Hrun|]. rewrite Hperm. reflexivity.
Defined.
