(* ===== verification/Librarian.v ===== *)
(** * The command-line client: librarian.py

    The world ([world]) is everything the functions of librarian.py read
    or change: the local file system, the config file [~/.librarian]
    ([w_config], [None] when it does not exist), the module's global
    [configDict] ([w_configDict], its ["credentials"] entry), the ledger,
    the S3 service, the clock read by [datetime.now()] and
    [date.today()], and the lines printed on standard output.  The config
    file is the JSON document [{"credentials": ...}] that [saveConfig]
    writes; hand-edited files of another shape are not modelled.

    Each function of the file is one definition in [PyM world], composed
    from the [Ledger] and [Storage] operations with [focus].  [main]
    takes the parsed arguments ([args]); argparse itself is not modelled.
    An exception other than [ConfigError] escapes [main]: the process
    ends with a traceback. *)

From Stdlib Require Import DecimalString.
From S2P Require Import Prelude PyLib FileTree Storage Ledger.

Local Open Scope string_scope.

(** The credentials of the config file: a name (["aws"], ["mysql"], ...)
    to the keyword arguments stored under it. *)
Abbreviation creds := (gmap string (gmap string string)).

Record world := mk_world {
  w_fs : node;
  w_config : option creds;
  w_configDict : creds;
  w_db : db;
  w_s3 : s3;
  w_clock : datetime;
  w_out : list string
}.

Definition set_fs (fs : node) (w : world) : world :=
  mk_world fs (w_config w) (w_configDict w) (w_db w) (w_s3 w) (w_clock w) (w_out w).
Definition set_config (c : option creds) (w : world) : world :=
  mk_world (w_fs w) c (w_configDict w) (w_db w) (w_s3 w) (w_clock w) (w_out w).
Definition set_configDict (c : creds) (w : world) : world :=
  mk_world (w_fs w) (w_config w) c (w_db w) (w_s3 w) (w_clock w) (w_out w).
Definition set_db (d : db) (w : world) : world :=
  mk_world (w_fs w) (w_config w) (w_configDict w) d (w_s3 w) (w_clock w) (w_out w).
Definition set_s3 (s : s3) (w : world) : world :=
  mk_world (w_fs w) (w_config w) (w_configDict w) (w_db w) s (w_clock w) (w_out w).

(** [print line] *)
Definition print (line : string) : PyM world unit :=
  modify (fun w => mk_world (w_fs w) (w_config w) (w_configDict w) (w_db w) (w_s3 w)
                            (w_clock w) (w_out w ++ [line])).

Definition str_nat (n : nat) : string := NilEmpty.string_of_uint (Nat.to_uint n).

(** [str(t)] of a [datetime]: microseconds only when not zero. *)
Definition str_datetime (t : datetime) : string :=
  dec_fixed 4 (dt_year t) ++ "-" ++ dec_fixed 2 (dt_month t) ++ "-" ++ dec_fixed 2 (dt_day t) ++
  " " ++ dec_fixed 2 (dt_hour t) ++ ":" ++ dec_fixed 2 (dt_minute t) ++ ":" ++
  dec_fixed 2 (dt_second t) ++
  (if Z.eqb (dt_microsecond t) 0 then "" else "." ++ dec_fixed 6 (dt_microsecond t)).

(** ['{0:{width}}'.format(s, width=w)]: left-aligned, padded with spaces. *)
Definition pad_right (w : nat) (s : string) : string :=
  s ++ String.concat "" (repeat " " (w - String.length s)).

(** ** Configuration: loadConfig, saveConfig, configInit, addCredentials *)

(** [loadConfig()] *)
Definition loadConfig : PyM world unit :=
  w <- get_state ;;
  match w_config w with
  | None => raise (ConfigError "Librarian config file does not exist.  Invoke librarian --init to create")
  | Some c => put_state (set_configDict c w)
  end.

(** [saveConfig()] *)
Definition saveConfig : PyM world unit :=
  modify (fun w => set_config (Some (w_configDict w)) w).

(** [configInit()]: when the file exists the code calls
    [ConfigError(msg, configFilename)], two arguments to a constructor
    that takes one, and Python raises [TypeError] instead. *)
Definition configInit : PyM world unit :=
  w <- get_state ;;
  match w_config w with
  | Some _ => raise (TypeError "__init__() takes exactly 2 arguments (3 given)")
  | None => saveConfig
  end.

(** [addCredentials(credentialName, **credential)] *)
Definition addCredentials (name : string) (credential : gmap string string) : PyM world unit :=
  loadConfig ;;;
  modify (fun w => set_configDict (<[name := credential]> (w_configDict w)) w) ;;;
  saveConfig.

(** [d[k]] *)
Definition dict_get {V} (d : gmap string V) (k : string) : outcome V :=
  match d !! k with Some v => Ok v | None => Raise (KeyError k) end.

Section WithCollation.
Variable sql_eq : string -> string -> bool.

(** What [get_db_access] computes from the loaded credentials: the keys
    are read in the order of the call's arguments, then [DBConn] connects. *)
Definition db_conn_of (d : db) (c : creds) : outcome dbconn :=
  m <-? dict_get c "mysql" ;;
  user <-? dict_get m "user" ;;
  password <-? dict_get m "password" ;;
  host <-? dict_get m "host" ;;
  port <-? dict_get m "port" ;;
  DBConn_init d user password host port.

(** [get_db_access()] *)
Definition get_db_access : PyM world dbconn :=
  loadConfig ;;;
  w <- get_state ;;
  lift_outcome (db_conn_of (w_db w) (w_configDict w)).

(** [StorageS3] called with the keyword arguments [aws_cred]: a keyword
    the constructor does not take is a [TypeError]; a missing one takes its
    default. *)
Definition StorageS3_kwargs (kw : gmap string string) : outcome StorageS3 :=
  if bool_decide (forall k, k ∈ dom kw -> k ∈ ["secret_access_key"; "access_key_id"; "bucket"])
  then StorageS3_init (kw !! "secret_access_key") (kw !! "access_key_id")
                      (default default_bucket (kw !! "bucket"))
  else Raise (TypeError "__init__() got an unexpected keyword argument").

Definition s3_conn_of (c : creds) : outcome StorageS3 :=
  aws <-? dict_get c "aws" ;; StorageS3_kwargs aws.

(** [get_s3_access()] *)
Definition get_s3_access : PyM world StorageS3 :=
  loadConfig ;;;
  w <- get_state ;;
  lift_outcome (s3_conn_of (w_configDict w)).

(** [project in db.projectLs()] *)
Definition project_listed (project : string) : PyM world bool :=
  w <- get_state ;;
  lift_outcome (gen_in project (projectLs (w_db w))).

(** [publish(in_or_out, localpath, project, name, version, comment)] *)
Definition publish (in_or_out localpath project name version comment : string) : PyM world unit :=
  conn <- get_db_access ;;
  st <- get_s3_access ;;
  w <- get_state ;;
  if negb (path_exists (w_fs w) localpath)
  then raise (Exception ["Invalid local path specified"]) else
  found <- project_listed project ;;
  (if found then ret tt else print "The given project doesn't exist. Please create it first.") ;;;
  w <- get_state ;;
  let timestamp := w_clock w in
  stamp <- lift_outcome (strftime_stamp timestamp) ;;
  let s3_directory := name ++ stamp in
  res <- focus w_s3 set_s3 (upload (w_fs w) st localpath project name s3_directory) ;;
  let '(urls, checksums) := res in
  let urls := join (String "010" "") urls in
  let checksums := join (String "010" "") checksums in
  let metadata_url := "" in
  let username := "testuser" in
  let hostname := "testhost" in
  let incoming_ := String.eqb in_or_out "in" in
  focus w_db set_db (addInOrOut sql_eq project name version timestamp urls checksums
                                metadata_url comment username hostname incoming_) ;;;
  print "File(s) successfully uploaded".

(** [get(project, dataset, version, localpath)] *)
Definition get (project dataset version localpath : string) : PyM world unit :=
  conn <- get_db_access ;;
  found <- project_listed project ;;
  if negb found then print "The given project doesn't exist" else
  w <- get_state ;;
  if negb (isdir (w_fs w) localpath) then print "The specified local path is not a directory" else
  output <- focus w_fs set_fs (fetch sql_eq (w_db w) (w_s3 w) project dataset version localpath) ;;
  print ("Files stored in the directory  " ++ output).

(** [projectLs()] *)
Definition cmd_projectLs : PyM world unit :=
  conn <- get_db_access ;;
  print "List of all known projects:" ;;;
  w <- get_state ;;
  py_for_gen (projectLs (w_db w)) print.

(** The three [print] statements of the loop of [ls]: the trailing
    commas join them with one space. *)
Definition ls_line (row : string * string * datetime) : string :=
  let '(name, version, timestamp) := row in
  pad_right 25 name ++ " " ++ pad_right 8 version ++ " " ++ str_datetime timestamp.

(** [ls(projectname)] *)
Definition cmd_ls (projectname : string) : PyM world unit :=
  conn <- get_db_access ;;
  found <- project_listed projectname ;;
  if negb found then print "The given project doesn't exist" else
  print ("List of all datasets in a project named " ++ projectname) ;;;
  w <- get_state ;;
  py_for_gen (ls sql_eq (w_db w) projectname) (fun row => print (ls_line row)).

(** [create(projectname, comment)] *)
Definition create (projectname : string) (comment : option string) : PyM world unit :=
  conn <- get_db_access ;;
  found <- project_listed projectname ;;
  if found then print "The given project already exists" else
  w <- get_state ;;
  focus w_db set_db (createProject conn (w_clock w) projectname (default "" comment)).

(** ** main *)

(** The parsed command line, as argparse leaves it. *)
Record args := mk_args {
  a_init : bool;
  a_config : option (list string);
  a_lscreds : bool;
  a_set_aws_cred : option (list string);
  a_set_mysql_cred : option (list string);
  a_ls : option (list string);
  a_pls : bool;
  a_create : option (list string);
  a_publish : option (list string);
  a_type : option string;
  a_get : option (list string)
}.

(** The argument lists argparse builds for options with [nargs=k]. *)
Definition nargs2 (o : option (list string)) : option (string * string) :=
  match o with Some [x; y] => Some (x, y) | _ => None end.
Definition nargs4 (o : option (list string)) : option (string * string * string * string) :=
  match o with Some [x; y; z; t] => Some (x, y, z, t) | _ => None end.
Definition nargs5 (o : option (list string)) : option (string * string * string * string * string) :=
  match o with Some [x; y; z; t; u] => Some (x, y, z, t, u) | _ => None end.

(** [main()] after [parse_args]: [os.path.abspath] of the list argparse
    gives [--config] raises [AttributeError]; the [elif] chain picks one
    command; only [ConfigError] is caught, and its message printed.
    [args.ls[0]] and [args.create[0]], [args.create[1]] index the lists
    ([IndexError] on a short one); [publish(args.type, *args.publish)] and
    [get( *args.get)] with a list of another length raise [TypeError];
    [--set_aws_cred] and [--set_mysql_cred] check their length and fall
    through otherwise.  argparse's [nargs] makes every length exact, so
    these branches are the code's own guards.  The listing of
    [--lscreds] prints each credential's name (its dictionary repr is left
    out), and [parser.print_help()] prints the usage line only. *)
Definition main (a : args) : PyM world unit :=
  try_except
    (match a_config a with
     | Some _ => raise (AttributeError "'list' object has no attribute 'startswith'")
     | None =>
     if a_init a then configInit else
     match nargs2 (a_set_aws_cred a) with
     | Some (k, s) =>
         addCredentials "aws" (<["access_key_id" := k]> (<["secret_access_key" := s]> ∅))
     | None =>
     match nargs4 (a_set_mysql_cred a) with
     | Some (h, p, u, pw) =>
         addCredentials "mysql"
           (<["host" := h]> (<["port" := p]> (<["user" := u]> (<["password" := pw]> ∅))))
     | None =>
     if a_pls a then cmd_projectLs else
     match a_ls a with
     | Some l => p <- lift_outcome (py_index l 0) ;; cmd_ls p
     | None =>
     match a_create a with
     | Some l => p <- lift_outcome (py_index l 0) ;; c <- lift_outcome (py_index l 1) ;; create p (Some c)
     | None =>
     match a_publish a with
     | Some ((_ :: _) as l) =>
         match a_type a with
         | None => print "Please enter the type of data"
         | Some t =>
             match nargs5 (Some l) with
             | Some (path, p, n, v, c) => publish t path p n v c
             | None => raise (TypeError "publish() takes exactly 6 arguments")
             end
         end
     | _ =>
     match a_get a with
     | Some ((_ :: _) as l) =>
         match nargs4 (Some l) with
         | Some (p, d, v, dir) => get p d v dir
         | None => raise (TypeError "get() takes exactly 4 arguments")
         end
     | _ =>
     if a_lscreds a then
       loadConfig ;;;
       w <- get_state ;;
       print ("There are " ++ str_nat (size (w_configDict w)) ++ " credential(s) available") ;;;
       py_for (map fst (map_to_list (w_configDict w))) (fun name => print ("  " ++ name))
     else print "usage: librarian.py [-h] [--version] [--init] ..."
     end end end end end end end)
    (fun e => match e with
              | ConfigError msg => print msg
              | _ => raise e
              end).

(** A run of the script: the module's globals are set when it is loaded,
    [configDict = {"credentials":{}}], then [if __name__ == "__main__":
    main()].  Nothing of one run's [configDict] survives into the next. *)
Definition initial_configDict : creds := ∅.

Definition librarian_script (a : args) : PyM world unit :=
  modify (set_configDict initial_configDict) ;;; main a.

End WithCollation.

(** ** Configuration *)

Definition config_missing_msg : string :=
  "Librarian config file does not exist.  Invoke librarian --init to create".

Lemma loadConfig_some w c : w_config w = Some c -> loadConfig w = (Ok tt, set_configDict c w).
Proof. intros H. unfold loadConfig. py_unfold. by rewrite H. Qed.

Lemma loadConfig_none w : w_config w = None -> loadConfig w = (Raise (ConfigError config_missing_msg), w).
Proof. intros H. unfold loadConfig. py_unfold. by rewrite H. Qed.

(** C28. [--init] on a machine that already has [~/.librarian]: the code means
    to raise [ConfigError] (which [main] would print), but the constructor
    call has one argument too many, so a [TypeError] escapes [main] and the
    process stops with a traceback.  Nothing is written. *)
Theorem main_init_existing_config sql_eq a w :
  a_config a = None -> a_init a = true -> w_config w <> None ->
  main sql_eq a w = (Raise (TypeError "__init__() takes exactly 2 arguments (3 given)"), w).
Proof.
  intros Hc Hi Hw. unfold main, try_except. rewrite Hc, Hi.
  unfold configInit. py_unfold. by destruct (w_config w).
Qed.

(** C29. [python librarian.py --init] on a machine without [~/.librarian]
    writes a config file with no credentials, whatever an earlier run held
    in memory: each run starts from the module's [configDict]. *)
Theorem script_init_fresh sql_eq a w :
  a_config a = None -> a_init a = true -> w_config w = None ->
  librarian_script sql_eq a w =
  (Ok tt, set_config (Some initial_configDict) (set_configDict initial_configDict w)).
Proof.
  intros Hc Hi Hw. unfold librarian_script, main, try_except. py_unfold. rewrite Hc, Hi.
  unfold configInit. py_unfold. cbn [w_config set_configDict]. by rewrite Hw.
Qed.

(** C30. [--set_aws_cred K S] then [get_s3_access()]: the pair is saved in the
    config file under ["aws"] and the next connection is built from it,
    with the default bucket. *)
Theorem set_aws_cred_then_access sql_eq a w c k s :
  a_config a = None -> a_init a = false -> a_set_aws_cred a = Some [k; s] ->
  w_config w = Some c ->
  exists w', main sql_eq a w = (Ok tt, w') /\
    w_config w' = Some (<["aws" := <["access_key_id" := k]> (<["secret_access_key" := s]> ∅)]> c) /\
    get_s3_access w' = (Ok (mk_StorageS3 (Some s) (Some k) default_bucket), w').
Proof.
  intros Hc Hi Ha Hw. unfold main, try_except. rewrite Hc, Hi, Ha. cbn [nargs2].
  unfold addCredentials, bind at 1. rewrite (loadConfig_some w c Hw).
  eexists. split; [reflexivity|]. split; [reflexivity|].
  unfold get_s3_access, bind at 1. erewrite loadConfig_some by reflexivity.
  py_unfold. cbn [w_configDict set_configDict]. unfold s3_conn_of, dict_get, obind.
  rewrite lookup_insert_eq. reflexivity.
Qed.

(** ** ls *)

(** A loop of [print]s appends one line per element. *)
Lemma py_for_print {A} (f : A -> string) l w :
  py_for l (fun x => print (f x)) w =
  (Ok tt, mk_world (w_fs w) (w_config w) (w_configDict w) (w_db w) (w_s3 w) (w_clock w)
                   (w_out w ++ map f l)%list).
Proof.
  revert w. induction l as [|x l IH]; intros w; cbn [py_for map].
  - rewrite app_nil_r. by destruct w.
  - unfold bind at 1, print at 1, modify. rewrite IH. cbn. by rewrite <- app_assoc.
Qed.

(** C22. [--ls p] for a listed project prints the header and then one line
    per submission of the project, incoming then outgoing, in row order,
    each as the name padded to 25 columns, the version padded to 8 and the
    timestamp; nothing but the output changes. *)
Theorem cmd_ls_lists sql_eq w c conn p :
  w_config w = Some c -> db_conn_of (w_db w) c = Ok conn -> db_up (w_db w) = true ->
  p ∈ map eng_name (engagements (w_db w)) ->
  cmd_ls sql_eq p w =
  (Ok tt, mk_world (w_fs w) (w_config w) c (w_db w) (w_s3 w) (w_clock w)
     (w_out w ++ String.append "List of all datasets in a project named " p ::
        map (fun s => String.append (pad_right 25 (sub_name s))
                        (String.append " " (String.append (pad_right 8 (sub_version s))
                          (String.append " " (str_datetime (sub_timestamp s))))))
          (project_rows sql_eq (w_db w) (incoming (w_db w)) p ++
           project_rows sql_eq (w_db w) (outgoing (w_db w)) p))%list).
Proof.
  intros Hcfg Hdb Hup Hp. unfold cmd_ls, get_db_access, project_listed, loadConfig. py_unfold.
  rewrite Hcfg. cbn -[gen_in db_conn_of print ls]. rewrite Hdb.
  cbn -[gen_in print ls]. rewrite gen_in_projectLs, Hup, bool_decide_eq_true_2 by done.
  cbn -[print ls String.append]. unfold print at 1, modify. cbn [w_db set_configDict].
  unfold py_for_gen, ls. rewrite Hup.
  cbn [yielded stopped]. unfold bind. rewrite py_for_print.
  unfold ret, set_configDict. cbn [w_fs w_config w_configDict w_db w_s3 w_clock w_out].
  rewrite Hcfg, <- app_assoc, map_map. reflexivity.
Qed.

(** ** publish *)

Section PublishRun.
Variable sql_eq : string -> string -> bool.
Variables (w : world) (c : creds) (conn : dbconn) (st : StorageS3) (b : string).
Variables (in_or_out localpath project name version comment stamp : string) (n : node).

(** The configuration, both connections and the bucket are usable, the
    server answers, the local path is a file or a directory, and the clock
    is formattable. *)
Hypothesis Hcfg : w_config w = Some c.
Hypothesis Hdb : db_conn_of (w_db w) c = Ok conn.
Hypothesis Hs3 : s3_conn_of c = Ok st.
Hypothesis Hbucket : get_bucket (w_s3 w) st = Ok b.
Hypothesis Hup : db_up (w_db w) = true.
Hypothesis Hwf : wf_node (w_fs w) = true.
Hypothesis Hpath : resolve (w_fs w) localpath = Some n.
Hypothesis Hn : n <> Special.
Hypothesis Hstamp : strftime_stamp (w_clock w) = Ok stamp.

Let sd := join "/" [project; name; name ++ stamp].
Let files := enum_node localpath n.
Let urls := map (fun f => generate_url b (upload_key sd localpath f)) files.
Let s3' := with_bucket (w_s3 w) b (fun m => store_objects m (upload_plan (w_fs w) sd localpath files)).

Hypothesis Hfaults : Forall (fun f => upload_key sd localpath f ∉ s3_faults (w_s3 w)) files.

Let w1 := set_configDict c w.
Let w2 := set_s3 s3'
  (if bool_decide (project ∈ map eng_name (engagements (w_db w))) then w1
   else snd (print "The given project doesn't exist. Please create it first." w1)).

(** [publish] up to the ledger write: the connections are made, the
    warning is printed for a project not listed, and the upload is done;
    what is left is [addInOrOut] and the final message. *)
Lemma publish_upload_phase :
  publish sql_eq in_or_out localpath project name version comment w =
  (focus w_db set_db (addInOrOut sql_eq project name version (w_clock w)
      (join (String "010" "") urls) (join (String "010" "") (map (fun _ => "") files))
      "" comment "testuser" "testhost" (String.eqb in_or_out "in")) ;;;
   print "File(s) successfully uploaded") w2.
Proof.
  unfold publish, get_db_access, get_s3_access, project_listed, loadConfig.
  py_unfold. rewrite Hcfg.
  cbn -[upload addInOrOut strftime_stamp gen_in db_conn_of s3_conn_of path_exists print].
  rewrite Hdb. cbn -[upload addInOrOut strftime_stamp gen_in s3_conn_of path_exists print].
  rewrite Hcfg. cbn -[upload addInOrOut strftime_stamp gen_in s3_conn_of path_exists print].
  rewrite Hs3. cbn -[upload addInOrOut strftime_stamp gen_in path_exists print].
  unfold path_exists. rewrite Hpath. cbn -[upload addInOrOut strftime_stamp gen_in print].
  rewrite gen_in_projectLs, Hup. cbn -[upload addInOrOut strftime_stamp print].
  pose proof (upload_run (w_fs w) st (w_s3 w) localpath project name (name ++ stamp) n b
                Hwf Hpath Hn Hbucket Hfaults) as Hupl.
  unfold w2, w1. case_bool_decide as Hproj; unfold print, modify;
    cbn -[upload addInOrOut strftime_stamp];
    rewrite Hstamp; cbn -[upload addInOrOut]; rewrite Hupl; reflexivity.
Qed.

(** C13. [publish] to a project that is not listed: the code only prints a
    warning, uploads every file of [localpath] to the store, then
    [addInOrOut] raises [Exception('Project does not exist!')].  The ledger
    is unchanged and the uploaded objects stay in the bucket with no row
    pointing at them. *)
Theorem publish_unknown_project :
  project ∉ map eng_name (engagements (w_db w)) ->
  exists w', publish sql_eq in_or_out localpath project name version comment w =
             (Raise (Exception ["Project does not exist!"]), w') /\
             w_db w' = w_db w /\ w_s3 w' = s3' /\ w_fs w' = w_fs w /\
             w_out w' = (w_out w ++ ["The given project doesn't exist. Please create it first."])%list.
Proof.
  intros Hp. rewrite publish_upload_phase. unfold w2, w1.
  rewrite bool_decide_eq_false_2 by done. unfold focus, bind. cbn [w_db set_s3 snd print modify set_configDict].
  rewrite addInOrOut_run, Hup, bool_decide_eq_false_2 by done.
  eexists. split; [reflexivity|]. done.
Qed.

(** C12. [publish] to a listed project under a collation exact on its name:
    every file is uploaded, and one row is appended to [IncomingData]
    (type ["in"]) or [OutgoingData] (any other type) with the project's id,
    the clock's time, the URLs of the walk joined by newlines and as many
    empty checksums. *)
Theorem publish_records e :
  e ∈ engagements (w_db w) -> eng_name e = project -> wf_db (w_db w) ->
  sql_eq project project = true ->
  (forall e', e' ∈ engagements (w_db w) -> sql_eq (eng_name e') project = true -> eng_name e' = project) ->
  exists w', publish sql_eq in_or_out localpath project name version comment w = (Ok tt, w') /\
    w_db w' = snd (insert_submission (String.eqb in_or_out "in") (eng_id e) name version (w_clock w)
                     (join (String "010" "") urls) (join (String "010" "") (map (fun _ => "") files))
                     "" comment "testuser" "testhost" (w_db w)) /\
    w_s3 w' = s3' /\ w_fs w' = w_fs w /\
    w_out w' = (w_out w ++ ["File(s) successfully uploaded"])%list.
Proof.
  intros He Hname Hwfdb Hrefl Hexact. rewrite publish_upload_phase. unfold w2, w1.
  rewrite bool_decide_eq_true_2 by (rewrite <- Hname; apply elem_of_map_iff; eauto).
  unfold focus, bind. cbn [w_db set_s3 set_configDict].
  rewrite (addInOrOut_exact sql_eq project name version _ _ _ _ _ _ _ _ (w_db w) e) by done.
  eexists. split; [reflexivity|]. done.
Qed.

End PublishRun.

(** ** get *)

Section GetRun.
Variable sql_eq : string -> string -> bool.
Variables (w : world) (c : creds) (conn : dbconn) (project dataset version localpath : string).

Hypothesis Hcfg : w_config w = Some c.
Hypothesis Hdb : db_conn_of (w_db w) c = Ok conn.
Hypothesis Hup : db_up (w_db w) = true.

Lemma get_unfold :
  get sql_eq project dataset version localpath w =
  (if bool_decide (project ∈ map eng_name (engagements (w_db w))) then
     (if isdir (w_fs w) localpath then
        output <- focus w_fs set_fs (fetch sql_eq (w_db w) (w_s3 w) project dataset version localpath) ;;
        print ("Files stored in the directory  " ++ output)
      else print "The specified local path is not a directory")
   else print "The given project doesn't exist") (set_configDict c w).
Proof.
  unfold get, get_db_access, project_listed, loadConfig. py_unfold. rewrite Hcfg.
  cbn -[fetch gen_in db_conn_of print isdir]. rewrite Hdb.
  cbn -[fetch gen_in print isdir]. rewrite gen_in_projectLs, Hup.
  cbn -[fetch print isdir bool_decide].
  case_bool_decide; cbn -[fetch print isdir]; try destruct (isdir (w_fs w) localpath); reflexivity.
Qed.

(** C31. [get] of a project that is not listed prints a message and returns
    normally: nothing is downloaded, the caller sees no error. *)
Theorem get_unknown_project :
  project ∉ map eng_name (engagements (w_db w)) ->
  get sql_eq project dataset version localpath w =
  (Ok tt, snd (print "The given project doesn't exist" (set_configDict c w))).
Proof. intros Hp. rewrite get_unfold. by rewrite bool_decide_eq_false_2. Qed.

(** C19. Spec, section 8, says a fetch of a triple with no record fails with
    [DatasetNotFound]; the code returns normally, reports the target
    directory as filled, and writes no file. *)
Theorem get_no_rows :
  project ∈ map eng_name (engagements (w_db w)) -> isdir (w_fs w) localpath = true ->
  manifest_rows sql_eq (w_db w) project dataset version = [] ->
  exists w', get sql_eq project dataset version localpath w = (Ok tt, w') /\
    w_fs w' = w_fs w /\ w_db w' = w_db w /\ w_s3 w' = w_s3 w /\
    w_out w' = (w_out w ++ [String.append "Files stored in the directory  " localpath])%list.
Proof.
  intros Hp Hdir Hrows. rewrite get_unfold, bool_decide_eq_true_2, Hdir by done.
  unfold focus, bind. cbn [w_fs set_configDict w_db w_s3].
  rewrite fetch_no_rows by done. eexists. split; [reflexivity|]. done.
Qed.

Section Listed.
Variable es : list (string * node).
Hypothesis Hp : project ∈ map eng_name (engagements (w_db w)).
Hypothesis Hlp : resolve (w_fs w) localpath = Some (Dir es).
Hypothesis Hall :
  Forall (downloadable (w_s3 w) es) (flat_map split_ws (manifest_rows sql_eq (w_db w) project dataset version)).

(** [get] of a listed project into a directory runs the downloads of
    [fetch] one after the other. *)
Lemma get_fold :
  exists w' es', get sql_eq project dataset version localpath w = (Ok tt, w') /\
    resolve (w_fs w') localpath = Some (Dir es') /\
    forall g, lookup_entry g es' =
      fold_left (written_entry (w_s3 w) g) (flat_map split_ws (manifest_rows sql_eq (w_db w) project dataset version))
                (lookup_entry g es).
Proof.
  destruct (fetch_fold sql_eq (w_db w) (w_s3 w) project dataset version localpath (w_fs w) es Hup Hlp Hall)
    as (fs' & es' & Hf & Hlp' & Hfold).
  rewrite get_unfold, bool_decide_eq_true_2 by done. unfold isdir. rewrite Hlp.
  unfold focus, bind. cbn [w_fs set_configDict w_db w_s3]. rewrite Hf.
  eexists _, es'. split; [reflexivity|]. by split.
Qed.

(** C21. Spec, section 4.2, says [ResolveManifest] returns the URLs of
    the first matching record; [get] downloads the URLs of every row that
    matches the triple: when the names are distinct, every URL of every
    matching row ends up in the target directory with the body of its
    GET. *)
Theorem get_fetches_every_row :
  NoDup (map download_name (flat_map split_ws (manifest_rows sql_eq (w_db w) project dataset version))) ->
  exists w' es', get sql_eq project dataset version localpath w = (Ok tt, w') /\
    resolve (w_fs w') localpath = Some (Dir es') /\
    forall row u body, row ∈ manifest_rows sql_eq (w_db w) project dataset version -> u ∈ split_ws row ->
      http_get (w_s3 w) u = Ok body -> lookup_entry (download_name u) es' = Some (File body).
Proof.
  intros Hnd. destruct get_fold as (w' & es' & Hrun & Hlp' & Hfold).
  exists w', es'. split; [done|]. split; [done|]. intros row u body Hrow Hu Hb.
  rewrite Hfold. apply fold_written_nodup; [done| |done]. by apply (elem_of_flat_map_2 _ _ row).
Qed.

(** C34. Downloads to one name overwrite each other: when the URLs of the
    matching rows are [pre ++ u :: post] and no URL of [post] has [u]'s
    name, the file of that name holds the body of [u], whatever the URLs
    of [pre] with the same name held (files of the same name in different
    subdirectories of a published tree collide on the way back). *)
Theorem get_last_write_wins pre u post body :
  flat_map split_ws (manifest_rows sql_eq (w_db w) project dataset version) = (pre ++ u :: post)%list ->
  download_name u ∉ map download_name post -> http_get (w_s3 w) u = Ok body ->
  exists w' es', get sql_eq project dataset version localpath w = (Ok tt, w') /\
    resolve (w_fs w') localpath = Some (Dir es') /\ lookup_entry (download_name u) es' = Some (File body).
Proof.
  intros Hus Hpost Hb. destruct get_fold as (w' & es' & Hrun & Hlp' & Hfold).
  exists w', es'. split; [done|]. split; [done|]. rewrite Hfold, Hus. by apply fold_written_last.
Qed.

End Listed.

End GetRun.

(** ** The client at a concrete world

    A project ["proj"] in the ledger, a bucket ["lib"] the AWS pair can
    open, the tree [data/a.txt], [data/sub/b.txt] and an empty directory
    [out], and a config file holding both credentials. *)

Definition ex_creds : creds :=
  <["mysql" := <["user" := "u"]> (<["password" := "pw"]> (<["host" := "h"]> (<["port" := "3306"]> ∅)))]>
  (<["aws" := <["access_key_id" := "AK"]> (<["secret_access_key" := "SK"]> (<["bucket" := "lib"]> ∅))]> ∅).
Definition ex_project : engagement := mk_engagement 1 "proj" ex_today "u" "".
Definition ex_db : db := mk_db [ex_project] [] [] 2 1 1 true [("h", 3306%Z, "u", "pw")].
Definition ex_fs : node := Dir [("data", ex_data); ("out", Dir [])].
Definition ex_world : world := mk_world ex_fs (Some ex_creds) ∅ ex_db (ex_service ∅) ex_today [].
Definition ex_stamp : string := "-20150304-102030123456".

Lemma main_init_existing_config_witness :
  fst (main String.eqb (mk_args true None false None None None false None None None None) ex_world) =
  Raise (TypeError "__init__() takes exactly 2 arguments (3 given)").
Proof. rewrite main_init_existing_config; [reflexivity|reflexivity|reflexivity|discriminate]. Defined.

Lemma script_init_fresh_witness :
  snd (librarian_script String.eqb (mk_args true None false None None None false None None None None)
         (set_config None (set_configDict ex_creds ex_world))) =
  set_config (Some ∅) (set_configDict ∅ ex_world).
Proof.
  rewrite (script_init_fresh String.eqb (mk_args true None false None None None false None None None None)
             (set_config None (set_configDict ex_creds ex_world))); reflexivity.
Defined.

Lemma set_aws_cred_then_access_witness :
  exists w', main String.eqb (mk_args false None false (Some ["K2"; "S2"]) None None false None None None None)
               ex_world = (Ok tt, w') /\
             get_s3_access w' = (Ok (mk_StorageS3 (Some "S2") (Some "K2") default_bucket), w').
Proof.
  destruct (set_aws_cred_then_access String.eqb
              (mk_args false None false (Some ["K2"; "S2"]) None None false None None None None)
              ex_world ex_creds "K2" "S2") as (w' & H1 & _ & H2); [reflexivity..|].
  exists w'. split; [exact H1|exact H2].
Defined.

Lemma publish_unknown_project_witness :
  exists w', publish String.eqb "in" "data" "nope" "ds" "1" "" ex_world =
             (Raise (Exception ["Project does not exist!"]), w') /\ w_db w' = ex_db.
Proof.
  destruct (publish_unknown_project String.eqb ex_world ex_creds ex_conn ex_store "lib"
              "in" "data" "nope" "ds" "1" "" ex_stamp ex_data)
    as (w' & H1 & H2 & _); [reflexivity..|discriminate|reflexivity|eval_decide|eval_decide|].
  exists w'. split; [exact H1|exact H2].
Defined.

Lemma publish_records_witness :
  exists w', publish String.eqb "in" "data" "proj" "ds" "1" "" ex_world = (Ok tt, w') /\
             w_out w' = ["File(s) successfully uploaded"].
Proof.
  destruct (publish_records String.eqb ex_world ex_creds ex_conn ex_store "lib"
              "in" "data" "proj" "ds" "1" "" ex_stamp ex_data eq_refl eq_refl eq_refl eq_refl
              eq_refl eq_refl eq_refl ltac:(discriminate) eq_refl ltac:(eval_decide) ex_project
              ltac:(by apply list_elem_of_singleton) eq_refl
              ltac:(constructor; cbn; repeat constructor; set_solver) eq_refl
              ltac:(intros e' _ H; by apply String.eqb_eq))
    as (w' & H1 & _ & _ & _ & H2).
  exists w'. split; [exact H1|exact H2].
Defined.

Lemma get_unknown_project_witness :
  get String.eqb "nope" "ds" "1" "out" ex_world =
  (Ok tt, snd (print "The given project doesn't exist" (set_configDict ex_creds ex_world))).
Proof. apply (get_unknown_project String.eqb ex_world ex_creds ex_conn); [reflexivity..|eval_decide]. Defined.

Lemma get_no_rows_witness :
  exists w', get String.eqb "proj" "other" "1" "out" ex_world = (Ok tt, w') /\ w_fs w' = ex_fs.
Proof.
  destruct (get_no_rows String.eqb ex_world ex_creds ex_conn "proj" "other" "1" "out")
    as (w' & H1 & H2 & _); [reflexivity..|eval_decide|reflexivity|reflexivity|].
  exists w'. split; [exact H1|exact H2].
Defined.

Lemma cmd_ls_lists_witness :
  List.length (w_out (snd (cmd_ls String.eqb "proj"
    (snd (publish String.eqb "in" "data" "proj" "ds" "1" "" ex_world))))) = 3.
Proof.
  rewrite (cmd_ls_lists String.eqb _ ex_creds ex_conn "proj"); [reflexivity|reflexivity|reflexivity|reflexivity|].
  eval_decide.
Defined.

(** Two publishes of one triple, a day apart: the directory [data] as
    incoming, then [data2] holding [c.txt] as outgoing. *)
Definition ex_two_rows : world :=
  let w0 := mk_world (Dir [("data", ex_data); ("data2", Dir [("c.txt", File "C")]); ("out", Dir [])])
              (Some ex_creds) ∅ ex_db (ex_service ∅) ex_today [] in
  let w1 := snd (publish String.eqb "in" "data" "proj" "ds" "1" "" w0) in
  let w1' := mk_world (w_fs w1) (w_config w1) (w_configDict w1) (w_db w1) (w_s3 w1)
               (mk_datetime 2015 3 5 10 20 30 0) (w_out w1) in
  snd (publish String.eqb "out" "data2" "proj" "ds" "1" "" w1').

Lemma get_fetches_every_row_witness :
  List.length (manifest_rows String.eqb (w_db ex_two_rows) "proj" "ds" "1") = 2 /\
  exists w' es', get String.eqb "proj" "ds" "1" "out" ex_two_rows = (Ok tt, w') /\
    resolve (w_fs w') "out" = Some (Dir es') /\
    forall row u body, row ∈ manifest_rows String.eqb (w_db ex_two_rows) "proj" "ds" "1" -> u ∈ split_ws row ->
      http_get (w_s3 ex_two_rows) u = Ok body -> lookup_entry (download_name u) es' = Some (File body).
Proof.
  split; [vm_compute; reflexivity|].
  refine (get_fetches_every_row String.eqb ex_two_rows ex_creds ex_conn "proj" "ds" "1" "out" _ _ _ [] _ _ _ _);
    [vm_compute; reflexivity..|eval_decide|vm_compute; reflexivity|eval_decide|eval_decide].
Defined.

(** A tree with [a.txt] in two subdirectories, published as one dataset. *)
Definition ex_collision : world :=
  let w0 := mk_world (Dir [("data3", Dir [("x", Dir [("a.txt", File "X")]); ("y", Dir [("a.txt", File "Y")])]);
                           ("out", Dir [])])
              (Some ex_creds) ∅ ex_db (ex_service ∅) ex_today [] in
  snd (publish String.eqb "in" "data3" "proj" "ds" "1" "" w0).

Definition ex_collision_url (f : string) : string :=
  generate_url "lib" (upload_key (join "/" ["proj"; "ds"; "ds" ++ ex_stamp]) "data3" f).

Lemma get_last_write_wins_witness :
  exists w' es', get String.eqb "proj" "ds" "1" "out" ex_collision = (Ok tt, w') /\
    resolve (w_fs w') "out" = Some (Dir es') /\ lookup_entry "a.txt" es' = Some (File "Y").
Proof.
  refine (get_last_write_wins String.eqb ex_collision ex_creds ex_conn "proj" "ds" "1" "out" _ _ _ [] _ _ _
           [ex_collision_url "data3/x/a.txt"] (ex_collision_url "data3/y/a.txt") [] "Y" _ _ _);
    [vm_compute; reflexivity..|eval_decide|vm_compute; reflexivity|eval_decide|vm_compute; reflexivity|
     set_solver|vm_compute; reflexivity].
Defined.
