(* ===== verification/Protocol.v ===== *)
(** * The publish/fetch protocol: ledger/store consistency over runs

    The client's commands interleave with changes the environment makes:
    files are edited, the clock moves, the config file is rewritten, S3
    transfers start or stop failing.  [step] is one command run by [main]
    or one such change; [rtc step] is a run.  The invariant [inv] holds of
    every reachable world: the ledger is well formed ([wf_db]), every
    bucket name is a valid S3 name, and every URL recorded in a row of
    [IncomingData] or [OutgoingData] is a public object of the store.  So
    [get] never downloads an S3 error document for a recorded URL.

    The store only grows: an upload writes public objects and a failed
    transfer writes nothing ([store_le]).

    Seen through [Refinement.abs], a run is a sequence of catalogue steps
    ([runs_refine]); and a published triple no row
    shares resolves to exactly the URLs [upload] returned
    ([publish_resolves]). *)

From S2P Require Import Prelude PyLib FileTree Storage Ledger Refinement Librarian.

Local Open Scope string_scope.

(** ** The store *)

(** An S3 bucket name has no ['/'] and no white space. *)
Definition valid_bucket (b : string) : bool := negb (has_char "/" b) && negb (has_space b).

Definition s3_wf (svc : s3) : Prop :=
  map_Forall (fun b _ => valid_bucket b = true) (s3_buckets svc).

Definition public_at (svc : s3) (b k : string) : Prop :=
  exists objs o, s3_buckets svc !! b = Some objs /\ objs !! k = Some o /\ obj_public o = true.

(** [u] is the URL of a public object. *)
Definition served (svc : s3) (u : string) : Prop :=
  exists b k, u = generate_url b k /\ valid_bucket b = true /\ public_at svc b k.

(** The store only grows: the same buckets, and public objects stay public. *)
Record store_le (svc svc' : s3) : Prop := {
  le_buckets : forall b, is_Some (s3_buckets svc !! b) <-> is_Some (s3_buckets svc' !! b);
  le_public : forall b k, public_at svc b k -> public_at svc' b k
}.

#[export] Instance store_le_preorder : PreOrder store_le.
Proof.
  split.
  - intros svc. by split.
  - intros s1 s2 s3 [B12 P12] [B23 P23]. split; [intros b; by rewrite B12|auto].
Qed.

Lemma served_mono svc svc' u : store_le svc svc' -> served svc u -> served svc' u.
Proof. intros [_ HP] (b & k & -> & Hb & Hp). exists b, k. auto. Qed.

Lemma s3_wf_mono svc svc' : store_le svc svc' -> s3_wf svc -> s3_wf svc'.
Proof.
  intros [HB _] Hwf b o Hb. destruct (proj2 (HB b) (mk_is_Some _ _ Hb)) as [o' Ho'].
  exact (Hwf b o' Ho').
Qed.

Lemma with_bucket_insert_le svc b k d :
  store_le svc (with_bucket svc b (insert k (mk_obj d true))).
Proof.
  unfold with_bucket. split; cbn [s3_buckets].
  - intros b'. destruct (decide (b = b')) as [<-|].
    + rewrite lookup_alter_eq. by destruct (s3_buckets svc !! b).
    + by rewrite lookup_alter_ne.
  - intros b' k' (objs & o & Hb & Hk & Ho). unfold public_at. cbn [s3_buckets].
    destruct (decide (b = b')) as [<-|].
    + exists (<[k := mk_obj d true]> objs). rewrite lookup_alter_eq, Hb.
      destruct (decide (k = k')) as [<-|]; [exists (mk_obj d true)|exists o];
        [by rewrite lookup_insert_eq|by rewrite lookup_insert_ne].
    + exists objs, o. by rewrite lookup_alter_ne.
Qed.

Lemma with_bucket_insert_public svc b k d :
  is_Some (s3_buckets svc !! b) -> public_at (with_bucket svc b (insert k (mk_obj d true))) b k.
Proof.
  intros [objs Hb]. exists (<[k := mk_obj d true]> objs), (mk_obj d true).
  unfold with_bucket. cbn [s3_buckets]. by rewrite lookup_alter_eq, Hb, lookup_insert_eq.
Qed.

(** One transfer either changes nothing and raises, or writes one public
    object and returns its URL. *)
Lemma upload_one_effect fs b sd lp f svc r svc' :
  upload_one fs b sd lp f svc = (r, svc') ->
  (svc' = svc /\ exists e, r = Raise e) \/
  exists d, svc' = with_bucket svc b (insert (upload_key sd lp f) (mk_obj d true)) /\
            r = Ok (generate_url b (upload_key sd lp f), "").
Proof.
  destruct (read_file fs f) as [d|e] eqn:Hr.
  - destruct (decide (upload_key sd lp f ∈ s3_faults svc)) as [Hf|Hf].
    + rewrite (upload_one_fault fs b sd lp f d svc Hr Hf). intros [= <- <-]. left. eauto.
    + rewrite (upload_one_ok fs b sd lp f d svc Hr Hf). intros [= <- <-]. right. eauto.
  - unfold upload_one. py_unfold. rewrite Hr. intros [= <- <-]. left. eauto.
Qed.

Lemma upload_one_le fs b sd lp f svc r svc' :
  upload_one fs b sd lp f svc = (r, svc') -> store_le svc svc'.
Proof.
  intros [[-> _]|(d & -> & _)]%upload_one_effect; [reflexivity|apply with_bucket_insert_le].
Qed.

Lemma upload_one_ensures fs b sd lp f :
  valid_bucket b = true ->
  ensures (fun svc => is_Some (s3_buckets svc !! b)) (upload_one fs b sd lp f)
          (fun p svc => served svc p.1).
Proof.
  intros Hb svc r svc' E Hs. destruct (upload_one_effect _ _ _ _ _ _ _ _ E) as [[-> [e ->]]|(d & -> & ->)].
  - by split.
  - split; [by apply (le_buckets _ _ (with_bucket_insert_le svc b _ d))|].
    intros a [= <-]. exists b, (upload_key sd lp f). split; [done|]. split; [done|].
    by apply with_bucket_insert_public.
Qed.

(** [upload] only grows the store, and every URL it returns is served. *)
Lemma upload_post fs st lp p ds ts svc r svc' :
  upload fs st lp p ds ts svc = (r, svc') -> s3_wf svc ->
  store_le svc svc' /\ forall urls cs, r = Ok (urls, cs) -> Forall (served svc') urls.
Proof.
  intros Hrun Hwf. unfold upload, bind at 1, get_state in Hrun. cbn beta iota in Hrun.
  unfold bind at 1, lift_outcome in Hrun.
  destruct (get_bucket svc st) as [b|e] eqn:Hb; [|injection Hrun as <- <-; by split].
  destruct (get_bucket_some _ _ _ Hb) as [objs Hobjs].
  assert (valid_bucket b = true) as Hvb by exact (Hwf b objs Hobjs).
  set (walk := py_map_gen _ _) in Hrun. unfold bind in Hrun.
  destruct (walk svc) as [r1 s1] eqn:E.
  assert (store_le svc s1) as Hle.
  { apply (preserves_map_gen (store_le svc) _ _
             (fun f s r s' Hs Hle => transitivity Hle (upload_one_le _ _ _ _ _ _ _ _ Hs)) svc _ s1 E).
    reflexivity. }
  destruct r1 as [pairs|e]; injection Hrun as <- <-; split; try done.
  intros urls cs [= <- _]. apply Forall_map.
  refine (proj2 (ensures_py_map_gen _ (fun p svc => served svc p.1) _ _
                   (fun f => upload_one_ensures fs b _ lp f Hvb) _ svc _ s1 E _) pairs eq_refl).
  - intros f y s r s' Hs [HB Hy]. pose proof (upload_one_le _ _ _ _ _ _ _ _ Hs) as Hle'.
    split; [by apply (le_buckets _ _ Hle')|by apply (served_mono s)].
  - by exists objs.
Qed.

(** ** URLs are words of the URL column *)

Lemma has_space_append a b : has_space (a ++ b) = has_space a || has_space b.
Proof. induction a as [|c a IH]; simpl; [done|by rewrite IH, orb_assoc]. Qed.

Lemma has_space_quote_char c : has_space (quote_char c) = false.
Proof. destruct c as [[] [] [] [] [] [] [] []]; reflexivity. Qed.

Lemma has_space_quote k : has_space (quote k) = false.
Proof. induction k as [|c k IH]; [done|]. cbn [quote]. by rewrite has_space_append, has_space_quote_char, IH. Qed.

(** The URL of an object of a valid bucket is a word of the URL column:
    [split()] keeps it whole. *)
Lemma generate_url_word b k : valid_bucket b = true -> is_word (generate_url b k).
Proof.
  intros Hb. unfold generate_url. split; [done|].
  apply andb_prop in Hb as [_ Hb]. apply negb_true_iff in Hb.
  rewrite !has_space_append, Hb, has_space_quote. reflexivity.
Qed.

Lemma served_word svc u : served svc u -> is_word u.
Proof. intros (b & k & -> & Hb & _). by apply generate_url_word. Qed.

(** ** The invariant *)

(** Every URL of every row, as [fetch] reads them. *)
Definition ledger_urls (d : db) : list string :=
  flat_map (fun s => split_ws (sub_urls s)) (incoming d ++ outgoing d).

Definition inv_of (d : db) (svc : s3) : Prop :=
  wf_db d /\ s3_wf svc /\ Forall (served svc) (ledger_urls d).

Definition on_view (P : db -> s3 -> Prop) (w : world) : Prop := P (w_db w) (w_s3 w).

(** The invariant of a world. *)
Abbreviation inv := (on_view inv_of).

(** ** Commands that change neither the ledger nor the store *)

Section View.
Variable P : db -> s3 -> Prop.

Lemma print_view line : preserves (on_view P) (print line).
Proof. by intros w r w' [= _ <-]. Qed.

Lemma loadConfig_view : preserves (on_view P) loadConfig.
Proof. intros w r w'. unfold loadConfig. py_unfold. destruct (w_config w); by intros [= _ <-]. Qed.

Lemma saveConfig_view : preserves (on_view P) saveConfig.
Proof. by intros w r w' [= _ <-]. Qed.

Lemma focus_fs_view {A} (m : PyM node A) : preserves (on_view P) (focus w_fs set_fs m).
Proof. apply preserves_focus. done. Qed.

Hint Resolve print_view loadConfig_view saveConfig_view focus_fs_view : librarian.

Lemma configInit_view : preserves (on_view P) configInit.
Proof. unfold configInit. apply preserves_bind; [auto with librarian|]. intros w. destruct (w_config w); auto with librarian. Qed.

Lemma addCredentials_view name cred : preserves (on_view P) (addCredentials name cred).
Proof. unfold addCredentials. apply preserves_bind; [auto with librarian|]. intros _. apply preserves_bind; [|auto with librarian]. by intros w r w' [= _ <-]. Qed.

Hint Resolve configInit_view addCredentials_view : librarian.

Lemma get_db_access_view : preserves (on_view P) get_db_access.
Proof. unfold get_db_access. auto 7 with librarian. Qed.

Lemma get_s3_access_view : preserves (on_view P) get_s3_access.
Proof. unfold get_s3_access. auto 7 with librarian. Qed.

Lemma project_listed_view p : preserves (on_view P) (project_listed p).
Proof. unfold project_listed. auto with librarian. Qed.

Hint Resolve get_db_access_view get_s3_access_view project_listed_view : librarian.

Lemma cmd_projectLs_view : preserves (on_view P) cmd_projectLs.
Proof. unfold cmd_projectLs. auto 8 with librarian. Qed.

Variable sql_eq : string -> string -> bool.

Lemma cmd_ls_view p : preserves (on_view P) (cmd_ls sql_eq p).
Proof.
  unfold cmd_ls. py_preserves; auto with librarian.
Qed.

Lemma get_view p ds v lp : preserves (on_view P) (get sql_eq p ds v lp).
Proof. unfold get. py_preserves; auto with librarian. Qed.
End View.

#[export] Hint Resolve print_view loadConfig_view saveConfig_view focus_fs_view configInit_view
  addCredentials_view get_db_access_view get_s3_access_view project_listed_view
  cmd_projectLs_view cmd_ls_view get_view : librarian.

(** ** Commands that write the ledger or the store *)

Lemma createProject_rows conn t p c d r d' :
  createProject conn t p c d = (r, d') -> incoming d' = incoming d /\ outgoing d' = outgoing d.
Proof. rewrite createProject_run. destruct (db_up d); [case_bool_decide|]; by intros [= _ <-]. Qed.

Lemma create_inv p c : preserves inv (create p c).
Proof.
  unfold create. py_preserves; auto with librarian.
  apply preserves_focus. intros w r d' Hrun (Hwf & Hs3 & Hurls).
  destruct (createProject_rows _ _ _ _ _ _ _ Hrun) as [Hi Ho].
  split; [by apply (createProject_wf _ _ _ _ _ _ _ Hrun)|]. split; [done|].
  unfold ledger_urls in *. cbn [w_db set_db w_s3]. by rewrite Hi, Ho.
Qed.

Lemma ledger_urls_insert inc pid n v t urls c m co un h d (Q : string -> Prop) :
  Forall Q (ledger_urls d) -> Forall Q (split_ws urls) ->
  Forall Q (ledger_urls (snd (insert_submission inc pid n v t urls c m co un h d))).
Proof.
  unfold ledger_urls. rewrite flat_map_app. intros [Hi Ho]%Forall_app Hu.
  destruct inc; cbn [insert_submission snd incoming outgoing];
    rewrite !flat_map_app; cbn [flat_map sub_urls]; rewrite app_nil_r, !Forall_app; tauto.
Qed.

(** [addInOrOut] adds at most the URLs of its [urls] argument. *)
Lemma addInOrOut_urls sql_eq p n v t urls c m co un h inc d r d' (Q : string -> Prop) :
  addInOrOut sql_eq p n v t urls c m co un h inc d = (r, d') ->
  Forall Q (ledger_urls d) -> Forall Q (split_ws urls) -> Forall Q (ledger_urls d').
Proof.
  rewrite addInOrOut_run. intros Hrun Hd Hu.
  destruct (db_up d); [|by injection Hrun as _ <-].
  case_bool_decide; [|by injection Hrun as _ <-].
  destruct (select_project_id sql_eq d p); injection Hrun as _ <-; [|exact Hd].
  by apply ledger_urls_insert.
Qed.

Lemma addInOrOut_inv sql_eq p n v t urls c m co un h inc d r d' svc :
  addInOrOut sql_eq p n v t (join (String "010" "") urls) c m co un h inc d = (r, d') ->
  Forall (served svc) urls -> inv_of d svc -> inv_of d' svc.
Proof.
  intros Hrun Hurls (Hwf & Hs3 & Hd). split; [exact (addInOrOut_wf sql_eq _ _ _ _ _ _ _ _ _ _ _ _ _ _ Hrun Hwf)|].
  split; [done|]. apply (addInOrOut_urls _ _ _ _ _ _ _ _ _ _ _ _ _ _ _ _ Hrun Hd).
  rewrite split_ws_join; [done|]. by apply (Forall_impl _ _ _ Hurls), served_word.
Qed.

Lemma upload_focus_ensures fs st lp p ds ts :
  ensures inv (focus w_s3 set_s3 (upload fs st lp p ds ts))
          (fun res w => Forall (served (w_s3 w)) res.1).
Proof.
  apply ensures_focus. intros w r s' Hrun (Hwf & Hs3 & Hurls).
  destruct (upload_post _ _ _ _ _ _ _ _ _ Hrun Hs3) as [Hle Hok]. split.
  - split; [done|]. split; [by apply (s3_wf_mono _ _ Hle)|].
    apply (Forall_impl _ _ _ Hurls). intros u. by apply served_mono.
  - intros [urls cs] Hr. by apply (Hok urls cs).
Qed.

(** [publish]: the URLs [addInOrOut] records are those [upload] returned,
    all served by the store [upload] left. *)
Lemma publish_inv sql_eq t lp p n v c : preserves inv (publish sql_eq t lp p n v c).
Proof.
  unfold publish. do 3 (apply preserves_bind; [auto with librarian|intros ?]).
  apply preserves_if; [auto with librarian|].
  do 4 (apply preserves_bind; [auto with librarian|intros ?]).
  apply (preserves_bind_ensures _ _ _ _ (upload_focus_ensures _ _ _ _ _ _)).
  intros [urls cs] w r w' Hrun Hinv Hurls. cbn beta iota in Hrun. unfold bind, focus in Hrun.
  destruct (addInOrOut _ _ _ _ _ _ _ _ _ _ _ _ (w_db w)) as [r1 d'] eqn:E.
  pose proof (addInOrOut_inv _ _ _ _ _ _ _ _ _ _ _ _ _ _ _ (w_s3 w) E Hurls Hinv) as Hinv'.
  destruct r1; [unfold print, modify in Hrun|]; by injection Hrun as _ <-.
Qed.

#[export] Hint Resolve create_inv publish_inv : librarian.

(** Every run of [main], whatever the arguments and whether it returns
    or raises, keeps the invariant. *)
Theorem main_inv sql_eq a : preserves inv (main sql_eq a).
Proof.
  unfold main. apply preserves_try; [|intros []; auto with librarian].
  destruct (a_config a); [auto with librarian|].
  destruct (a_init a); [auto with librarian|].
  destruct (nargs2 (a_set_aws_cred a)) as [[]|]; [auto with librarian|].
  destruct (nargs4 (a_set_mysql_cred a)) as [[[[]]]|]; [auto with librarian|].
  destruct (a_pls a); [auto with librarian|].
  destruct (a_ls a); [py_preserves; auto with librarian|].
  destruct (a_create a); [py_preserves; auto with librarian|].
  destruct (a_publish a) as [[|x l]|].
  2:{ destruct (a_type a); [|auto with librarian].
      destruct (nargs5 (Some (x :: l))) as [[[[[]]]]|]; auto with librarian. }
  all: destruct (a_get a) as [[|y l']|];
    try (destruct (nargs4 (Some (y :: l'))) as [[[[]]]|]; auto with librarian).
  all: destruct (a_lscreds a); [py_preserves; auto with librarian|auto with librarian].
Qed.

(** A run of the script resets [configDict], which [inv] does not read. *)
Lemma script_inv sql_eq a : preserves inv (librarian_script sql_eq a).
Proof. unfold librarian_script. apply preserves_bind; [by intros w r w' [= _ <-]|intros _; apply main_inv]. Qed.

Lemma librarian_script_run sql_eq a w :
  librarian_script sql_eq a w = main sql_eq a (set_configDict initial_configDict w).
Proof. reflexivity. Qed.

(** ** Runs of the client in a changing environment *)

(** What the environment may change between two commands: the local files,
    the clock, the config file, and which S3 transfers fail.  Buckets and
    their objects are never deleted. *)
Inductive env_step : world -> world -> Prop :=
| env_files w fs : env_step w (set_fs fs w)
| env_clock w t :
    env_step w (mk_world (w_fs w) (w_config w) (w_configDict w) (w_db w) (w_s3 w) t (w_out w))
| env_config w c : env_step w (set_config c w)
| env_faults w faults :
    env_step w (set_s3 (mk_s3 (s3_buckets (w_s3 w)) (s3_accounts (w_s3 w)) faults) w).

Inductive step (sql_eq : string -> string -> bool) : world -> world -> Prop :=
| step_main a w r w' : librarian_script sql_eq a w = (r, w') -> step sql_eq w w'
| step_env w w' : env_step w w' -> step sql_eq w w'.

Lemma env_step_inv w w' : env_step w w' -> inv w -> inv w'.
Proof. by destruct 1. Qed.

Lemma step_inv sql_eq w w' : step sql_eq w w' -> inv w -> inv w'.
Proof.
  destruct 1 as [a w r w' Hrun|w w' Henv]; [exact (script_inv sql_eq a w r w' Hrun)|].
  by apply env_step_inv.
Qed.

(** The invariant holds of every world a run reaches. *)
Lemma reachable_inv sql_eq w0 w : rtc (step sql_eq) w0 w -> inv w0 -> inv w.
Proof. induction 1 as [|w1 w2 w3 Hs _ IH]; [done|]. intros H. apply IH. by apply (step_inv sql_eq w1). Qed.


(** C2. Uniqueness of project names and referential integrity over runs:
    every world reached from one with a well-formed ledger and a
    consistent store has a well-formed ledger ([wf_db]: project names and
    ids unique, ids below their counters, every row pointing at a
    project). *)
Theorem reachable_ledger_wf sql_eq w0 w :
  rtc (step sql_eq) w0 w -> inv w0 -> wf_db (w_db w).
Proof. intros Hrun Hinv0. by destruct (reachable_inv sql_eq w0 w Hrun Hinv0). Qed.

(** ** Runs seen in the catalogue

    Through [abs], every command changes the catalogue by at most one
    operation of [Refinement]: [create] by [spec_create], [publish] by
    [spec_record], all others not at all; the environment never touches the
    ledger. *)

Lemma focus_s3_db {A} (Pd : db -> Prop) (m : PyM s3 A) :
  preserves (on_view (fun d _ => Pd d)) (focus w_s3 set_s3 m).
Proof. by apply preserves_focus. Qed.

Section RunRefinement.
Variable d0 : db.
Hypothesis Hwf0 : wf_db d0.

Local Abbreviation unchanged := (on_view (fun d _ => d = d0)).
Local Abbreviation moved := (on_view (fun d _ => d = d0 \/ spec_step (abs d0) (abs d))).

Let still w : unchanged w -> moved w.
Proof. by left. Qed.

Lemma focus_db_moved {A} (m : PyM db A) :
  (forall r d', m d0 = (r, d') -> d' = d0 \/ spec_step (abs d0) (abs d')) ->
  leads unchanged moved (focus w_db set_db m).
Proof.
  intros Hm w r w'. unfold focus. destruct (m (w_db w)) as [r1 d1] eqn:E.
  intros [= _ <-] Hw. unfold on_view in Hw. cbn. rewrite Hw in E. by apply (Hm r1).
Qed.

Lemma create_moved p c : leads unchanged moved (create p c).
Proof.
  unfold create. py_leads still.
  apply focus_db_moved. intros r d'. by apply createProject_abs_step.
Qed.

Lemma publish_moved t lp p n v c : leads unchanged moved (publish String.eqb t lp p n v c).
Proof.
  unfold publish. py_leads still.
  apply leads_bind_pre; [exact still|apply (focus_s3_db (fun d => d = d0))|intros [urls cs]].
  apply leads_bind_post; [|auto with librarian].
  apply focus_db_moved. intros r d'. by apply addInOrOut_abs_step.
Qed.

Hint Resolve create_moved publish_moved : librarian.

Lemma main_moved a : leads unchanged moved (main String.eqb a).
Proof.
  unfold main. apply leads_try; [|intros []; auto with librarian].
  repeat match goal with
  | |- leads _ _ (match ?x with _ => _ end) => destruct x as [[[[[]]]]|]
  | |- leads _ _ (match ?x with _ => _ end) => destruct x as [[[[]]]|]
  | |- leads _ _ (match ?x with _ => _ end) => destruct x as [[]|]
  | |- leads _ _ (match ?x with _ => _ end) => destruct x
  end; py_leads still; auto with librarian.
Qed.
Lemma script_moved a : leads unchanged moved (librarian_script String.eqb a).
Proof.
  unfold librarian_script. apply leads_bind_pre; [exact still|by intros w r w' [= _ <-]|intros _; apply main_moved].
Qed.
End RunRefinement.

(** An environment step leaves the ledger as it is. *)
Lemma env_step_db w w' : env_step w w' -> w_db w' = w_db w.
Proof. by destruct 1. Qed.

Lemma step_abs w w' :
  step String.eqb w w' -> wf_db (w_db w) -> rtc spec_step (abs (w_db w)) (abs (w_db w')).
Proof.
  destruct 1 as [a w r w' Hrun|w w' Henv]; intros Hwf; [|by rewrite (env_step_db _ _ Henv)].
  destruct (script_moved (w_db w) Hwf a w r w' Hrun eq_refl) as [->|Hs]; [done|by apply rtc_once].
Qed.

(** C4. Refinement of runs: along every run of the client from a world
    whose invariant holds, the abstract catalogue of the ledger moves by a
    sequence of [spec_create] and [spec_record] steps. *)
Theorem runs_refine w0 w :
  rtc (step String.eqb) w0 w -> inv w0 -> rtc spec_step (abs (w_db w0)) (abs (w_db w)).
Proof.
  induction 1 as [w|w1 w2 w3 Hs Hrest IH]; intros Hinv; [done|].
  etrans; [apply (step_abs _ _ Hs); by destruct Hinv|].
  apply IH. by apply (step_inv String.eqb w1).
Qed.

(** [publish] to a listed project under an exact collation, with every
    transfer succeeding: the files are stored and one row is appended; the
    local files and the config file are untouched. *)
Lemma publish_listed_run w c conn st b (inout lp p n v cm stamp : string) nd e :
  w_config w = Some c -> db_conn_of (w_db w) c = Ok conn -> s3_conn_of c = Ok st ->
  get_bucket (w_s3 w) st = Ok b -> db_up (w_db w) = true -> wf_node (w_fs w) = true ->
  resolve (w_fs w) lp = Some nd -> nd <> Special -> strftime_stamp (w_clock w) = Ok stamp ->
  Forall (fun f => upload_key (join "/" [p; n; n ++ stamp]) lp f ∉ s3_faults (w_s3 w)) (enum_node lp nd) ->
  wf_db (w_db w) -> e ∈ engagements (w_db w) -> eng_name e = p ->
  exists w', publish String.eqb inout lp p n v cm w = (Ok tt, w') /\
    w_fs w' = w_fs w /\ w_config w' = w_config w /\
    w_s3 w' = with_bucket (w_s3 w) b (fun m => store_objects m
                (upload_plan (w_fs w) (join "/" [p; n; n ++ stamp]) lp (enum_node lp nd))) /\
    w_db w' = snd (insert_submission (String.eqb inout "in") (eng_id e) n v (w_clock w)
                (join (String "010" "") (map (fun f => generate_url b (upload_key (join "/" [p; n; n ++ stamp]) lp f))
                                             (enum_node lp nd)))
                (join (String "010" "") (map (fun _ => "") (enum_node lp nd))) "" cm "testuser" "testhost" (w_db w)).
Proof.
  intros Hcfg Hdb Hs3 Hb Hup Hwf Hpath Hn Hstamp Hfaults Hwfdb He Hname.
  pose proof (publish_upload_phase String.eqb w c conn st b inout lp p n v cm stamp nd
                Hcfg Hdb Hs3 Hb Hup Hwf Hpath Hn Hstamp Hfaults) as Hrun.
  rewrite bool_decide_eq_true_2 in Hrun by (rewrite <- Hname; apply elem_of_map_iff; eauto).
  unfold focus, bind in Hrun. cbn [w_db set_s3 set_configDict] in Hrun.
  rewrite (addInOrOut_exact String.eqb p n v _ _ _ _ _ _ _ _ (w_db w) e) in Hrun
    by (done || apply String.eqb_refl || (intros ? _ ?%String.eqb_eq; done)).
  eexists. split; [exact Hrun|]. by cbn.
Qed.

(** C10. Spec, section 8: publishing a (project, dataset, version) triple
    that no row shares records a manifest that resolves to exactly the
    URLs [upload] returned, one per walked file, in walk order: the URL
    list [fetch] then downloads ([split()] of the only matching row) is
    that list. *)
Theorem publish_resolves w c conn st b (inout lp p n v cm stamp : string) nd e :
  w_config w = Some c -> db_conn_of (w_db w) c = Ok conn -> s3_conn_of c = Ok st ->
  get_bucket (w_s3 w) st = Ok b -> db_up (w_db w) = true -> wf_node (w_fs w) = true ->
  resolve (w_fs w) lp = Some nd -> nd <> Special -> strftime_stamp (w_clock w) = Ok stamp ->
  Forall (fun f => upload_key (join "/" [p; n; n ++ stamp]) lp f ∉ s3_faults (w_s3 w)) (enum_node lp nd) ->
  inv w -> e ∈ engagements (w_db w) -> eng_name e = p -> manifest_rows String.eqb (w_db w) p n v = [] ->
  exists w', publish String.eqb inout lp p n v cm w = (Ok tt, w') /\
    flat_map split_ws (manifest_rows String.eqb (w_db w') p n v) =
    map (fun f => generate_url b (upload_key (join "/" [p; n; n ++ stamp]) lp f)) (enum_node lp nd).
Proof.
  intros Hcfg Hdb Hs3 Hb Hup Hwf Hpath Hn Hstamp Hfaults (Hwfdb & Hs3wf & _) He Hname Hnone.
  destruct (publish_listed_run w c conn st b inout lp p n v cm stamp nd e Hcfg Hdb Hs3 Hb Hup Hwf
              Hpath Hn Hstamp Hfaults Hwfdb He Hname) as (w' & Hrun & _ & _ & _ & Hdb').
  exists w'. split; [exact Hrun|].
  rewrite Hdb', (manifest_rows_insert_new _ e) by done. cbn [flat_map]. rewrite app_nil_r.
  apply split_ws_join, Forall_fmap, Forall_forall. intros f _. apply generate_url_word.
  destruct (get_bucket_some _ _ _ Hb) as [objs Hobjs]. exact (Hs3wf b objs Hobjs).
Qed.

(** ** At the example world *)

Lemma ex_world_inv : inv ex_world.
Proof.
  split; [|split].
  - constructor; cbn; repeat constructor; set_solver.
  - apply map_Forall_singleton. reflexivity.
  - constructor.
Qed.

Definition ex_publish_args : args :=
  mk_args false None false None None None false None (Some ["data"; "proj"; "ds"; "1"; ""]) (Some "in") None.

Lemma ex_publish_step : step String.eqb ex_world (snd (librarian_script String.eqb ex_publish_args ex_world)).
Proof. apply (step_main _ ex_publish_args _ (fst (librarian_script String.eqb ex_publish_args ex_world))). apply surjective_pairing. Qed.

Lemma reachable_ledger_wf_witness : wf_db (w_db (snd (librarian_script String.eqb ex_publish_args ex_world))).
Proof. apply (reachable_ledger_wf String.eqb ex_world); [apply rtc_once, ex_publish_step|exact ex_world_inv]. Defined.


Lemma runs_refine_witness :
  rtc spec_step (abs (w_db ex_world)) (abs (w_db (snd (librarian_script String.eqb ex_publish_args ex_world)))).
Proof. apply (runs_refine ex_world); [apply rtc_once, ex_publish_step|exact ex_world_inv]. Defined.

Lemma publish_resolves_witness :
  exists w', publish String.eqb "in" "data" "proj" "ds" "1" "" ex_world = (Ok tt, w') /\
    flat_map split_ws (manifest_rows String.eqb (w_db w') "proj" "ds" "1") =
    ["https://s3.amazonaws.com/lib/proj/ds/ds-20150304-102030123456/a.txt";
     "https://s3.amazonaws.com/lib/proj/ds/ds-20150304-102030123456/sub/b.txt"].
Proof.
  apply (publish_resolves ex_world ex_creds ex_conn ex_store "lib" "in" "data" "proj" "ds" "1" ""
           ex_stamp ex_data ex_project); try reflexivity.
  - discriminate.
  - apply Forall_forall. set_solver.
  - apply ex_world_inv.
  - by apply list_elem_of_singleton.
Defined.
