(* ===== verification/RoundTrip.v ===== *)
(** * Publish then get: the round trip of the protocol

    [publish] uploads the files of a local path and records their URLs;
    [get] of the same triple downloads every recorded URL into a local
    directory, each to the name after the URL's last ['/']
    ([Ledger.download_name]).  The theorem of this file composes the two
    commands of [librarian.py] over one world: for a triple no row shares,
    with names that are distinct and free in the target directory, every
    walked file comes back with its bytes, under its flattened name.

    The proof joins the lemmas of each component: the run of [publish]
    ([Protocol.publish_listed_run]), the objects the upload leaves
    ([Storage.upload_served_data]), the row the query of [fetch] finds
    ([Refinement.manifest_rows_insert_new]), the URL column's round trip
    ([PyLib.split_ws_join]), the downloads ([Ledger.fetch_downloads]) and
    the file writes ([FileTree.write_child]). *)

From S2P Require Import Prelude PyLib FileTree Storage Ledger Refinement Librarian Protocol.

Local Open Scope string_scope.

(** [get_db_access] reads only the server's state and its accounts. *)
Lemma db_conn_of_same d d' c :
  db_up d' = db_up d -> db_accounts d' = db_accounts d -> db_conn_of d' c = db_conn_of d c.
Proof. intros Hu Ha. unfold db_conn_of, DBConn_init. by rewrite Hu, Ha. Qed.

Lemma generate_url_slash b k : has_char "/" (generate_url b k) = true.
Proof. unfold generate_url. by rewrite has_char_append. Qed.

(** The URL of a file published on its own ends with the quoted last
    component of the store directory. *)
Lemma single_file_download_name b p n stamp lp :
  has_char "/" n = false -> has_char "/" stamp = false ->
  download_name (generate_url b (upload_key (join "/" [p; n; n ++ stamp]) lp lp)) = quote (n ++ stamp).
Proof.
  intros Hn Hs. assert (Hy : has_char "/" (n ++ stamp) = false) by (by rewrite has_char_append, Hn, Hs).
  unfold generate_url, upload_key. rewrite slice_from_length, append_nil_r. cbn [join].
  remember (n ++ stamp) as y eqn:Ey. clear Ey. rewrite !quote_append. change (quote "/") with "/".
  rewrite !append_assoc, <- (append_assoc _ "/" (quote y)). by apply download_name_last, quote_no_slash.
Qed.

Section RoundTrip.
Variables (w : world) (c : creds) (conn : dbconn) (st : StorageS3) (b : string).
Variables (inout lp p n v cm stamp lp2 : string) (nd : node) (e : engagement).
Variable (es2 : list (string * node)).

(** The configuration, both connections and the bucket are usable, the
    local path is a file or a directory, the clock is formattable, no
    transfer fails, the world is consistent, [p] is a listed project and
    no row has the triple yet. *)
Hypothesis Hcfg : w_config w = Some c.
Hypothesis Hdb : db_conn_of (w_db w) c = Ok conn.
Hypothesis Hs3 : s3_conn_of c = Ok st.
Hypothesis Hb : get_bucket (w_s3 w) st = Ok b.
Hypothesis Hup : db_up (w_db w) = true.
Hypothesis Hwf : wf_node (w_fs w) = true.
Hypothesis Hpath : resolve (w_fs w) lp = Some nd.
Hypothesis Hn : nd <> Special.
Hypothesis Hstamp : strftime_stamp (w_clock w) = Ok stamp.
Hypothesis Hfaults :
  Forall (fun f => upload_key (join "/" [p; n; n ++ stamp]) lp f ∉ s3_faults (w_s3 w)) (enum_node lp nd).
Hypothesis Hinv : inv w.
Hypothesis He : e ∈ engagements (w_db w).
Hypothesis Hname : eng_name e = p.
Hypothesis Hnone : manifest_rows String.eqb (w_db w) p n v = [].

(** The target is a directory, and the names the URLs are written under
    are valid, distinct, and not directories there. *)
Hypothesis Hlp2 : resolve (w_fs w) lp2 = Some (Dir es2).

Let url f := generate_url b (upload_key (join "/" [p; n; n ++ stamp]) lp f).

Hypothesis Hnames :
  Forall (fun f => valid_name (download_name (url f)) = true /\
                   writable_entry (lookup_entry (download_name (url f)) es2) = true) (enum_node lp nd).
Hypothesis Hdistinct : NoDup (map (fun f => download_name (url f)) (enum_node lp nd)).

(** The run of [publish] then [get], and the files it leaves. *)
Lemma publish_get_run :
  exists w1 w2, publish String.eqb inout lp p n v cm w = (Ok tt, w1) /\
    get String.eqb p n v lp2 w1 = (Ok tt, w2) /\
    Forall (fun f => exists data, resolve (w_fs w) f = Some (File data) /\
                     resolve (w_fs w2) (lp2 ++ "/" ++ download_name (url f)) = Some (File data))
           (enum_node lp nd).
Proof.
  destruct Hinv as (Hwfdb & Hs3wf & _).
  destruct (publish_listed_run w c conn st b inout lp p n v cm stamp nd e Hcfg Hdb Hs3 Hb Hup Hwf
              Hpath Hn Hstamp Hfaults Hwfdb He Hname) as (w1 & Hrun1 & Hfs1 & Hcfg1 & Hs31 & Hdb1).
  destruct (get_bucket_some _ _ _ Hb) as [objs Hobjs].
  assert (Hslash : has_char "/" b = false).
  { pose proof (Hs3wf b objs Hobjs) as Hv. apply andb_prop in Hv as [Hv _]. by apply negb_true_iff. }
  pose proof (upload_served_data (w_fs w) (w_s3 w) lp (join "/" [p; n; n ++ stamp]) nd b objs
                Hwf Hpath Hslash Hobjs) as Hserved.
  assert (Hup1 : db_up (w_db w1) = true) by (rewrite Hdb1; by destruct (String.eqb inout "in")).
  assert (Hdb1' : db_conn_of (w_db w1) c = Ok conn)
    by (rewrite db_conn_of_same with (d := w_db w); [done| |]; rewrite Hdb1; by destruct (String.eqb inout "in")).
  assert (Hurls : flat_map split_ws (manifest_rows String.eqb (w_db w1) p n v) = map url (enum_node lp nd)).
  { rewrite Hdb1, (manifest_rows_insert_new _ e) by done. cbn [flat_map]. rewrite app_nil_r.
    apply split_ws_join, Forall_fmap, Forall_forall. intros f _. apply generate_url_word.
    exact (Hs3wf b objs Hobjs). }
  assert (Hlp2' : resolve (w_fs w1) lp2 = Some (Dir es2)) by by rewrite Hfs1.
  destruct (fetch_downloads String.eqb (w_db w1) (w_s3 w1) p n v lp2 (w_fs w1) es2 Hup1 Hlp2')
    as (fs' & es' & Hfetch & Hlp' & Hfiles).
  { rewrite Hurls. apply Forall_fmap, Forall_forall. intros f Hf.
    destruct (proj1 (Forall_forall _ _) Hnames f Hf) as [Hv Hw'].
    destruct (proj1 (Forall_forall _ _) Hserved f Hf) as (data & _ & Hget).
    unfold downloadable. split; [apply generate_url_slash|]. split; [done|]. split; [done|]. rewrite Hs31. unfold url. by rewrite Hget. }
  { by rewrite Hurls, map_map. }
  rewrite Hurls in Hfiles.
  exists w1. eexists. split; [exact Hrun1|]. split.
  - rewrite (get_unfold String.eqb w1 c conn p n v lp2) by (rewrite ?Hcfg1; done).
    rewrite bool_decide_eq_true_2.
    2:{ rewrite Hdb1, <- Hname. apply elem_of_map_iff. exists e. split; [done|]. by destruct (String.eqb inout "in"). }
    unfold isdir. rewrite Hlp2'. unfold focus, bind. cbn [w_fs w_db w_s3 set_configDict].
    rewrite Hfetch. reflexivity.
  - apply Forall_forall. intros f Hf.
    destruct (proj1 (Forall_forall _ _) Hserved f Hf) as (data & Hdata & Hget).
    destruct (proj1 (Forall_forall _ _) Hnames f Hf) as [Hv _].
    exists data. split; [done|]. cbn [w_fs set_fs print modify].
    rewrite (resolve_child_lookup _ lp2 es') by done.
    apply (proj1 (Forall_forall _ _) Hfiles (url f)); [by apply list_elem_of_fmap_2|].
    rewrite Hs31. exact Hget.
Qed.

(** C11. The round trip of spec section 8 in general: [publish] of a
    triple no row shares, then [get] of that triple into the directory
    [lp2], both succeed, and every walked file's bytes are in [lp2] under
    the last component of its URL: the directory structure is flattened,
    the contents are kept. *)
Theorem publish_get_roundtrip :
  exists w1 w2, publish String.eqb inout lp p n v cm w = (Ok tt, w1) /\
    get String.eqb p n v lp2 w1 = (Ok tt, w2) /\
    Forall (fun f => exists data, resolve (w_fs w) f = Some (File data) /\
                     resolve (w_fs w2) (lp2 ++ "/" ++ download_name (url f)) = Some (File data))
           (enum_node lp nd).
Proof. exact publish_get_run. Qed.

(** C33. A single file published as dataset [n] is stored under the key
    [p/n/n<stamp>], with no file name: [get] writes it to
    [lp2/quote(n<stamp>)], so the file's own name is lost on the way
    back. *)
Theorem publish_single_file_name data :
  nd = File data -> has_char "/" n = false ->
  exists w1 w2, publish String.eqb inout lp p n v cm w = (Ok tt, w1) /\
    get String.eqb p n v lp2 w1 = (Ok tt, w2) /\
    resolve (w_fs w2) (lp2 ++ "/" ++ quote (n ++ stamp)) = Some (File data).
Proof.
  intros Hnd Hn'. destruct publish_get_run as (w1 & w2 & H1 & H2 & Hall).
  exists w1, w2. split; [done|]. split; [done|].
  rewrite Hnd in Hall, Hpath. cbn [enum_node] in Hall. apply Forall_inv in Hall as (data' & Hd & Hout).
  rewrite Hpath in Hd. injection Hd as <-. unfold url in Hout.
  by rewrite single_file_download_name in Hout by (done || by apply (strftime_stamp_no_slash (w_clock w))).
Qed.

End RoundTrip.

(** ** At the example world *)

Lemma publish_get_roundtrip_witness :
  exists w1 w2, publish String.eqb "in" "data" "proj" "ds" "1" "" ex_world = (Ok tt, w1) /\
    get String.eqb "proj" "ds" "1" "out" w1 = (Ok tt, w2) /\
    resolve (w_fs w2) "out/b.txt" = Some (File "B").
Proof.
  destruct (publish_get_roundtrip ex_world ex_creds ex_conn ex_store "lib" "in" "data" "proj" "ds" "1" ""
              ex_stamp "out" ex_data ex_project [] eq_refl eq_refl eq_refl eq_refl eq_refl eq_refl eq_refl
              ltac:(discriminate) eq_refl ltac:(apply Forall_forall; set_solver) ex_world_inv
              ltac:(by apply list_elem_of_singleton) eq_refl eq_refl eq_refl ltac:(eval_decide) ltac:(eval_decide))
    as (w1 & w2 & H1 & H2 & Hall).
  exists w1, w2. split; [exact H1|]. split; [exact H2|].
  apply Forall_inv_tail, Forall_inv in Hall as (data & Hdata & Hout).
  vm_compute in Hdata. injection Hdata as <-.
  change ("out" ++ "/" ++ download_name (generate_url "lib" (upload_key (join "/" ["proj"; "ds"; "ds" ++ ex_stamp])
            "data" "data/sub/b.txt"))) with "out/b.txt" in Hout.
  exact Hout.
Defined.

Lemma publish_single_file_name_witness :
  exists w1 w2, publish String.eqb "in" "data/a.txt" "proj" "ds" "1" "" ex_world = (Ok tt, w1) /\
    get String.eqb "proj" "ds" "1" "out" w1 = (Ok tt, w2) /\
    resolve (w_fs w2) ("out/" ++ quote ("ds" ++ ex_stamp)) = Some (File "A").
Proof.
  apply (publish_single_file_name ex_world ex_creds ex_conn ex_store "lib" "in" "data/a.txt" "proj" "ds" "1" ""
           ex_stamp "out" (File "A") ex_project [] eq_refl eq_refl eq_refl eq_refl eq_refl eq_refl eq_refl
           ltac:(discriminate) eq_refl ltac:(apply Forall_forall; set_solver) ex_world_inv
           ltac:(by apply list_elem_of_singleton) eq_refl eq_refl eq_refl ltac:(eval_decide) ltac:(eval_decide)
           "A" eq_refl eq_refl).
Defined.
