(* ===== verification/SelfTest.v ===== *)
(** * The self-test of dbconn.py

    [dbconn.py] ends with a block run when the module is executed as a
    script ([if __name__=='__main__']): it reads the MySQL credentials
    from [~/.librarian], connects with [DBConn( **cred)], prints the list
    of projects and the datasets of the first one, records a test
    submission with [addInOrOut] in [OutgoingData] of that project, then
    reconnects and fetches a fixed triple into a fixed directory.

    [dbconn_main] is that block over the [world] of [Librarian].  The
    theorems show that a run on a ledger with a project writes a permanent
    row whose URL column is the word [urls], which breaks the consistency
    invariant of [Protocol]; on a ledger without a project the script
    prints [[]] and stops with [IndexError] before writing. *)

From S2P Require Import Prelude PyLib FileTree Storage Ledger Librarian Protocol.

Local Open Scope string_scope.

Section SelfTest.
Variable sql_eq : string -> string -> bool.

(** [DBConn( **cred)]: a keyword the constructor does not take is a
    [TypeError]; [port] defaults to [3306], and [int(port)] runs before
    the connection.  MySQLdb connects a missing user, password or host
    with its own defaults (the login name, no password, the local host);
    the server of the model has no such account and refuses it. *)
Definition DBConn_kwargs (d : db) (kw : gmap string string) : outcome dbconn :=
  if bool_decide (forall k, k ∈ dom kw -> k ∈ ["user"; "password"; "host"; "port"]) then
    let port := default "3306" (kw !! "port") in
    match py_int port with
    | None => Raise (ValueError "invalid literal for int() with base 10")
    | Some _ =>
        match kw !! "user", kw !! "password", kw !! "host" with
        | Some user, Some password, Some host => DBConn_init d user password host port
        | _, _, _ => Raise (Exception ["Invalid credentials for librarian database"])
        end
    end
  else Raise (TypeError "__init__() got an unexpected keyword argument").

(** [json.load(open(os.path.abspath(os.path.expanduser("~/.librarian"))))]:
    its ["credentials"] entry; [open] of a missing file raises [IOError]. *)
Definition json_load_config (w : world) : outcome creds :=
  match w_config w with
  | Some c => Ok c
  | None => Raise (IOError "~/.librarian")
  end.

(** [print files]: a row of [ls] is a tuple [(name, version, timestamp)]. *)
Definition repr_ls_row (row : string * string * datetime) : string :=
  let '(name, version, timestamp) := row in
  repr_tuple [repr_str name; repr_str version; repr_datetime timestamp].

(** The [__main__] block of [dbconn.py]. *)
Definition dbconn_main : PyM world unit :=
  w <- get_state ;;
  cred <- lift_outcome (json_load_config w) ;;
  cred <- lift_outcome (dict_get cred "mysql") ;;
  conn <- lift_outcome (DBConn_kwargs (w_db w) cred) ;;
  projects <- lift_outcome (gen_list (projectLs (w_db w))) ;;
  print (repr_list repr_str projects) ;;;
  project0 <- lift_outcome (py_index projects 0) ;;
  files <- lift_outcome (gen_list (ls sql_eq (w_db w) project0)) ;;
  print (repr_list repr_ls_row files) ;;;
  w <- get_state ;;
  focus w_db set_db (addInOrOut sql_eq project0 "test1" "0.0" (w_clock w) "urls" "checksums"
                       "meta_url" "some comments" "dummyuser" "dummydomain" false) ;;;
  w <- get_state ;;
  conn <- lift_outcome (DBConn_kwargs (w_db w) cred) ;;
  _ <- focus w_fs set_fs (fetch sql_eq (w_db w) (w_s3 w) "project1" "test" "0.0" "/home/abhinav/delete") ;;
  ret tt.

End SelfTest.

(** ** Runs of the self-test *)

Section Runs.
Local Open Scope list_scope.
Variables (w : world) (c : creds) (m : gmap string string) (conn : dbconn).
Hypothesis Hcfg : w_config w = Some c.
Hypothesis Hm : c !! "mysql" = Some m.
Hypothesis Hconn : DBConn_kwargs (w_db w) m = Ok conn.
Hypothesis Hup : db_up (w_db w) = true.

(** The script up to [projects[0]]: it prints the project list. *)
Lemma dbconn_main_projects sql_eq :
  dbconn_main sql_eq w =
  (print (repr_list repr_str (map eng_name (engagements (w_db w)))) ;;;
   project0 <- lift_outcome (py_index (map eng_name (engagements (w_db w))) 0) ;;
   files <- lift_outcome (gen_list (ls sql_eq (w_db w) project0)) ;;
   print (repr_list repr_ls_row files) ;;;
   w <- get_state ;;
   focus w_db set_db (addInOrOut sql_eq project0 "test1" "0.0" (w_clock w) "urls" "checksums"
                        "meta_url" "some comments" "dummyuser" "dummydomain" false) ;;;
   w <- get_state ;;
   conn <- lift_outcome (DBConn_kwargs (w_db w) m) ;;
   _ <- focus w_fs set_fs (fetch sql_eq (w_db w) (w_s3 w) "project1" "test" "0.0" "/home/abhinav/delete") ;;
   ret tt) w.
Proof.
  unfold dbconn_main, json_load_config. py_unfold. rewrite Hcfg. unfold dict_get at 1.
  rewrite Hm, Hconn. unfold projectLs, gen_list. rewrite Hup. reflexivity.
Qed.

(** A second [DBConn( **cred)] after a write that keeps the server and
    its accounts connects as the first did. *)
Lemma DBConn_kwargs_same d d' kw :
  db_up d' = db_up d -> db_accounts d' = db_accounts d -> DBConn_kwargs d' kw = DBConn_kwargs d kw.
Proof. intros Hu Ha. unfold DBConn_kwargs, DBConn_init. by rewrite Hu, Ha. Qed.

Section WithProject.
Variables (e : engagement) (es : list engagement).
Hypothesis Hwf : wf_db (w_db w).
Hypothesis Heng : engagements (w_db w) = e :: es.

(** The test row of the script. *)
Definition test_row (d : db) : db :=
  snd (insert_submission false (eng_id e) "test1" "0.0" (w_clock w) "urls" "checksums" "meta_url"
         "some comments" "dummyuser" "dummydomain" d).

Lemma dbconn_main_run :
  exists r fs', dbconn_main String.eqb w =
    (r, mk_world fs' (w_config w) (w_configDict w) (test_row (w_db w)) (w_s3 w) (w_clock w)
          (w_out w ++ [repr_list repr_str (map eng_name (engagements (w_db w)));
                       repr_list repr_ls_row (yielded (ls String.eqb (w_db w) (eng_name e)))])%list).
Proof.
  rewrite dbconn_main_projects. py_unfold. unfold print at 1 2, modify. cbn -[repr_list addInOrOut fetch DBConn_kwargs ls].
  rewrite Heng. cbn [map py_index lookup list_lookup]. unfold gen_list at 1, ls at 1 2. rewrite Hup.
  cbn -[repr_list addInOrOut fetch DBConn_kwargs].
  rewrite (addInOrOut_exact String.eqb (eng_name e) _ _ _ _ _ _ _ _ _ _ (w_db w) e) by
    (rewrite ?Heng; (done || set_solver || apply String.eqb_refl || (intros ? _ ?%String.eqb_eq; done))).
  cbn -[repr_list fetch DBConn_kwargs insert_submission].
  rewrite (DBConn_kwargs_same (w_db w)), Hconn by (by destruct false).
  unfold ls; rewrite Hup, <- app_assoc.
  destruct (fetch _ _ _ _ _ _ _ _) as [[[]|ex] fs']; eexists _, fs'; f_equal;
    unfold test_row, insert_submission; cbn; by rewrite ?Heng, ?Hup.
Qed.

(** C24. The self-test writes into the shared ledger: on a ledger whose
    first project is [e], a run appends one row [test1], [0.0], with the
    URL column [urls], to [OutgoingData] under [e]'s id, keeps the other
    tables and the store, and prints the project list and the rows of [e]
    as Python [repr]s. *)
Theorem selftest_records :
  engagements (w_db (snd (dbconn_main String.eqb w))) = engagements (w_db w) /\
  incoming (w_db (snd (dbconn_main String.eqb w))) = incoming (w_db w) /\
  outgoing (w_db (snd (dbconn_main String.eqb w))) =
    outgoing (w_db w) ++ [mk_submission (next_out_id (w_db w)) (eng_id e) "test1" "0.0" (w_clock w)
                           "urls" "checksums" "meta_url" "some comments" "dummyuser" "dummydomain"] /\
  w_s3 (snd (dbconn_main String.eqb w)) = w_s3 w /\
  w_out (snd (dbconn_main String.eqb w)) =
    w_out w ++ [repr_list repr_str (map eng_name (engagements (w_db w)));
                repr_list repr_ls_row (yielded (ls String.eqb (w_db w) (eng_name e)))].
Proof. destruct dbconn_main_run as (r & fs' & ->). by repeat split. Qed.

(** C23. The row the self-test leaves breaks the consistency of the ledger
    and the store: its URL [urls] is no S3 URL, so after a run no store
    makes the invariant of [Protocol] hold, and a [get] of the triple
    would fail on it. *)
Theorem selftest_breaks_consistency : ~ inv (snd (dbconn_main String.eqb w)).
Proof.
  destruct dbconn_main_run as (r & fs' & ->). intros (_ & _ & Hurls).
  unfold ledger_urls in Hurls. cbn [w_db test_row insert_submission snd incoming outgoing] in Hurls.
  rewrite !flat_map_app, !Forall_app in Hurls. destruct Hurls as (_ & _ & Hu).
  cbn in Hu. apply Forall_inv in Hu as (b & k & Hgen & _). discriminate Hgen.
Qed.

End WithProject.

(** C25. On a ledger without a project the self-test prints [[]] and stops
    at [projects[0]] with [IndexError], before any write. *)
Theorem selftest_no_project sql_eq :
  engagements (w_db w) = [] ->
  dbconn_main sql_eq w =
  (Raise (IndexError "list index out of range"),
   mk_world (w_fs w) (w_config w) (w_configDict w) (w_db w) (w_s3 w) (w_clock w) (w_out w ++ ["[]"%string])).
Proof. intros Heng. rewrite dbconn_main_projects, Heng. reflexivity. Qed.

End Runs.

(** ** At the example world *)

Definition ex_mysql : gmap string string :=
  <["user" := "u"]> (<["password" := "pw"]> (<["host" := "h"]> (<["port" := "3306"]> ∅))).

Lemma selftest_records_witness :
  outgoing (w_db (snd (dbconn_main String.eqb ex_world))) =
  [mk_submission 1 1 "test1" "0.0" ex_today "urls" "checksums" "meta_url" "some comments" "dummyuser" "dummydomain"].
Proof.
  destruct (selftest_records ex_world ex_creds ex_mysql ex_conn eq_refl eq_refl ltac:(vm_compute; reflexivity)
              eq_refl ex_project [] ltac:(apply ex_world_inv) eq_refl) as (_ & _ & H & _).
  exact H.
Defined.

Lemma selftest_breaks_consistency_witness : ~ inv (snd (dbconn_main String.eqb ex_world)).
Proof.
  apply (selftest_breaks_consistency ex_world ex_creds ex_mysql ex_conn eq_refl eq_refl
           ltac:(vm_compute; reflexivity) eq_refl ex_project []); [apply ex_world_inv|reflexivity].
Defined.

Definition ex_world_empty : world :=
  mk_world ex_fs (Some ex_creds) ∅ (mk_db [] [] [] 1 1 1 true [("h", 3306%Z, "u", "pw")])
           (ex_service ∅) ex_today [].

Lemma selftest_no_project_witness :
  fst (dbconn_main String.eqb ex_world_empty) = Raise (IndexError "list index out of range").
Proof.
  rewrite (selftest_no_project ex_world_empty ex_creds ex_mysql ex_conn eq_refl eq_refl
             ltac:(vm_compute; reflexivity) eq_refl String.eqb eq_refl).
  reflexivity.
Defined.
